(** * secret_broadcast: the password-based encryption envelope of [src/main.py]

    The development embeds [encrypt_file] and [decrypt_file] together with
    the library routines they call.  The text codecs ([base64], [json],
    UTF-8) and the framing of the Fernet recipe are written out; the
    cryptographic primitives underneath (scrypt, AES-128-CBC, HMAC-SHA256)
    are an interface with the functional laws the proofs rely on. *)

From Stdlib Require Import ZArith NArith Lia Bool String Ascii List.
From Stdlib.Strings Require Import Byte.
From Stdlib Require Import Decimal DecimalZ DecimalPos.
Import ListNotations.

Set Implicit Arguments.
Set Warnings "-register-all".

(** ** Python values and exceptions *)

(** [bytes] objects. *)
Definition bytes := list byte.

(** [str] objects, as the sequence of their code points. *)
Definition pystr := list N.

(** The exceptions the two functions and their callees can raise. *)
Inductive exn : Type :=
| UnicodeEncodeError
| UnicodeDecodeError
| JSONDecodeError
| KeyError (key : pystr)
| TypeError
| AttributeError
| BinasciiError
| ValueError
| OverflowError
| MemoryError
| InvalidToken.

Inductive result (A : Type) : Type :=
| Ok (a : A)
| Raise (e : exn).
Arguments Ok {A} a.
Arguments Raise {A} e.

Definition rbind {A B} (r : result A) (k : A -> result B) : result B :=
  match r with
  | Ok a => k a
  | Raise e => Raise e
  end.

Declare Scope result_scope.
Delimit Scope result_scope with result.
Notation "x <- r ;; k" := (rbind r (fun x => k))
  (at level 61, r at next level, right associativity) : result_scope.

Definition rcons {A} (a : A) (r : result (list A)) : result (list A) :=
  match r with
  | Ok l => Ok (a :: l)
  | Raise e => Raise e
  end.

(** The objects [json.loads] builds and [json.dumps] prints.  A [dict] keeps
    its items in insertion order.  A float keeps the text of its literal:
    the program never computes with one. *)
Inductive pyobj : Type :=
| PyNone
| PyBool (b : bool)
| PyInt (z : Z)
| PyFloat (literal : pystr)
| PyStr (s : pystr)
| PyList (items : list pyobj)
| PyDict (items : list (pystr * pyobj)).

(** ** Bytes and characters *)

Definition byte_of_N (n : N) : byte :=
  match Byte.of_N (n mod 256) with
  | Some b => b
  | None => x00
  end.

Definition N_of_byte (b : byte) : N := Byte.to_N b.

(** A string literal of the source, as a [str]. *)
Definition str (s : string) : pystr :=
  List.map N_of_ascii (list_ascii_of_string s).

(** A bytes literal of the source. *)
Definition lit (s : string) : bytes :=
  List.map (fun a => byte_of_N (N_of_ascii a)) (list_ascii_of_string s).

Definition pystr_eqb (a b : pystr) : bool :=
  if list_eq_dec N.eq_dec a b then true else false.

(** ** base64 (CPython [base64] over [binascii]) *)

Module Base64.

(** [binascii.table_b2a_base64]: the standard alphabet. *)
Definition table_b2a (i : N) : byte :=
  byte_of_N
    (if i <? 26 then 65 + i
     else if i <? 52 then 97 + (i - 26)
     else if i <? 62 then 48 + (i - 52)
     else if i =? 62 then 43
     else 47)%N.

Definition PAD : byte := "=".

(** [binascii.b2a_base64(s, newline=False)]. *)
Fixpoint b2a_base64 (s : bytes) : bytes :=
  match s with
  | [] => []
  | [a] =>
      let x := N_of_byte a in
      [table_b2a (x / 4); table_b2a ((x mod 4) * 16); PAD; PAD]
  | [a; b] =>
      let x := N_of_byte a in
      let y := N_of_byte b in
      [table_b2a (x / 4); table_b2a ((x mod 4) * 16 + y / 16);
       table_b2a ((y mod 16) * 4); PAD]
  | a :: b :: c :: rest =>
      let x := N_of_byte a in
      let y := N_of_byte b in
      let z := N_of_byte c in
      table_b2a (x / 4) :: table_b2a ((x mod 4) * 16 + y / 16)
      :: table_b2a ((y mod 16) * 4 + z / 64) :: table_b2a (z mod 64)
      :: b2a_base64 rest
  end%N.

(** [binascii.table_a2b_base64]: the value of an alphabet character. *)
Definition table_a2b (c : byte) : option N :=
  let x := N_of_byte c in
  (if (65 <=? x) && (x <=? 90) then Some (x - 65)
   else if (97 <=? x) && (x <=? 122) then Some (x - 97 + 26)
   else if (48 <=? x) && (x <=? 57) then Some (x - 48 + 52)
   else if x =? 43 then Some 62
   else if x =? 47 then Some 63
   else None)%N.

(** The loop of [binascii.a2b_base64] in its default, non-strict mode:
    characters outside the alphabet are skipped, a pad sequence that
    completes a quad ends the decoding, and the input must not stop in
    the middle of a quad. *)
Fixpoint a2b_loop (s : bytes) (quad_pos leftchar pads : N) : result bytes :=
  match s with
  | [] => if (quad_pos =? 0)%N then Ok [] else Raise BinasciiError
  | this_ch :: rest =>
      if Byte.eqb this_ch PAD then
        if (2 <=? quad_pos)%N then
          if (4 <=? quad_pos + (pads + 1))%N then Ok []
          else a2b_loop rest quad_pos leftchar (pads + 1)%N
        else a2b_loop rest quad_pos leftchar pads
      else
        match table_a2b this_ch with
        | None => a2b_loop rest quad_pos leftchar pads
        | Some v =>
            if (quad_pos =? 0)%N then a2b_loop rest 1%N v 0%N
            else if (quad_pos =? 1)%N then
              rcons (byte_of_N (N.lor (N.shiftl leftchar 2) (N.shiftr v 4)))
                    (a2b_loop rest 2%N (N.land v 15) 0%N)
            else if (quad_pos =? 2)%N then
              rcons (byte_of_N (N.lor (N.shiftl leftchar 4) (N.shiftr v 2)))
                    (a2b_loop rest 3%N (N.land v 3) 0%N)
            else
              rcons (byte_of_N (N.lor (N.shiftl leftchar 6) v))
                    (a2b_loop rest 0%N 0%N 0%N)
        end
  end.

Definition a2b_base64 (s : bytes) : result bytes := a2b_loop s 0 0 0.

Definition b64encode (s : bytes) : bytes := b2a_base64 s.
Definition b64decode (s : bytes) : result bytes := a2b_base64 s.

(** [bytes.maketrans(b'+/', b'-_')] and its inverse. *)
Definition _urlsafe_encode_translation (c : byte) : byte :=
  if Byte.eqb c "+" then "-" else if Byte.eqb c "/" then "_" else c.

Definition _urlsafe_decode_translation (c : byte) : byte :=
  if Byte.eqb c "-" then "+" else if Byte.eqb c "_" then "/" else c.

Definition urlsafe_b64encode (s : bytes) : bytes :=
  List.map _urlsafe_encode_translation (b64encode s).

Definition urlsafe_b64decode (s : bytes) : result bytes :=
  b64decode (List.map _urlsafe_decode_translation s).

End Base64.

(** ** The runtime underneath

    What the embedding does not write out: SHA-256, the rounds of scrypt,
    the two primitives of the Fernet recipe (package [cryptography]), and
    the UTF-16/UTF-32 decoders [json.loads] falls back on when its input
    does not look like UTF-8. *)

Inductive encoding : Type :=
| utf_8 | utf_8_sig | utf_16 | utf_16_be | utf_16_le
| utf_32 | utf_32_be | utf_32_le.

Class Library : Type := {
  sha256 : bytes -> bytes;
  (** scrypt past the preparation of its HMAC key: key block, salt,
      [n], [r], [p], length of the output. *)
  scrypt_core : bytes -> bytes -> Z -> Z -> Z -> Z -> result bytes;
  (** AES in CBC mode: key, initialisation vector, data. *)
  aes_cbc_encrypt : bytes -> bytes -> bytes -> bytes;
  aes_cbc_decrypt : bytes -> bytes -> bytes -> bytes;
  (** HMAC-SHA256: key, message. *)
  hmac_sha256 : bytes -> bytes -> bytes;
  (** [bytes.decode(encoding, 'surrogatepass')] for the wide encodings. *)
  decode_wide : encoding -> bytes -> result pystr
}.

(** The functional laws of the primitives.  [scrypt_default] is the
    assumption that the host can run scrypt at the parameters
    [encrypt_file] picks (it needs 128 MiB). *)
Record LibraryOk (L : Library) : Prop := {
  scrypt_length : forall block salt n r p len k,
    scrypt_core block salt n r p len = Ok k -> Z.of_nat (length k) = len;
  scrypt_default : forall block salt,
    exists k, scrypt_core block salt 131072 8 1 32 = Ok k;
  aes_cbc_length : forall key iv data,
    length (aes_cbc_encrypt key iv data) = length data;
  aes_cbc_inverse : forall key iv data,
    length key = 16 -> length iv = 16 -> (length data mod 16 = 0)%nat ->
    aes_cbc_decrypt key iv (aes_cbc_encrypt key iv data) = data;
  hmac_length : forall key msg, length (hmac_sha256 key msg) = 32
}.

(** The password of scrypt is only ever used as the key of HMAC-SHA256
    (RFC 7914, through PBKDF2), and HMAC brings its key to one block of 64
    bytes: a longer key is hashed, a shorter one is filled with zero bytes
    (RFC 2104). *)
Definition hmac_key_block {L : Library} (key : bytes) : bytes :=
  let key' := if Nat.ltb 64 (length key) then sha256 key else key in
  key' ++ repeat x00 (64 - length key').

(** [derive_scrypt(key_material, salt, n, r, p, _MEM_LIMIT, length)] *)
Definition derive_scrypt {L : Library} (key_material salt : bytes) (n r p len : Z)
  : result bytes :=
  scrypt_core (hmac_key_block key_material) salt n r p len.

(** ** UTF-8 ([str.encode], [bytes.decode]) *)

Module Utf8.

Definition is_surrogate (c : N) : bool := ((0xD800 <=? c) && (c <=? 0xDFFF))%N.

Definition encode_char (c : N) : result bytes :=
  (if c <? 0x80 then Ok [byte_of_N c]
   else if c <? 0x800 then
     Ok [byte_of_N (0xC0 + c / 64); byte_of_N (0x80 + c mod 64)]
   else if c <? 0x10000 then
     if is_surrogate c then Raise UnicodeEncodeError
     else Ok [byte_of_N (0xE0 + c / 4096); byte_of_N (0x80 + (c / 64) mod 64);
              byte_of_N (0x80 + c mod 64)]
   else if c <? 0x110000 then
     Ok [byte_of_N (0xF0 + c / 262144); byte_of_N (0x80 + (c / 4096) mod 64);
         byte_of_N (0x80 + (c / 64) mod 64); byte_of_N (0x80 + c mod 64)]
   else Raise UnicodeEncodeError)%N.

(** [s.encode("utf-8")] *)
Fixpoint encode (s : pystr) : result bytes :=
  match s with
  | [] => Ok []
  | c :: rest =>
      (b <- encode_char c ;; bs <- encode rest ;; Ok (b ++ bs))%result
  end.

Definition cont (b : byte) : bool :=
  ((0x80 <=? N_of_byte b) && (N_of_byte b <? 0xC0))%N.

Definition low6 (b : byte) : N := (N_of_byte b mod 64)%N.

(** [b.decode("utf-8")], or [b.decode("utf-8", "surrogatepass")] when
    [surrogatepass] is set. *)
Fixpoint decode (surrogatepass : bool) (s : bytes) : result pystr :=
  match s with
  | [] => Ok []
  | b0 :: r0 =>
      let x := N_of_byte b0 in
      if (x <? 0x80)%N then rcons x (decode surrogatepass r0)
      else if (x <? 0xC2)%N then Raise UnicodeDecodeError
      else if (x <? 0xE0)%N then
        match r0 with
        | b1 :: r1 =>
            if cont b1
            then rcons ((x - 0xC0) * 64 + low6 b1)%N (decode surrogatepass r1)
            else Raise UnicodeDecodeError
        | _ => Raise UnicodeDecodeError
        end
      else if (x <? 0xF0)%N then
        match r0 with
        | b1 :: b2 :: r2 =>
            let c := ((x - 0xE0) * 4096 + low6 b1 * 64 + low6 b2)%N in
            if cont b1 && cont b2 && (0x800 <=? c)%N
               && (surrogatepass || negb (is_surrogate c))
            then rcons c (decode surrogatepass r2)
            else Raise UnicodeDecodeError
        | _ => Raise UnicodeDecodeError
        end
      else if (x <? 0xF5)%N then
        match r0 with
        | b1 :: b2 :: b3 :: r3 =>
            let c := ((x - 0xF0) * 262144 + low6 b1 * 4096
                      + low6 b2 * 64 + low6 b3)%N in
            if cont b1 && cont b2 && cont b3
               && (0x10000 <=? c)%N && (c <? 0x110000)%N
            then rcons c (decode surrogatepass r3)
            else Raise UnicodeDecodeError
        | _ => Raise UnicodeDecodeError
        end
      else Raise UnicodeDecodeError
  end.

End Utf8.

(** ** json ([json.dumps], [json.loads] with their default arguments) *)

Module Json.

Definition ch (a : ascii) : N := N_of_ascii a.
Definition QUOTE : N := 34.
Definition BACKSLASH : N := 92.

Definition is_char (c : N) (a : ascii) : bool := (c =? ch a)%N.

(** *** Dictionaries *)

Fixpoint dict_get (d : list (pystr * pyobj)) (k : pystr) : option pyobj :=
  match d with
  | [] => None
  | (k', v) :: rest => if pystr_eqb k' k then Some v else dict_get rest k
  end.

(** [d[k] = v]: an existing key keeps its place. *)
Fixpoint dict_set (d : list (pystr * pyobj)) (k : pystr) (v : pyobj)
  : list (pystr * pyobj) :=
  match d with
  | [] => [(k, v)]
  | (k', v') :: rest =>
      if pystr_eqb k' k then (k', v) :: rest else (k', v') :: dict_set rest k v
  end.

(** *** Encoder *)

Definition hex_digit (n : N) : N :=
  (if n <? 10 then 48 + n else 97 + (n - 10))%N.

(** ['\\u{0:04x}'.format(n)] *)
Definition u_escape (n : N) : pystr :=
  [BACKSLASH; ch "u"; hex_digit ((n / 4096) mod 16); hex_digit ((n / 256) mod 16);
   hex_digit ((n / 16) mod 16); hex_digit (n mod 16)]%N.

(** The replacement of one character in [encode_basestring_ascii]. *)
Definition escape_char (c : N) : pystr :=
  (if c =? QUOTE then [BACKSLASH; QUOTE]
   else if c =? BACKSLASH then [BACKSLASH; BACKSLASH]
   else if (32 <=? c) && (c <=? 126) then [c]
   else if c =? 10 then [BACKSLASH; ch "n"]
   else if c =? 13 then [BACKSLASH; ch "r"]
   else if c =? 9 then [BACKSLASH; ch "t"]
   else if c =? 8 then [BACKSLASH; ch "b"]
   else if c =? 12 then [BACKSLASH; ch "f"]
   else if c <? 0x10000 then u_escape c
   else
     let n := c - 0x10000 in
     u_escape (0xD800 + (n / 1024) mod 1024) ++ u_escape (0xDC00 + n mod 1024))%N.

Definition encode_basestring_ascii (s : pystr) : pystr :=
  QUOTE :: flat_map escape_char s ++ [QUOTE].

Fixpoint uint_chars (d : uint) : pystr :=
  match d with
  | Nil => []
  | D0 d => ch "0" :: uint_chars d
  | D1 d => ch "1" :: uint_chars d
  | D2 d => ch "2" :: uint_chars d
  | D3 d => ch "3" :: uint_chars d
  | D4 d => ch "4" :: uint_chars d
  | D5 d => ch "5" :: uint_chars d
  | D6 d => ch "6" :: uint_chars d
  | D7 d => ch "7" :: uint_chars d
  | D8 d => ch "8" :: uint_chars d
  | D9 d => ch "9" :: uint_chars d
  end.

(** [int.__repr__] *)
Definition int_repr (z : Z) : pystr :=
  match Z.to_int z with
  | Pos d => uint_chars d
  | Neg d => ch "-" :: uint_chars d
  end.

(** [', '.join(...)] over already printed items. *)
Fixpoint join (items : list pystr) : pystr :=
  match items with
  | [] => []
  | [x] => x
  | x :: rest => x ++ str ", " ++ join rest
  end.

(** [json.dumps(o)]: [ensure_ascii=True], separators [', '] and [': ']. *)
Fixpoint dumps (o : pyobj) : pystr :=
  match o with
  | PyNone => str "null"
  | PyBool true => str "true"
  | PyBool false => str "false"
  | PyInt z => int_repr z
  | PyFloat literal => literal
  | PyStr s => encode_basestring_ascii s
  | PyList items => ch "[" :: join (List.map dumps items) ++ [ch "]"]
  | PyDict items =>
      ch "{"
      :: join (List.map
                 (fun kv => encode_basestring_ascii (fst kv) ++ str ": "
                            ++ dumps (snd kv))
                 items)
      ++ [ch "}"]
  end.

(** *** Decoder *)

Definition is_ws (c : N) : bool :=
  (c =? 32)%N || (c =? 9)%N || (c =? 10)%N || (c =? 13)%N.

Fixpoint skip_ws (s : pystr) : pystr :=
  match s with
  | c :: rest => if is_ws c then skip_ws rest else s
  | [] => []
  end.

Fixpoint strip_prefix (p s : pystr) : option pystr :=
  match p, s with
  | [], _ => Some s
  | a :: p', b :: s' => if (a =? b)%N then strip_prefix p' s' else None
  | _ :: _, [] => None
  end.

Definition hex_value (c : N) : option N :=
  (if (48 <=? c) && (c <=? 57) then Some (c - 48)
   else if (97 <=? c) && (c <=? 102) then Some (c - 97 + 10)
   else if (65 <=? c) && (c <=? 70) then Some (c - 65 + 10)
   else None)%N.

(** The four hexadecimal digits of a [\uXXXX] escape. *)
Definition decode_uXXXX (a b c d : N) : option N :=
  match hex_value a, hex_value b, hex_value c, hex_value d with
  | Some x, Some y, Some z, Some w => Some (((x * 16 + y) * 16 + z) * 16 + w)%N
  | _, _, _, _ => None
  end.

(** The one-character escapes, [BACKSLASH] of the decoder. *)
Definition simple_escape (e : N) : option N :=
  if (e =? QUOTE)%N then Some QUOTE
  else if (e =? BACKSLASH)%N then Some BACKSLASH
  else if is_char e "/" then Some (ch "/")
  else if is_char e "b" then Some 8%N
  else if is_char e "f" then Some 12%N
  else if is_char e "n" then Some 10%N
  else if is_char e "r" then Some 13%N
  else if is_char e "t" then Some 9%N
  else None.

Definition push (c : N) (r : result (pystr * pystr)) : result (pystr * pystr) :=
  match r with
  | Ok (s, rest) => Ok (c :: s, rest)
  | Raise e => Raise e
  end.

Definition is_high_surrogate (c : N) : bool := ((0xD800 <=? c) && (c <=? 0xDBFF))%N.
Definition is_low_surrogate (c : N) : bool := ((0xDC00 <=? c) && (c <=? 0xDFFF))%N.

(** [scanstring(s, end, strict=True)], from the character after the
    opening quote: the string and what follows its closing quote. *)
Fixpoint scanstring (s : pystr) : result (pystr * pystr) :=
  match s with
  | [] => Raise JSONDecodeError
  | c :: r =>
      if (c =? QUOTE)%N then Ok ([], r)
      else if (c <? 32)%N then Raise JSONDecodeError
      else if (c =? BACKSLASH)%N then
        match r with
        | [] => Raise JSONDecodeError
        | e :: r1 =>
            if is_char e "u" then
              match r1 with
              | h1 :: h2 :: h3 :: h4 :: r2 =>
                  match decode_uXXXX h1 h2 h3 h4 with
                  | None => Raise JSONDecodeError
                  | Some uni =>
                      match r2 with
                      | b :: u :: l1 :: l2 :: l3 :: l4 :: r3 =>
                          if is_high_surrogate uni && (b =? BACKSLASH)%N
                             && is_char u "u"
                          then
                            match decode_uXXXX l1 l2 l3 l4 with
                            | None => Raise JSONDecodeError
                            | Some uni2 =>
                                if is_low_surrogate uni2
                                then push (0x10000 + (uni - 0xD800) * 1024
                                           + (uni2 - 0xDC00))%N
                                          (scanstring r3)
                                else push uni (scanstring r2)
                            end
                          else push uni (scanstring r2)
                      | _ => push uni (scanstring r2)
                      end
                  end
              | _ => Raise JSONDecodeError
              end
            else
              match simple_escape e with
              | Some c' => push c' (scanstring r1)
              | None => Raise JSONDecodeError
              end
        end
      else push c (scanstring r)
  end.

Definition digit_of (c : N) : option (uint -> uint) :=
  if is_char c "0" then Some D0 else if is_char c "1" then Some D1
  else if is_char c "2" then Some D2 else if is_char c "3" then Some D3
  else if is_char c "4" then Some D4 else if is_char c "5" then Some D5
  else if is_char c "6" then Some D6 else if is_char c "7" then Some D7
  else if is_char c "8" then Some D8 else if is_char c "9" then Some D9
  else None.

Definition is_digit (c : N) : bool :=
  match digit_of c with Some _ => true | None => false end.

(** The longest run of digits at the head of [s]. *)
Fixpoint scan_digits (s : pystr) : uint * pystr :=
  match s with
  | c :: r =>
      match digit_of c with
      | Some D => let (d, r') := scan_digits r in (D d, r')
      | None => (Nil, s)
      end
  | [] => (Nil, [])
  end.

(** [sys.get_int_max_str_digits()] *)
Definition int_max_str_digits : nat := 4300.

(** The optional fraction: a dot followed by at least one digit. *)
Definition scan_frac (s : pystr) : option pystr :=
  match s with
  | dot :: r =>
      if is_char dot "." then
        match r with
        | c :: _ => if is_digit c then Some (snd (scan_digits r)) else None
        | [] => None
        end
      else None
  | [] => None
  end.

(** The optional exponent: [e] or [E], a sign if any, at least one digit. *)
Definition scan_exp (s : pystr) : option pystr :=
  match s with
  | e :: r =>
      if is_char e "e" || is_char e "E" then
        let r' := match r with
                  | sg :: r1 => if is_char sg "-" || is_char sg "+" then r1 else r
                  | [] => r
                  end in
        match scan_digits r' with
        | (Nil, _) => None
        | (_, rest) => Some rest
        end
      else None
  | [] => None
  end.

(** [_match_number]: an integer, or a float when a fraction or an
    exponent follows the integer part. *)
Definition match_number (s : pystr) : result (pyobj * pystr) :=
  let (neg, s1) :=
    match s with
    | c :: r => if is_char c "-" then (true, r) else (false, s)
    | [] => (false, s)
    end in
  match s1 with
  | [] => Raise JSONDecodeError
  | c :: r1 =>
      if is_digit c then
        let (d, r2) := if is_char c "0" then (D0 Nil, r1) else scan_digits s1 in
        let (frac, r3) := match scan_frac r2 with
                          | Some r => (true, r)
                          | None => (false, r2)
                          end in
        let (exp, r4) := match scan_exp r3 with
                         | Some r => (true, r)
                         | None => (false, r3)
                         end in
        if frac || exp
        then Ok (PyFloat (firstn (length s - length r4) s), r4)
        else if Nat.ltb int_max_str_digits (nb_digits d) then Raise ValueError
        else Ok (PyInt (Z.of_int (if neg then Neg d else Pos d)), r4)
      else Raise JSONDecodeError
  end.

Definition keyword (s : pystr) : option (pyobj * pystr) :=
  match strip_prefix (str "null") s with
  | Some r => Some (PyNone, r)
  | None =>
  match strip_prefix (str "true") s with
  | Some r => Some (PyBool true, r)
  | None =>
  match strip_prefix (str "false") s with
  | Some r => Some (PyBool false, r)
  | None =>
  match strip_prefix (str "NaN") s with
  | Some r => Some (PyFloat (str "NaN"), r)
  | None =>
  match strip_prefix (str "Infinity") s with
  | Some r => Some (PyFloat (str "Infinity"), r)
  | None =>
  match strip_prefix (str "-Infinity") s with
  | Some r => Some (PyFloat (str "-Infinity"), r)
  | None => None
  end end end end end end.

(** [scan_once] with the loops of [JSONObject] and [JSONArray].  Each
    call is made after at least one character was consumed, so a [fuel]
    above the length of the text is never used up. *)
Fixpoint scan_once (fuel : nat) (s : pystr) {struct fuel}
  : result (pyobj * pystr) :=
  match fuel with
  | O => Raise JSONDecodeError
  | S fuel' =>
      match s with
      | [] => Raise JSONDecodeError
      | c :: r =>
          if (c =? QUOTE)%N then
            (p <- scanstring r ;; Ok (PyStr (fst p), snd p))%result
          else if is_char c "{" then
            match skip_ws r with
            | c' :: r' =>
                if is_char c' "}" then Ok (PyDict [], r')
                else parse_members fuel' [] (c' :: r')
            | [] => Raise JSONDecodeError
            end
          else if is_char c "[" then
            match skip_ws r with
            | c' :: r' =>
                if is_char c' "]" then Ok (PyList [], r')
                else parse_items fuel' [] (c' :: r')
            | [] => Raise JSONDecodeError
            end
          else
            match keyword s with
            | Some p => Ok p
            | None => match_number s
            end
      end
  end

with parse_members (fuel : nat) (acc : list (pystr * pyobj)) (s : pystr)
                   {struct fuel} : result (pyobj * pystr) :=
  match fuel with
  | O => Raise JSONDecodeError
  | S fuel' =>
      match s with
      | c :: r =>
          if (c =? QUOTE)%N then
            (kr <- scanstring r ;;
             match skip_ws (snd kr) with
             | c1 :: r1 =>
                 if is_char c1 ":" then
                   vr <- scan_once fuel' (skip_ws r1) ;;
                   let acc' := dict_set acc (fst kr) (fst vr) in
                   match skip_ws (snd vr) with
                   | c2 :: r2 =>
                       if is_char c2 "}" then Ok (PyDict acc', r2)
                       else if is_char c2 "," then
                         parse_members fuel' acc' (skip_ws r2)
                       else Raise JSONDecodeError
                   | [] => Raise JSONDecodeError
                   end
                 else Raise JSONDecodeError
             | [] => Raise JSONDecodeError
             end)%result
          else Raise JSONDecodeError
      | [] => Raise JSONDecodeError
      end
  end

with parse_items (fuel : nat) (acc : list pyobj) (s : pystr)
                 {struct fuel} : result (pyobj * pystr) :=
  match fuel with
  | O => Raise JSONDecodeError
  | S fuel' =>
      (vr <- scan_once fuel' s ;;
       let acc' := acc ++ [fst vr] in
       match skip_ws (snd vr) with
       | c :: r =>
           if is_char c "]" then Ok (PyList acc', r)
           else if is_char c "," then parse_items fuel' acc' (skip_ws r)
           else Raise JSONDecodeError
       | [] => Raise JSONDecodeError
       end)%result
  end.

(** [JSONDecoder.decode]: one value between optional whitespace. *)
Definition decode (s : pystr) : result pyobj :=
  let s0 := skip_ws s in
  (p <- scan_once (S (length s0)) s0 ;;
   match skip_ws (snd p) with
   | [] => Ok (fst p)
   | _ :: _ => Raise JSONDecodeError
   end)%result.

Definition starts_with (p : list N) (b : bytes) : bool :=
  match strip_prefix p (List.map N_of_byte b) with
  | Some _ => true
  | None => false
  end.

(** [json.detect_encoding] *)
Definition detect_encoding (b : bytes) : encoding :=
  if starts_with [0; 0; 0xFE; 0xFF]%N b || starts_with [0xFF; 0xFE; 0; 0]%N b
  then utf_32
  else if starts_with [0xFE; 0xFF]%N b || starts_with [0xFF; 0xFE]%N b
  then utf_16
  else if starts_with [0xEF; 0xBB; 0xBF]%N b then utf_8_sig
  else
    match List.map N_of_byte b with
    | b0 :: b1 :: b2 :: b3 :: _ =>
        if (b0 =? 0)%N then if (b1 =? 0)%N then utf_32_be else utf_16_be
        else if (b1 =? 0)%N
             then if (b2 =? 0)%N && (b3 =? 0)%N then utf_32_le else utf_16_le
             else utf_8
    | [b0; b1] =>
        if (b0 =? 0)%N then utf_16_be
        else if (b1 =? 0)%N then utf_16_le
        else utf_8
    | _ => utf_8
    end.

(** [json.loads(s)] for a [bytes] argument:
    [s.decode(detect_encoding(s), 'surrogatepass')], then [decode]. *)
Definition loads {L : Library} (s : bytes) : result pyobj :=
  (text <- match detect_encoding s with
           | utf_8 => Utf8.decode true s
           | utf_8_sig => Utf8.decode true (skipn 3 s)
           | e => decode_wide e s
           end ;;
   decode text)%result.

End Json.

(** ** The world: entropy, clock and a log of key derivations *)

(** One call of [Scrypt.derive], with what it returned. *)
Record KdfCall : Type := {
  kdf_password : bytes;
  kdf_salt : bytes;
  kdf_length : pyobj;
  kdf_n : Z;
  kdf_r : Z;
  kdf_p : Z;
  kdf_key : result bytes
}.

(** [entropy] is the byte stream behind [os.urandom], read from [cursor]
    on; [clock] is what [time.time()] returns, in whole seconds;
    [derivations] lists the calls of [Scrypt.derive] so far, latest first. *)
Record World : Type := {
  entropy : nat -> byte;
  cursor : nat;
  clock : Z;
  derivations : list KdfCall
}.

(** A computation that may raise and may act on the world. *)
Definition M (A : Type) : Type := World -> result A * World.

Definition ret {A} (a : A) : M A := fun w => (Ok a, w).

Definition bind {A B} (m : M A) (k : A -> M B) : M B :=
  fun w =>
    match m w with
    | (Ok a, w') => k a w'
    | (Raise e, w') => (Raise e, w')
    end.

Definition lift {A} (r : result A) : M A := fun w => (r, w).

Declare Scope world_scope.
Delimit Scope world_scope with world.
Notation "x <- m ;; k" := (bind m (fun x => k))
  (at level 61, m at next level, right associativity) : world_scope.

(** [os.urandom(n)] *)
Definition os_urandom (n : nat) : M bytes :=
  fun w =>
    (Ok (List.map (entropy w) (seq (cursor w) n)),
     {| entropy := entropy w; cursor := cursor w + n; clock := clock w;
        derivations := derivations w |}).

(** [int(time.time())] *)
Definition time_time : M Z := fun w => (Ok (clock w), w).

Definition record_derivation (c : KdfCall) : M unit :=
  fun w =>
    (Ok tt,
     {| entropy := entropy w; cursor := cursor w; clock := clock w;
        derivations := c :: derivations w |}).

(** ** Python glue *)

(** [o[k]] *)
Definition getitem (o : pyobj) (k : pystr) : result pyobj :=
  match o with
  | PyDict items =>
      match Json.dict_get items k with
      | Some v => Ok v
      | None => Raise (KeyError k)
      end
  | _ => Raise TypeError
  end.

(** [o.encode("utf-8")] *)
Definition encode_utf8 (o : pyobj) : result bytes :=
  match o with
  | PyStr s => Utf8.encode s
  | _ => Raise AttributeError
  end.

(** An argument that has to be an [int] ([bool] is one).  A [float] is
    turned down here with [TypeError], like a string.  [cryptography] 42
    compares a [float] before it needs an [int]: [n = 1.5] is a
    [ValueError] there, and [r = 8.0] passes the constructor and is turned
    down, with [TypeError], by [derive].  Either way nothing is decrypted;
    the statements about parameters that are no numbers leave [float]
    out. *)
Definition as_int (o : pyobj) : result Z :=
  match o with
  | PyInt z => Ok z
  | PyBool b => Ok (if b then 1 else 0)%Z
  | _ => Raise TypeError
  end.

(** ** scrypt ([cryptography.hazmat.primitives.kdf.scrypt.Scrypt]) *)

Record Scrypt : Type := {
  _salt : bytes;
  _length : pyobj;
  _n : Z;
  _r : Z;
  _p : Z
}.

(** [Scrypt(salt=salt, length=length, n=n, r=r, p=p)] *)
Definition Scrypt_init (salt : bytes) (length n r p : pyobj) : result Scrypt :=
  (n' <- as_int n ;;
   if (n' <? 2) || negb (Z.land n' (n' - 1) =? 0) then Raise ValueError else
   r' <- as_int r ;;
   if r' <? 1 then Raise ValueError else
   p' <- as_int p ;;
   if p' <? 1 then Raise ValueError else
   Ok {| _salt := salt; _length := length; _n := n'; _r := r'; _p := p' |})%Z%result.

(** [kdf.derive(key_material)] *)
Definition Scrypt_derive {L : Library} (kdf : Scrypt) (key_material : bytes)
  : M bytes :=
  let key :=
    (len <- as_int (_length kdf) ;;
     derive_scrypt key_material (_salt kdf) (_n kdf) (_r kdf) (_p kdf) len)%result in
  (_ <- record_derivation
          {| kdf_password := key_material; kdf_salt := _salt kdf;
             kdf_length := _length kdf; kdf_n := _n kdf; kdf_r := _r kdf;
             kdf_p := _p kdf; kdf_key := key |} ;;
   lift key)%world.

(** ** Fernet ([cryptography.fernet.Fernet]) *)

Module Fernet.

Record t : Type := {
  _signing_key : bytes;
  _encryption_key : bytes
}.

(** [Fernet(key)] *)
Definition init (key : bytes) : result t :=
  match Base64.urlsafe_b64decode key with
  | Raise _ => Raise ValueError
  | Ok k =>
      if Nat.eqb (length k) 32
      then Ok {| _signing_key := firstn 16 k; _encryption_key := skipn 16 k |}
      else Raise ValueError
  end.

(** [padding.PKCS7(128).padder()] *)
Definition pkcs7_pad (data : bytes) : bytes :=
  let n := 16 - length data mod 16 in
  data ++ repeat (byte_of_N (N.of_nat n)) n.

(** [padding.PKCS7(128).unpadder()] *)
Definition pkcs7_unpad (data : bytes) : result bytes :=
  if Nat.eqb (length data) 0 || negb (Nat.eqb (length data mod 16) 0)
  then Raise ValueError
  else
    let pad_size := N.to_nat (N_of_byte (last data x00)) in
    if Nat.leb 1 pad_size && Nat.leb pad_size 16
       && forallb (fun b => Byte.eqb b (last data x00))
                  (skipn (length data - pad_size) data)
    then Ok (firstn (length data - pad_size) data)
    else Raise ValueError.

(** [current_time.to_bytes(length=8, byteorder="big")] *)
Definition to_bytes8 (z : Z) : result bytes :=
  if ((0 <=? z) && (z <? 2 ^ 64))%Z
  then Ok (List.map (fun i => byte_of_N (Z.to_N (Z.shiftr z (8 * Z.of_nat i))))
                    [7; 6; 5; 4; 3; 2; 1; 0])
  else Raise OverflowError.

(** [f.encrypt(data)] *)
Definition encrypt {L : Library} (f : t) (data : bytes) : M bytes :=
  (current_time <- time_time ;;
   iv <- os_urandom 16 ;;
   let padded_data := pkcs7_pad data in
   let ciphertext := aes_cbc_encrypt (_encryption_key f) iv padded_data in
   ts <- lift (to_bytes8 current_time) ;;
   let basic_parts := x80 :: ts ++ iv ++ ciphertext in
   let hmac := hmac_sha256 (_signing_key f) basic_parts in
   ret (Base64.urlsafe_b64encode (basic_parts ++ hmac)))%world.

Definition bytes_eqb (a b : bytes) : bool :=
  if list_eq_dec Byte.byte_eq_dec a b then true else false.

(** [f.decrypt(token)], without a time-to-live. *)
Definition decrypt {L : Library} (f : t) (token : bytes) : result bytes :=
  match Base64.urlsafe_b64decode token with
  | Raise _ => Raise InvalidToken
  | Ok data =>
      match data with
      | [] => Raise InvalidToken
      | version :: _ =>
          if negb (Byte.eqb version x80) then Raise InvalidToken
          else if Nat.ltb (length data) 9 then Raise InvalidToken
          else
            let signed := firstn (length data - 32) data in
            let signature := skipn (length data - 32) data in
            if negb (bytes_eqb (hmac_sha256 (_signing_key f) signed) signature)
            then Raise InvalidToken
            else
              let iv := firstn 16 (skipn 9 data) in
              let ciphertext := skipn 25 signed in
              if negb (Nat.eqb (length iv) 16) then Raise ValueError
              else if negb (Nat.eqb (length ciphertext mod 16) 0)
              then Raise InvalidToken
              else
                match pkcs7_unpad
                        (aes_cbc_decrypt (_encryption_key f) iv ciphertext) with
                | Ok unpadded => Ok unpadded
                | Raise _ => Raise InvalidToken
                end
      end
  end.

End Fernet.

(** ** [src/main.py] *)

Section Main.

Context {L : Library}.

Open Scope world_scope.

(** [encrypt_file(password, file_bytes)] *)
Definition encrypt_file (password : pystr) (file_bytes : bytes) : M bytes :=
  salt <- os_urandom 32 ;;
  let length := PyInt 32 in
  let n := PyInt (2 ^ 17) in
  let r := PyInt 8 in
  let p := PyInt 1 in
  kdf <- lift (Scrypt_init salt length n r p) ;;
  key_material <- lift (encode_utf8 (PyStr password)) ;;
  derived <- Scrypt_derive kdf key_material ;;
  let symmetric_key := Base64.urlsafe_b64encode derived in
  f <- lift (Fernet.init symmetric_key) ;;
  ciphertext <- Fernet.encrypt f file_bytes ;;
  salt_str <- lift (Utf8.decode false (Base64.urlsafe_b64encode salt)) ;;
  ciphertext_str <- lift (Utf8.decode false (Base64.urlsafe_b64encode ciphertext)) ;;
  let encrypted_message :=
    Json.dumps
      (PyDict [(str "salt", PyStr salt_str);
               (str "length", length);
               (str "n", n);
               (str "r", r);
               (str "p", p);
               (str "ciphertext_b64", PyStr ciphertext_str)]) in
  lift (Utf8.encode encrypted_message).

(** [decrypt_file(password, file_bytes)] *)
Definition decrypt_file (password : pystr) (file_bytes : bytes) : M bytes :=
  encrypted_message <- lift (Json.loads file_bytes) ;;
  salt_obj <- lift (getitem encrypted_message (str "salt")) ;;
  salt_b64 <- lift (encode_utf8 salt_obj) ;;
  salt <- lift (Base64.urlsafe_b64decode salt_b64) ;;
  length <- lift (getitem encrypted_message (str "length")) ;;
  n <- lift (getitem encrypted_message (str "n")) ;;
  r <- lift (getitem encrypted_message (str "r")) ;;
  p <- lift (getitem encrypted_message (str "p")) ;;
  kdf <- lift (Scrypt_init salt length n r p) ;;
  key_material <- lift (encode_utf8 (PyStr password)) ;;
  derived <- Scrypt_derive kdf key_material ;;
  let symmetric_key := Base64.urlsafe_b64encode derived in
  ciphertext_obj <- lift (getitem encrypted_message (str "ciphertext_b64")) ;;
  ciphertext_b64 <- lift (encode_utf8 ciphertext_obj) ;;
  ciphertext <- lift (Base64.urlsafe_b64decode ciphertext_b64) ;;
  f <- lift (Fernet.init symmetric_key) ;;
  lift (Fernet.decrypt f ciphertext).

End Main.

(** ** An executable instance of the runtime

    Small stand-ins that satisfy [LibraryOk], so that the embedding can be
    run on examples.  They are not the real primitives and nothing is
    claimed about their strength. *)

Module Toy.

Definition xor_byte (a b : byte) : byte :=
  byte_of_N (N.lxor (N_of_byte a) (N_of_byte b)).

Definition checksum (msg : bytes) : byte := fold_right xor_byte x00 msg.

(** [n] bytes read round and round from [x01 :: base]. *)
Definition stretch (base : bytes) (n : nat) : bytes :=
  List.map (fun i => nth (i mod S (length base)) (x01 :: base) x00) (seq 0 n).

Definition library : Library := {|
  sha256 msg := stretch [checksum msg] 32;
  scrypt_core block salt n r p len :=
    if (len <? 0)%Z then Raise ValueError
    else Ok (stretch (block ++ salt) (Z.to_nat len));
  aes_cbc_encrypt key iv data := List.map (xor_byte (hd x00 key)) data;
  aes_cbc_decrypt key iv data := List.map (xor_byte (hd x00 key)) data;
  hmac_sha256 key msg := stretch (checksum msg :: key) 32;
  decode_wide _ _ := Raise UnicodeDecodeError
|}.

(** A world to run examples in. *)
Definition world : World := {|
  entropy i := byte_of_N (N.of_nat (7 * i + 3));
  cursor := 0;
  clock := 1700000000;
  derivations := []
|}.

(** Another world, with other entropy. *)
Definition world2 : World := {|
  entropy i := byte_of_N (N.of_nat (5 * i + 1));
  cursor := 0;
  clock := 1700000001;
  derivations := []
|}.

End Toy.

(** ** Vocabulary of the statements *)

(** The 256 bytes. *)
Definition all_bytes : list byte :=
  List.map (fun i => byte_of_N (N.of_nat i)) (seq 0 256).

Definition forall_byte (f : byte -> bool) : bool := forallb f all_bytes.

Definition forall_byte2 (f : byte -> byte -> bool) : bool :=
  forallb (fun a => forallb (f a) all_bytes) all_bytes.

(** A character that [json.dumps] prints as it is and that is one byte of
    UTF-8: printable ASCII other than the quote and the backslash. *)
Definition plain (c : N) : bool :=
  ((32 <=? c) && (c <=? 126) && negb (c =? 34) && negb (c =? 92))%N.

(** The dictionary [encrypt_file] serialises, for the two strings in it. *)
Definition envelope (salt_str ciphertext_str : pystr) : pyobj :=
  PyDict [(str "salt", PyStr salt_str);
          (str "length", PyInt 32);
          (str "n", PyInt (2 ^ 17));
          (str "r", PyInt 8);
          (str "p", PyInt 1);
          (str "ciphertext_b64", PyStr ciphertext_str)].

(** The text of an envelope, character by character. *)
Definition envelope_text (salt_str ciphertext_str : pystr) : pystr :=
  Json.ch "{" :: Json.QUOTE :: str "salt" ++ Json.QUOTE :: str ": "
  ++ Json.QUOTE :: salt_str ++ Json.QUOTE :: str ", "
  ++ Json.QUOTE :: str "length" ++ Json.QUOTE :: str ": 32, "
  ++ Json.QUOTE :: str "n" ++ Json.QUOTE :: str ": 131072, "
  ++ Json.QUOTE :: str "r" ++ Json.QUOTE :: str ": 8, "
  ++ Json.QUOTE :: str "p" ++ Json.QUOTE :: str ": 1, "
  ++ Json.QUOTE :: str "ciphertext_b64" ++ Json.QUOTE :: str ": "
  ++ Json.QUOTE :: ciphertext_str ++ [Json.QUOTE; Json.ch "}"].

(** [del d[k]] *)
Fixpoint dict_remove (d : list (pystr * pyobj)) (k : pystr)
  : list (pystr * pyobj) :=
  match d with
  | [] => []
  | (k', v) :: rest =>
      if pystr_eqb k' k then dict_remove rest k else (k', v) :: dict_remove rest k
  end.

(** Checks that are decided by running them over every index or byte. *)
Module Checks.
Import Base64.

(** A character of the alphabet: it survives the URL-safe translation
    and back, is not the pad, has its index as value, and is [plain] in
    its URL-safe form. *)
Definition digit_ok (i : N) : bool :=
  let c := table_b2a i in
  Byte.eqb (_urlsafe_decode_translation (_urlsafe_encode_translation c)) c
  && negb (Byte.eqb c PAD)
  && match table_a2b c with Some j => (j =? i)%N | None => false end
  && plain (N_of_byte (_urlsafe_encode_translation c)).

(** The first byte of a group comes back from its first two characters. *)
Definition first_ok (a b : byte) : bool :=
  let x := N_of_byte a in
  let y := N_of_byte b in
  let v := ((x mod 4) * 16 + y / 16)%N in
  (x / 4 <? 64)%N && (v <? 64)%N
  && Byte.eqb (byte_of_N (N.lor (N.shiftl (x / 4) 2) (N.shiftr v 4))) a
  && (N.land v 15 =? y / 16)%N.

(** The second byte comes back from the second and third characters. *)
Definition second_ok (b c : byte) : bool :=
  let y := N_of_byte b in
  let z := N_of_byte c in
  let v := ((y mod 16) * 4 + z / 64)%N in
  (v <? 64)%N
  && Byte.eqb (byte_of_N (N.lor (N.shiftl (y / 16) 4) (N.shiftr v 2))) b
  && (N.land v 3 =? z / 64)%N.

(** The third byte comes back from the third and fourth characters. *)
Definition third_ok (c : byte) : bool :=
  let z := N_of_byte c in
  (z mod 64 <? 64)%N
  && Byte.eqb (byte_of_N (N.lor (N.shiftl (z / 64) 6) (z mod 64))) c.

(** The last characters of a group of one byte and of two bytes. *)
Definition tail1_ok (a : byte) : bool :=
  let x := N_of_byte a in
  let v := ((x mod 4) * 16)%N in
  (v <? 64)%N
  && Byte.eqb (byte_of_N (N.lor (N.shiftl (x / 4) 2) (N.shiftr v 4))) a.

Definition tail2_ok (b : byte) : bool :=
  let y := N_of_byte b in
  let v := ((y mod 16) * 4)%N in
  (v <? 64)%N
  && Byte.eqb (byte_of_N (N.lor (N.shiftl (y / 16) 4) (N.shiftr v 2))) b.

End Checks.

(** The characters of a base64 encoding: alphabet characters and pads. *)
Inductive b64_char : byte -> Prop :=
| b64_digit (i : N) : (i < 64)%N -> b64_char (Base64.table_b2a i)
| b64_pad : b64_char Base64.PAD.

(** The text of a base64 encoding, as the [str] that
    [urlsafe_b64encode(s).decode("utf-8")] is. *)
Definition b64_str (s : bytes) : pystr :=
  List.map N_of_byte (Base64.urlsafe_b64encode s).

(** Every character is [plain]. *)
Definition all_plain (s : pystr) : Prop := Forall (fun c => plain c = true) s.

(** What [os.urandom(n)] returns in world [w], and the world after it. *)
Definition draw (w : World) (n : nat) : bytes :=
  List.map (entropy w) (seq (cursor w) n).

Definition advance (w : World) (n : nat) : World :=
  {| entropy := entropy w; cursor := cursor w + n; clock := clock w;
     derivations := derivations w |}.

(** The world after one more call of [Scrypt.derive]. *)
Definition logged (w : World) (c : KdfCall) : World :=
  {| entropy := entropy w; cursor := cursor w; clock := clock w;
     derivations := c :: derivations w |}.

(** The bytes [Fernet.encrypt] signs, and the token it returns, for a time
    stamp [ts] and an initialisation vector [iv]. *)
Definition fernet_parts {L : Library} (f : Fernet.t) (ts iv data : bytes) : bytes :=
  x80 :: ts ++ iv
  ++ aes_cbc_encrypt (Fernet._encryption_key f) iv (Fernet.pkcs7_pad data).

Definition fernet_token {L : Library} (f : Fernet.t) (ts iv data : bytes) : bytes :=
  Base64.urlsafe_b64encode
    (fernet_parts f ts iv data
     ++ hmac_sha256 (Fernet._signing_key f) (fernet_parts f ts iv data)).

(** The key object [Fernet(urlsafe_b64encode(k))] is, for 32 bytes [k]. *)
Definition fernet_of (k : bytes) : Fernet.t :=
  {| Fernet._signing_key := firstn 16 k; Fernet._encryption_key := skipn 16 k |}.

(** The time of a world fits the eight bytes of a time stamp. *)
Definition clock_ok (w : World) : Prop := (0 <= clock w < 2 ^ 64)%Z.

(** The entry [Scrypt.derive] logs for the parameters [encrypt_file]
    picks. *)
Definition default_call {L : Library} (key_material salt : bytes) : KdfCall :=
  {| kdf_password := key_material; kdf_salt := salt; kdf_length := PyInt 32;
     kdf_n := 131072; kdf_r := 8; kdf_p := 1;
     kdf_key := derive_scrypt key_material salt 131072 8 1 32 |}.

(** The bytes of the envelope that holds [salt] and [token]. *)
Definition envelope_bytes (salt token : bytes) : bytes :=
  List.map byte_of_N (envelope_text (b64_str salt) (b64_str token)).

(** The involution check behind the stand-in cipher. *)
Definition xor_twice_ok (k a : byte) : bool :=
  Byte.eqb (Toy.xor_byte k (Toy.xor_byte k a)) a.

(** [json.dumps(o).encode("utf-8")] *)
Definition file_of (o : pyobj) : bytes :=
  match Utf8.encode (Json.dumps o) with
  | Ok b => b
  | Raise _ => []
  end.

(** [o[k] = v] and [del o[k]] on a dictionary. *)
Definition with_field (o : pyobj) (k : pystr) (v : pyobj) : pyobj :=
  match o with
  | PyDict d => PyDict (Json.dict_set d k v)
  | _ => o
  end.

Definition without_field (o : pyobj) (k : pystr) : pyobj :=
  match o with
  | PyDict d => PyDict (dict_remove d k)
  | _ => o
  end.

(** ** A worked example, run on the executable instance *)

Module Example.

Definition password : pystr := str "correct horse".
Definition plaintext : bytes := lit "hello world".

(** The envelope of [plaintext] under [password] in [Toy.world]. *)
Definition file : bytes :=
  match fst (encrypt_file (L := Toy.library) password plaintext Toy.world) with
  | Ok b => b
  | Raise _ => []
  end.

(** The dictionary in it. *)
Definition message : pyobj :=
  match Json.loads (L := Toy.library) file with
  | Ok o => o
  | Raise _ => PyNone
  end.

(** Its items, and the text of its salt. *)
Definition items : list (pystr * pyobj) :=
  match message with
  | PyDict d => d
  | _ => []
  end.

Definition salt_str : pystr :=
  match getitem message (str "salt") with
  | Ok (PyStr s) => s
  | _ => []
  end.

Definition ciphertext_str : pystr :=
  match getitem message (str "ciphertext_b64") with
  | Ok (PyStr s) => s
  | _ => []
  end.

End Example.

(** A character of padded URL-safe base64 text: a letter, a digit, [-],
    [_], or the pad [=]. *)
Definition urlsafe_char (c : N) : bool :=
  (((65 <=? c) && (c <=? 90)) || ((97 <=? c) && (c <=? 122))
   || ((48 <=? c) && (c <=? 57)) || (c =? 45) || (c =? 95) || (c =? 61))%N.

(** The pad character, as a character of a [str]. *)
Definition PAD_CHAR : N := 61.

Definition digit_urlsafe (i : N) : bool :=
  urlsafe_char (N_of_byte (Base64._urlsafe_encode_translation (Base64.table_b2a i))).

(** [n] is a power of two. *)
Definition power_of_two (n : Z) : Prop := exists k, (0 <= k)%Z /\ n = (2 ^ k)%Z.


Module Oversized.

(** The example envelope with a cost far beyond any memory: n = 2^62,
    r = 2^31, p = 2^31. *)
Definition message : pyobj :=
  with_field
    (with_field (with_field Example.message (str "n") (PyInt (2 ^ 62)))
       (str "r") (PyInt (2 ^ 31)))
    (str "p") (PyInt (2 ^ 31)).

Definition file : bytes := file_of message.

End Oversized.

(** A run of [decrypt_file] on the dictionary [em] that raises nothing
    before the token is opened: [c] is the derivation it logs, [f] the key
    object and [ciphertext] the token handed to [Fernet.decrypt]. *)
Inductive reaches_token {L : Library} (password : pystr) (em : pyobj)
          (c : KdfCall) (f : Fernet.t) (ciphertext : bytes) : Prop :=
| reaches_token_intro
    (salt_obj : pyobj) (salt_b64 salt : bytes) (len n r p : pyobj)
    (kdf : Scrypt) (key_material key : bytes)
    (ciphertext_obj : pyobj) (ciphertext_b64 : bytes) :
    getitem em (str "salt") = Ok salt_obj ->
    encode_utf8 salt_obj = Ok salt_b64 ->
    Base64.urlsafe_b64decode salt_b64 = Ok salt ->
    getitem em (str "length") = Ok len ->
    getitem em (str "n") = Ok n ->
    getitem em (str "r") = Ok r ->
    getitem em (str "p") = Ok p ->
    Scrypt_init salt len n r p = Ok kdf ->
    Utf8.encode password = Ok key_material ->
    rbind (as_int (_length kdf))
      (derive_scrypt key_material (_salt kdf) (_n kdf) (_r kdf) (_p kdf))
    = Ok key ->
    c = {| kdf_password := key_material; kdf_salt := _salt kdf;
           kdf_length := _length kdf; kdf_n := _n kdf; kdf_r := _r kdf;
           kdf_p := _p kdf; kdf_key := Ok key |} ->
    getitem em (str "ciphertext_b64") = Ok ciphertext_obj ->
    encode_utf8 ciphertext_obj = Ok ciphertext_b64 ->
    Base64.urlsafe_b64decode ciphertext_b64 = Ok ciphertext ->
    Fernet.init (Base64.urlsafe_b64encode key) = Ok f ->
    reaches_token password em c f ciphertext.

(** The six fields of an envelope, in the order of the file. *)
Definition fields : list pystr :=
  [str "salt"; str "length"; str "n"; str "r"; str "p"; str "ciphertext_b64"].

(** The list without its element at index [i]. *)
Definition remove_nth {A : Type} (i : nat) (l : list A) : list A :=
  firstn i l ++ skipn (S i) l.

(** The characters of the base64 alphabet, the pad apart. *)
Inductive b64_data : byte -> Prop :=
| b64_data_intro (i : N) : (i < 64)%N -> b64_data (Base64.table_b2a i).

(** The token carries the tag that the signing key of [f] gives the bytes
    before it. *)
Definition tag_verifies {L : Library} (f : Fernet.t) (token : bytes) : Prop :=
  exists data,
    Base64.urlsafe_b64decode token = Ok data
    /\ hmac_sha256 (Fernet._signing_key f) (firstn (length data - 32) data)
       = skipn (length data - 32) data.

(** The bytes with bit [j] of the byte at index [i] flipped. *)
Fixpoint flip_bit (i : nat) (j : N) (b : bytes) : bytes :=
  match b, i with
  | [], _ => []
  | x :: rest, O => byte_of_N (N.lxor (N_of_byte x) (2 ^ j)) :: rest
  | x :: rest, S i' => x :: flip_bit i' j rest
  end.

(** ** The rest of [src/main.py]: settings, camera and network *)

(** *** Settings read from the environment *)

(** [s.split(sep)] for a separator of one character: the pieces between
    the separators, at least one. *)
Fixpoint str_split (sep : N) (s : pystr) : list pystr :=
  match s with
  | [] => [[]]
  | c :: rest =>
      if (c =? sep)%N then [] :: str_split sep rest
      else
        match str_split sep rest with
        | piece :: pieces => (c :: piece) :: pieces
        | [] => [[c]]
        end
  end.

(** [os.environ] once [load_dotenv] has run. *)
Definition Environ : Type := pystr -> option pystr.

(** The three names the module binds at its top.  [os.getenv] returns
    [None] for a variable that is not set. *)
Record Settings : Type := {
  TOKEN : option pystr;
  CHAT_IDS : list pystr;
  PASSWORD : option pystr
}.

(** The assignments at the top of the module, in their order; [None] has
    no [split]. *)
Definition settings (environ : Environ) : result Settings :=
  let token := environ (str "TOKEN") in
  (chat_ids <- match environ (str "CHAT_IDS") with
               | Some v => Ok (str_split (Json.ch ",") v)
               | None => Raise AttributeError
               end ;;
   let password := environ (str "PASSWORD") in
   Ok {| TOKEN := token; CHAT_IDS := chat_ids; PASSWORD := password |})%result.

(** *** Requests, replies and failures *)

(** A value of the [files] argument of [requests.post]: a tuple of file
    name, content and content type, a bare [bytes] object, or [None]. *)
Inductive part : Type :=
| Named (filename : pystr) (content : bytes) (content_type : pystr)
| Raw (content : bytes)
| Absent.

(** One call of [requests.post]. *)
Record Request : Type := {
  req_url : pystr;
  req_data : option (list (pystr * pyobj));
  req_files : option (list (pystr * part));
  req_timeout : Z
}.

(** What comes back: a body that [Response.json] parses, a body that it
    does not, or nothing within the time allowed. *)
Inductive reply : Type :=
| Answer (json : pyobj)
| NotJson
| NoAnswer.

(** What the functions around [encrypt_file] can raise: an exception of
    the encryption layer, the two failures of a request, and the
    [Exception("Camera inaccessible.")] of [capture_image]. *)
Inductive failure : Type :=
| Python (e : exn)
| RequestException
| ResponseJSONDecodeError
| CameraInaccessible.

Inductive outcome (A : Type) : Type :=
| Returned (a : A)
| Thrown (f : failure).
Arguments Returned {A} a.
Arguments Thrown {A} f.

(** The two routines of OpenCV that work on a picture:
    [cv2.imencode(ext, img, [cv2.IMWRITE_JPEG_QUALITY, quality])[1]] as
    the bytes that [io.BytesIO(...).getbuffer().tobytes()] reads out of
    it, and [cv2.blur(img, ksize)]. *)
Class Vision (frame : Type) : Type := {
  imencode : pystr -> frame -> Z -> bytes;
  blur : frame -> nat * nat -> frame
}.

(** The machine the script runs on: the world of the encryption layer,
    the local time as [isoformat] prints it, the network (what it replies
    to the latest request, given all requests so far, latest first), the
    requests made and the objects printed so far (latest first), and the
    camera: whether it can be opened, the frames it would deliver, and
    whether a capture is open. *)
Record Device (frame : Type) : Type := {
  dev_world : World;
  dev_now : pystr;
  dev_network : list Request -> reply;
  dev_requests : list Request;
  dev_printed : list pyobj;
  cam_ready : bool;
  cam_frames : list frame;
  cam_open : bool
}.

Section Program.

Context {L : Library} {frame : Type} {V : Vision frame}.

Definition set_world (d : Device frame) (w : World) : Device frame :=
  {| dev_world := w; dev_now := dev_now d; dev_network := dev_network d;
     dev_requests := dev_requests d; dev_printed := dev_printed d;
     cam_ready := cam_ready d; cam_frames := cam_frames d;
     cam_open := cam_open d |}.

Definition add_request (d : Device frame) (r : Request) : Device frame :=
  {| dev_world := dev_world d; dev_now := dev_now d;
     dev_network := dev_network d;
     dev_requests := r :: dev_requests d; dev_printed := dev_printed d;
     cam_ready := cam_ready d; cam_frames := cam_frames d;
     cam_open := cam_open d |}.

Definition add_printed (d : Device frame) (o : pyobj) : Device frame :=
  {| dev_world := dev_world d; dev_now := dev_now d;
     dev_network := dev_network d;
     dev_requests := dev_requests d; dev_printed := o :: dev_printed d;
     cam_ready := cam_ready d; cam_frames := cam_frames d;
     cam_open := cam_open d |}.

Definition set_camera (d : Device frame) (frames : list frame) (open : bool)
  : Device frame :=
  {| dev_world := dev_world d; dev_now := dev_now d;
     dev_network := dev_network d;
     dev_requests := dev_requests d; dev_printed := dev_printed d;
     cam_ready := cam_ready d; cam_frames := frames; cam_open := open |}.

(** A computation that may raise and may act on the device. *)
Definition IO (A : Type) : Type := Device frame -> outcome A * Device frame.

Definition io_ret {A} (a : A) : IO A := fun d => (Returned a, d).

Definition io_bind {A B} (m : IO A) (k : A -> IO B) : IO B :=
  fun d =>
    match m d with
    | (Returned a, d') => k a d'
    | (Thrown f, d') => (Thrown f, d')
    end.

Definition throw {A} (f : failure) : IO A := fun d => (Thrown f, d).

Declare Scope io_scope.
Delimit Scope io_scope with io.
Notation "x <- m ;; k" := (io_bind m (fun x => k))
  (at level 61, m at next level, right associativity) : io_scope.

(** A computation of the encryption layer, run on the world of the
    device. *)
Definition in_world {A} (m : M A) : IO A :=
  fun d =>
    match m (dev_world d) with
    | (Ok a, w) => (Returned a, set_world d w)
    | (Raise e, w) => (Thrown (Python e), set_world d w)
    end.

(** [requests.post(...).json()] *)
Definition post_json (r : Request) : IO pyobj :=
  fun d =>
    let d' := add_request d r in
    match dev_network d (dev_requests d') with
    | Answer json => (Returned json, d')
    | NotJson => (Thrown ResponseJSONDecodeError, d')
    | NoAnswer => (Thrown RequestException, d')
    end.

(** [print(o)] *)
Definition print (o : pyobj) : IO unit :=
  fun d => (Returned tt, add_printed d o).

(** [datetime.datetime.now(...).isoformat()] *)
Definition now_isoformat : IO pystr := fun d => (Returned (dev_now d), d).

(** [cv2.VideoCapture(0)], [camera.isOpened()], [camera.read()] on an open
    capture, and [camera.release()]. *)
Definition VideoCapture : IO unit :=
  fun d => (Returned tt, set_camera d (cam_frames d) (cam_ready d)).

Definition isOpened : IO bool := fun d => (Returned (cam_open d), d).

Definition camera_read : IO (option frame) :=
  fun d =>
    match cam_frames d with
    | f :: rest => (Returned (Some f), set_camera d rest (cam_open d))
    | [] => (Returned None, d)
    end.

Definition camera_release : IO unit :=
  fun d => (Returned tt, set_camera d (cam_frames d) false).

Open Scope io_scope.

(** [f"{token}"]: a [str] as it is, [None] as its name. *)
Definition format_value (o : option pystr) : pystr :=
  match o with
  | Some s => s
  | None => str "None"
  end.

(** [bot_get_updates(token)] *)
Definition bot_get_updates (token : pystr) : IO pyobj :=
  let endpoint :=
    str "https://api.telegram.org/bot" ++ token ++ str "/getUpdates" in
  post_json {| req_url := endpoint; req_data := None; req_files := None;
               req_timeout := 60 |}.

(** [encrypt_file(password, file_bytes)] for a password that comes from
    [os.getenv]: [None] has no [encode], which shows once the salt is
    drawn and the [Scrypt] object is built. *)
Definition encrypt_file_env (password : option pystr) (file_bytes : bytes)
  : M bytes :=
  match password with
  | Some s => encrypt_file s file_bytes
  | None =>
      (salt <- os_urandom 32 ;;
       kdf <- lift (Scrypt_init salt (PyInt 32) (PyInt (2 ^ 17)) (PyInt 8)
                      (PyInt 1)) ;;
       lift (encode_utf8 PyNone))%world
  end.

(** The loop of [encrypt_file_and_broadcast]. *)
Fixpoint post_all (endpoint : pystr) (files : list (pystr * part))
         (chat_ids : list pystr) : IO unit :=
  match chat_ids with
  | [] => io_ret tt
  | chat_id :: rest =>
      json <- post_json
                {| req_url := endpoint;
                   req_data := Some [(str "chat_id", PyStr chat_id);
                                     (str "disable_notification", PyBool true)];
                   req_files := Some files;
                   req_timeout := 60 |} ;;
      _ <- print json ;;
      post_all endpoint files rest
  end.

(** [encrypt_file_and_broadcast(filename, file_bytes, blurred_file_bytes,
    password, token, chat_ids, thumbnail)] *)
Definition encrypt_file_and_broadcast (filename : pystr)
           (file_bytes blurred_file_bytes : bytes)
           (password token : option pystr) (chat_ids : list pystr)
           (thumbnail : bool) : IO unit :=
  encrypted_message <- in_world (encrypt_file_env password file_bytes) ;;
  let files :=
    [(str "document",
      Named (filename ++ str ".txt") encrypted_message
            (str "application/octet-stream"));
     (str "thumb", if thumbnail then Raw blurred_file_bytes else Absent)] in
  let endpoint :=
    str "https://api.telegram.org/bot" ++ format_value token
    ++ str "/sendDocument" in
  post_all endpoint files chat_ids.

(** [capture_image()] *)
Definition capture_image : IO (bytes * bytes) :=
  _ <- VideoCapture ;;
  opened <- isOpened ;;
  grabbed <- (if opened then camera_read else io_ret None) ;;
  match grabbed with
  | None => throw CameraInaccessible
  | Some frame0 =>
      _ <- camera_release ;;
      let img_encoded := imencode (str ".jpg") frame0 20 in
      let blurred_frame := blur frame0 (60, 60) in
      let blurred_img_encoded := imencode (str ".jpg") blurred_frame 20 in
      io_ret (img_encoded, blurred_img_encoded)
  end.

(** The block under [if __name__ == "__main__"]. *)
Definition main (s : Settings) : IO unit :=
  timestamp <- now_isoformat ;;
  let filename := timestamp ++ str ".jpg" in
  photo <- capture_image ;;
  encrypt_file_and_broadcast filename (fst photo) (snd photo)
    (PASSWORD s) (TOKEN s) (CHAT_IDS s) false.

(** The module run as a script: the assignments at its top, then the
    block. *)
Definition script (environ : Environ) : IO unit :=
  match settings environ with
  | Ok s => main s
  | Raise e => throw (Python e)
  end.

End Program.

(** An executable camera and network for the examples. *)
Module ToyDevice.

(** A frame is its bytes; blurring turns them around. *)
Definition vision : Vision bytes := {|
  imencode ext img quality := img;
  blur img ksize := List.rev img
|}.

(** A network that answers every request with the number of requests so
    far. *)
Definition network (requests : list Request) : reply :=
  Answer (PyInt (Z.of_nat (length requests))).

(** A network that is gone from the second request on. *)
Definition network_once (requests : list Request) : reply :=
  match requests with
  | [_] => Answer (PyBool true)
  | _ => NoAnswer
  end.

Definition device : Device bytes := {|
  dev_world := Toy.world;
  dev_now := str "2024-02-29T12:00:00+08:00";
  dev_network := network;
  dev_requests := [];
  dev_printed := [];
  cam_ready := true;
  cam_frames := [lit "frame one"; lit "frame two"];
  cam_open := false
|}.

Definition environ (k : pystr) : option pystr :=
  if pystr_eqb k (str "TOKEN") then Some (str "123:abc")
  else if pystr_eqb k (str "CHAT_IDS") then Some (str "11,22,33")
  else if pystr_eqb k (str "PASSWORD") then Some (str "correct horse")
  else None.

(** The same environment without [PASSWORD]. *)
Definition environ_without_password (k : pystr) : option pystr :=
  if pystr_eqb k (str "PASSWORD") then None else environ k.

(** The settings that [environ] gives. *)
Definition example_settings : Settings := {|
  TOKEN := Some (str "123:abc");
  CHAT_IDS := [str "11"; str "22"; str "33"];
  PASSWORD := Some (str "correct horse")
|}.

(** The device with a network that is gone from the second request on,
    and the device with a camera that gives no frame. *)
Definition device_offline : Device bytes := {|
  dev_world := Toy.world;
  dev_now := str "2024-02-29T12:00:00+08:00";
  dev_network := network_once;
  dev_requests := [];
  dev_printed := [];
  cam_ready := true;
  cam_frames := [lit "frame one"; lit "frame two"];
  cam_open := false
|}.

Definition device_dark : Device bytes := {|
  dev_world := Toy.world;
  dev_now := str "2024-02-29T12:00:00+08:00";
  dev_network := network;
  dev_requests := [];
  dev_printed := [];
  cam_ready := true;
  cam_frames := [];
  cam_open := false
|}.

End ToyDevice.

(** *** Vocabulary for the statements about them *)

(** [sep.join(pieces)] *)
Fixpoint str_join (sep : N) (pieces : list pystr) : pystr :=
  match pieces with
  | [] => []
  | [p] => p
  | p :: rest => p ++ sep :: str_join sep rest
  end.

(** The request of the loop of [encrypt_file_and_broadcast] for one
    chat. *)
Definition request_to (endpoint : pystr) (files : list (pystr * part))
           (chat_id : pystr) : Request :=
  {| req_url := endpoint;
     req_data := Some [(str "chat_id", PyStr chat_id);
                       (str "disable_notification", PyBool true)];
     req_files := Some files;
     req_timeout := 60 |}.

(** The request [encrypt_file_and_broadcast] makes for one chat, for the
    envelope and the thumbnail it sends. *)
Definition send_document (token : option pystr) (filename : pystr)
           (encrypted_message : bytes) (thumb : part) (chat_id : pystr)
  : Request :=
  request_to
    (str "https://api.telegram.org/bot" ++ format_value token
     ++ str "/sendDocument")
    [(str "document",
      Named (filename ++ str ".txt") encrypted_message
            (str "application/octet-stream"));
     (str "thumb", thumb)]
    chat_id.

(** An object that Python does not order against an [int]: [o < 2] raises
    [TypeError]. *)
Definition unordered (o : pyobj) : bool :=
  match o with
  | PyNone | PyStr _ | PyList _ | PyDict _ => true
  | PyBool _ | PyInt _ | PyFloat _ => false
  end.

(** A printable ASCII character: from the space to the tilde. *)
Definition printable (c : N) : bool := ((32 <=? c) && (c <=? 126))%N.

(** The byte order mark of UTF-8. *)
Definition BOM_UTF8 : bytes := [xef; xbb; xbf].

(** A byte that [json] skips as white space. *)
Definition ws_byte (b : byte) : bool := Json.is_ws (N_of_byte b).

(** A byte that means nothing to [urlsafe_b64decode]: neither a letter, a
    digit, [-], [_], [+], [/] nor the pad. *)
Definition junk (c : byte) : bool :=
  negb (urlsafe_char (N_of_byte c))
  && negb (Byte.eqb c "+") && negb (Byte.eqb c "/").

(** The decoder has no value for a [junk] byte and does not take it for
    the pad. *)
Definition junk_ok (c : byte) : bool :=
  implb (junk c)
    (negb (Byte.eqb (Base64._urlsafe_decode_translation c) Base64.PAD)
     && match Base64.table_a2b (Base64._urlsafe_decode_translation c) with
        | Some _ => false
        | None => true
        end).

(** The URL-safe translation of the decoder leaves the standard alphabet
    alone. *)
Definition standard_ok (i : N) : bool :=
  Byte.eqb (Base64._urlsafe_decode_translation (Base64.table_b2a i))
           (Base64.table_b2a i).

(** [int.from_bytes(b, byteorder="big")] *)
Definition from_bytes (b : bytes) : Z :=
  fold_left (fun acc x => (acc * 256 + Z.of_N (N_of_byte x))%Z) b 0%Z.

(** What the network replies to the requests [rs], made one after the
    other when the requests [h] (latest first) have gone before. *)
Fixpoint replies (network : list Request -> reply) (h rs : list Request)
  : list reply :=
  match rs with
  | [] => []
  | r :: rest => network (r :: h) :: replies network (r :: h) rest
  end.

(** *** A flipped bit in [ciphertext_b64] *)

(** The text of an envelope up to the opening quote of its last value,
    the text of [ciphertext_b64]. *)
Definition envelope_head (salt_str : pystr) : pystr :=
  Json.ch "{" :: Json.QUOTE :: str "salt" ++ Json.QUOTE :: str ": "
  ++ Json.QUOTE :: salt_str ++ Json.QUOTE :: str ", "
  ++ Json.QUOTE :: str "length" ++ Json.QUOTE :: str ": 32, "
  ++ Json.QUOTE :: str "n" ++ Json.QUOTE :: str ": 131072, "
  ++ Json.QUOTE :: str "r" ++ Json.QUOTE :: str ": 8, "
  ++ Json.QUOTE :: str "p" ++ Json.QUOTE :: str ": 1, "
  ++ Json.QUOTE :: str "ciphertext_b64" ++ Json.QUOTE :: str ": "
  ++ [Json.QUOTE].

(** What [decrypt_file] returns on [Example.file] with bit [j] of its
    byte [i] flipped. *)
Definition flip_outcome (i : nat) (j : N) : result bytes :=
  fst (decrypt_file (L := Toy.library) Example.password
         (flip_bit i j Example.file) Toy.world).

Inductive outcome_kind : Type :=
  | SamePlaintext | OtherBytes | NoUtf8 | NoJson | NoEncoding | NoBase64
  | BadToken | OtherError.

Definition kind_of (r : result bytes) : outcome_kind :=
  match r with
  | Ok m => if Fernet.bytes_eqb m Example.plaintext then SamePlaintext
            else OtherBytes
  | Raise UnicodeDecodeError => NoUtf8
  | Raise JSONDecodeError => NoJson
  | Raise UnicodeEncodeError => NoEncoding
  | Raise BinasciiError => NoBase64
  | Raise InvalidToken => BadToken
  | Raise _ => OtherError
  end.

Definition kind_eqb (a b : outcome_kind) : bool :=
  match a, b with
  | SamePlaintext, SamePlaintext | OtherBytes, OtherBytes | NoUtf8, NoUtf8
  | NoJson, NoJson | NoEncoding, NoEncoding | NoBase64, NoBase64
  | BadToken, BadToken | OtherError, OtherError => true
  | _, _ => false
  end.

(** The outcome of every flip of one bit in the text of
    [ciphertext_b64] of [Example.file], which starts at byte 119. *)
Definition flip_kinds : list outcome_kind :=
  flat_map (fun i =>
              List.map (fun j => kind_of (flip_outcome i (N.of_nat j))) (seq 0 8))
           (seq 119 (length Example.ciphertext_str)).

Definition count_kind (k : outcome_kind) : nat :=
  length (List.filter (kind_eqb k) flip_kinds).

(** * Properties *)

(** ** Results *)

Lemma Ok_inj (A : Type) (a b : A) : Ok a = Ok b -> a = b.
Proof. intros H. injection H as H. exact H. Qed.

Lemma rcons_Ok (A : Type) (a : A) (r : result (list A)) (l : list A) :
  rcons a r = Ok l -> exists l', r = Ok l' /\ l = a :: l'.
Proof.
  destruct r as [l'|e]; cbn [rcons]; intros H; [|discriminate].
  apply Ok_inj in H. eauto.
Qed.

(** ** Bytes *)

Lemma N_of_byte_lt (b : byte) : (N_of_byte b < 256)%N.
Proof. unfold N_of_byte. pose proof (Byte.to_N_bounded b). lia. Qed.

Lemma byte_of_N_of_byte (b : byte) : byte_of_N (N_of_byte b) = b.
Proof.
  unfold byte_of_N, N_of_byte.
  rewrite N.mod_small by (pose proof (Byte.to_N_bounded b); lia).
  now rewrite Byte.of_to_N.
Qed.

Lemma N_of_byte_of_N (n : N) : (n < 256)%N -> N_of_byte (byte_of_N n) = n.
Proof.
  intros H. unfold byte_of_N, N_of_byte. rewrite N.mod_small by assumption.
  destruct (Byte.of_N n) eqn:E.
  - now apply Byte.to_of_N.
  - apply Byte.of_N_None_iff in E. lia.
Qed.

Lemma in_all_bytes (b : byte) : In b all_bytes.
Proof.
  unfold all_bytes. apply in_map_iff.
  exists (N.to_nat (N_of_byte b)). split.
  - rewrite N2Nat.id. apply byte_of_N_of_byte.
  - apply in_seq. pose proof (N_of_byte_lt b). lia.
Qed.

Lemma forall_byte_spec (f : byte -> bool) :
  forall_byte f = true -> forall b, f b = true.
Proof.
  unfold forall_byte. intros H b.
  rewrite forallb_forall in H. apply H, in_all_bytes.
Qed.

Lemma forall_byte2_spec (f : byte -> byte -> bool) :
  forall_byte2 f = true -> forall a b, f a b = true.
Proof.
  unfold forall_byte2. intros H a b.
  rewrite forallb_forall in H. specialize (H a (in_all_bytes a)).
  rewrite forallb_forall in H. apply H, in_all_bytes.
Qed.

Lemma byte_eqb_refl (b : byte) : Byte.eqb b b = true.
Proof. now apply Byte.byte_dec_lb. Qed.

Lemma byte_eqb_eq (a b : byte) : Byte.eqb a b = true <-> a = b.
Proof. split; [apply Byte.byte_dec_bl | apply Byte.byte_dec_lb]. Qed.

(** ** base64 *)

Lemma list_ind3 (A : Type) (P : list A -> Prop) :
  P [] -> (forall a, P [a]) -> (forall a b, P [a; b]) ->
  (forall a b c l, P l -> P (a :: b :: c :: l)) ->
  forall l, P l.
Proof.
  intros H0 H1 H2 H3.
  fix IH 1. intros [|a [|b [|c l]]];
    [exact H0 | apply H1 | apply H2 | apply H3, IH].
Qed.

Module Base64Facts.
Import Base64 Checks.

Lemma digits_ok : forallb digit_ok (List.map N.of_nat (seq 0 64)) = true.
Proof. vm_compute. reflexivity. Qed.

Lemma digit_ok_lt (i : N) : (i < 64)%N -> digit_ok i = true.
Proof.
  intros H. pose proof digits_ok as A. rewrite forallb_forall in A.
  apply A, in_map_iff. exists (N.to_nat i). split; [apply N2Nat.id|].
  apply in_seq. lia.
Qed.

Ltac split_digit H :=
  apply digit_ok_lt in H; unfold digit_ok in H;
  repeat (let H' := fresh in apply andb_prop in H; destruct H as [H H']).

Lemma table_translate (i : N) : (i < 64)%N ->
  _urlsafe_decode_translation (_urlsafe_encode_translation (table_b2a i))
  = table_b2a i.
Proof. intros H. split_digit H. now apply byte_eqb_eq. Qed.

Lemma table_not_pad (i : N) : (i < 64)%N -> Byte.eqb (table_b2a i) PAD = false.
Proof. intros H. split_digit H. now apply negb_true_iff. Qed.

Lemma table_a2b_b2a (i : N) : (i < 64)%N -> table_a2b (table_b2a i) = Some i.
Proof.
  intros H. split_digit H.
  destruct (table_a2b (table_b2a i)); [|discriminate].
  f_equal. now apply N.eqb_eq.
Qed.

Lemma table_plain (i : N) : (i < 64)%N ->
  plain (N_of_byte (_urlsafe_encode_translation (table_b2a i))) = true.
Proof. intros H. split_digit H. assumption. Qed.

Lemma first_ok_all a b : first_ok a b = true.
Proof. apply forall_byte2_spec. vm_compute. reflexivity. Qed.

Lemma second_ok_all b c : second_ok b c = true.
Proof. apply forall_byte2_spec. vm_compute. reflexivity. Qed.

Lemma third_ok_all c : third_ok c = true.
Proof. apply forall_byte_spec. vm_compute. reflexivity. Qed.

Lemma tail1_ok_all a : tail1_ok a = true.
Proof. apply forall_byte_spec. vm_compute. reflexivity. Qed.

Lemma tail2_ok_all b : tail2_ok b = true.
Proof. apply forall_byte_spec. vm_compute. reflexivity. Qed.

(** One step of the decoder on a character of the alphabet. *)
Lemma a2b_loop_digit (i : N) rest quad_pos leftchar pads : (i < 64)%N ->
  a2b_loop (table_b2a i :: rest) quad_pos leftchar pads =
  if (quad_pos =? 0)%N then a2b_loop rest 1%N i 0%N
  else if (quad_pos =? 1)%N then
    rcons (byte_of_N (N.lor (N.shiftl leftchar 2) (N.shiftr i 4)))
          (a2b_loop rest 2%N (N.land i 15) 0%N)
  else if (quad_pos =? 2)%N then
    rcons (byte_of_N (N.lor (N.shiftl leftchar 4) (N.shiftr i 2)))
          (a2b_loop rest 3%N (N.land i 3) 0%N)
  else
    rcons (byte_of_N (N.lor (N.shiftl leftchar 6) i))
          (a2b_loop rest 0%N 0%N 0%N).
Proof.
  intros H. cbn [a2b_loop].
  now rewrite (table_not_pad H), (table_a2b_b2a H).
Qed.

Ltac unpack H :=
  repeat (let H' := fresh in apply andb_prop in H; destruct H as [H H']);
  repeat match goal with
         | X : (_ <? _)%N = true |- _ => apply N.ltb_lt in X
         | X : (_ =? _)%N = true |- _ => apply N.eqb_eq in X
         | X : Byte.eqb _ _ = true |- _ => apply byte_eqb_eq in X
         end.

Section Group.
Variables a b c : byte.
Let x := N_of_byte a.
Let y := N_of_byte b.
Let z := N_of_byte c.

Lemma idx1_lt : (x / 4 < 64)%N.
Proof. pose proof (first_ok_all a a) as F. unfold first_ok in F. now unpack F. Qed.

Lemma idx2_lt : ((x mod 4) * 16 + y / 16 < 64)%N.
Proof. pose proof (first_ok_all a b) as F. unfold first_ok in F. now unpack F. Qed.

Lemma byte1 :
  byte_of_N (N.lor (N.shiftl (x / 4) 2) (N.shiftr ((x mod 4) * 16 + y / 16) 4)) = a.
Proof. pose proof (first_ok_all a b) as F. unfold first_ok in F. now unpack F. Qed.

Lemma left2 : N.land ((x mod 4) * 16 + y / 16) 15 = (y / 16)%N.
Proof. pose proof (first_ok_all a b) as F. unfold first_ok in F. now unpack F. Qed.

Lemma idx3_lt : ((y mod 16) * 4 + z / 64 < 64)%N.
Proof. pose proof (second_ok_all b c) as F. unfold second_ok in F. now unpack F. Qed.

Lemma byte2 :
  byte_of_N (N.lor (N.shiftl (y / 16) 4) (N.shiftr ((y mod 16) * 4 + z / 64) 2)) = b.
Proof. pose proof (second_ok_all b c) as F. unfold second_ok in F. now unpack F. Qed.

Lemma left3 : N.land ((y mod 16) * 4 + z / 64) 3 = (z / 64)%N.
Proof. pose proof (second_ok_all b c) as F. unfold second_ok in F. now unpack F. Qed.

Lemma idx4_lt : (z mod 64 < 64)%N.
Proof. pose proof (third_ok_all c) as F. unfold third_ok in F. now unpack F. Qed.

Lemma byte3 : byte_of_N (N.lor (N.shiftl (z / 64) 6) (z mod 64)) = c.
Proof. pose proof (third_ok_all c) as F. unfold third_ok in F. now unpack F. Qed.

Lemma tail1_lt : ((x mod 4) * 16 < 64)%N.
Proof. pose proof (tail1_ok_all a) as F. unfold tail1_ok in F. now unpack F. Qed.

Lemma tail1_byte :
  byte_of_N (N.lor (N.shiftl (x / 4) 2) (N.shiftr ((x mod 4) * 16) 4)) = a.
Proof. pose proof (tail1_ok_all a) as F. unfold tail1_ok in F. now unpack F. Qed.

Lemma tail2_lt : ((y mod 16) * 4 < 64)%N.
Proof. pose proof (tail2_ok_all b) as F. unfold tail2_ok in F. now unpack F. Qed.

Lemma tail2_byte :
  byte_of_N (N.lor (N.shiftl (y / 16) 4) (N.shiftr ((y mod 16) * 4) 2)) = b.
Proof. pose proof (tail2_ok_all b) as F. unfold tail2_ok in F. now unpack F. Qed.
End Group.

Ltac digit_step :=
  rewrite a2b_loop_digit
    by first [apply idx1_lt | apply idx2_lt | apply idx3_lt | apply idx4_lt
             | apply tail1_lt | apply tail2_lt];
  cbn [N.eqb Pos.eqb].

(** Decoding undoes encoding, from any state at the start of a quad. *)
Lemma a2b_b2a (s : bytes) : forall leftchar pads,
  a2b_loop (b2a_base64 s) 0 leftchar pads = Ok s.
Proof.
  induction s as [|a|a b|a b c l IH] using list_ind3; intros lc pads.
  - reflexivity.
  - cbn [b2a_base64]. do 2 digit_step.
    rewrite tail1_byte. reflexivity.
  - cbn [b2a_base64]. do 3 digit_step.
    rewrite byte1, left2, tail2_byte. reflexivity.
  - cbn [b2a_base64]. do 4 digit_step.
    rewrite byte1, left2, byte2, left3, byte3, IH. reflexivity.
Qed.

Lemma b2a_chars (s : bytes) : Forall b64_char (b2a_base64 s).
Proof.
  induction s as [|a|a b|a b c l IH] using list_ind3; cbn [b2a_base64];
    repeat first [ apply Forall_nil | assumption
                 | apply Forall_cons; [first [apply b64_pad | apply b64_digit]|] ];
    first [apply idx1_lt | apply idx2_lt | apply idx3_lt | apply idx4_lt
          | apply tail1_lt | apply tail2_lt].
Qed.

Lemma b64_char_translate (c : byte) : b64_char c ->
  _urlsafe_decode_translation (_urlsafe_encode_translation c) = c.
Proof. intros [i H|]; [now apply table_translate | reflexivity]. Qed.

Lemma b64_char_plain (c : byte) : b64_char c ->
  plain (N_of_byte (_urlsafe_encode_translation c)) = true.
Proof. intros [i H|]; [now apply table_plain | reflexivity]. Qed.

Lemma map_translate (l : bytes) : Forall b64_char l ->
  List.map _urlsafe_decode_translation (List.map _urlsafe_encode_translation l) = l.
Proof.
  induction 1 as [|c l Hc _ IH]; cbn [List.map]; [reflexivity|].
  now rewrite IH, b64_char_translate.
Qed.

(** [urlsafe_b64decode] undoes [urlsafe_b64encode]. *)
Lemma urlsafe_b64decode_encode (s : bytes) :
  urlsafe_b64decode (urlsafe_b64encode s) = Ok s.
Proof.
  unfold urlsafe_b64decode, urlsafe_b64encode, b64decode, b64encode, a2b_base64.
  rewrite map_translate by apply b2a_chars. apply a2b_b2a.
Qed.

Lemma urlsafe_b64encode_inj (s t : bytes) :
  urlsafe_b64encode s = urlsafe_b64encode t -> s = t.
Proof.
  intros H. pose proof (urlsafe_b64decode_encode s) as A.
  rewrite H, urlsafe_b64decode_encode in A. now injection A.
Qed.

(** Every character of an encoding is printable ASCII that JSON leaves
    alone. *)
Lemma urlsafe_b64encode_plain (s : bytes) :
  Forall (fun c => plain (N_of_byte c) = true) (urlsafe_b64encode s).
Proof.
  unfold urlsafe_b64encode, b64encode. apply Forall_map.
  eapply Forall_impl; [|apply b2a_chars]. apply b64_char_plain.
Qed.

(** An encoding is made of whole quads. *)
Lemma b2a_length (s : bytes) : length (b2a_base64 s) = 4 * ((length s + 2) / 3).
Proof.
  induction s as [|a|a b|a b c l IH] using list_ind3; try reflexivity.
  cbn [b2a_base64 length]. rewrite IH.
  replace (S (S (S (length l))) + 2) with (length l + 2 + 1 * 3) by lia.
  rewrite Nat.div_add by lia. lia.
Qed.

Lemma urlsafe_b64encode_length (s : bytes) :
  length (urlsafe_b64encode s) = 4 * ((length s + 2) / 3).
Proof. unfold urlsafe_b64encode, b64encode. rewrite length_map. apply b2a_length. Qed.

Lemma b2a_cons3 (a b c : byte) (l : bytes) :
  b2a_base64 (a :: b :: c :: l) =
  table_b2a (N_of_byte a / 4)
  :: table_b2a ((N_of_byte a mod 4) * 16 + N_of_byte b / 16)
  :: table_b2a ((N_of_byte b mod 16) * 4 + N_of_byte c / 64)
  :: table_b2a (N_of_byte c mod 64) :: b2a_base64 l.
Proof. reflexivity. Qed.

(** The encoding of a number of bytes that leaves a remainder of two:
    three characters of the last group, then one pad. *)
Lemma b2a_app2 (s : bytes) (a b : byte) : (length s mod 3 = 0)%nat ->
  b2a_base64 (s ++ [a; b]) = b2a_base64 s ++ b2a_base64 [a; b].
Proof.
  induction s as [|x|x y|x y z l IH] using list_ind3; intros H.
  - reflexivity.
  - discriminate.
  - discriminate.
  - cbn [length] in H.
    replace (S (S (S (length l)))) with (length l + 1 * 3) in H by lia.
    rewrite Nat.Div0.mod_add in H.
    rewrite <- !app_comm_cons, !b2a_cons3, IH by assumption. reflexivity.
Qed.

Lemma b2a_app1 (s : bytes) (a : byte) : (length s mod 3 = 0)%nat ->
  b2a_base64 (s ++ [a]) = b2a_base64 s ++ b2a_base64 [a].
Proof.
  induction s as [|x|x y|x y z l IH] using list_ind3; intros H.
  - reflexivity.
  - discriminate.
  - discriminate.
  - cbn [length] in H.
    replace (S (S (S (length l)))) with (length l + 1 * 3) in H by lia.
    rewrite Nat.Div0.mod_add in H.
    rewrite <- !app_comm_cons, !b2a_cons3, IH by assumption. reflexivity.
Qed.

End Base64Facts.

(** ** UTF-8 on ASCII *)

Lemma plain_ascii (c : N) : plain c = true -> (c < 128)%N.
Proof.
  unfold plain. intros H.
  destruct (N.leb_spec c 126) as [A|A]; [lia|].
  now rewrite andb_false_r in H.
Qed.

Lemma utf8_encode_ascii (s : pystr) : Forall (fun c => (c < 128)%N) s ->
  Utf8.encode s = Ok (List.map byte_of_N s).
Proof.
  induction 1 as [|c s Hc _ IH]; [reflexivity|].
  cbn [Utf8.encode List.map]. unfold Utf8.encode_char.
  apply N.ltb_lt in Hc. rewrite Hc, IH. reflexivity.
Qed.

Lemma utf8_decode_ascii (surrogatepass : bool) (b : bytes) :
  Forall (fun c => (N_of_byte c < 128)%N) b ->
  Utf8.decode surrogatepass b = Ok (List.map N_of_byte b).
Proof.
  induction 1 as [|c b Hc _ IH]; [reflexivity|].
  cbn [Utf8.decode List.map].
  apply N.ltb_lt in Hc. rewrite Hc, IH. reflexivity.
Qed.

Lemma map_byte_of_N_of_byte (b : bytes) : List.map byte_of_N (List.map N_of_byte b) = b.
Proof.
  induction b as [|c b IH]; [reflexivity|].
  cbn [List.map]. now rewrite byte_of_N_of_byte, IH.
Qed.

Lemma map_N_of_byte_of_N (s : pystr) : Forall (fun c => (c < 128)%N) s ->
  List.map N_of_byte (List.map byte_of_N s) = s.
Proof.
  induction 1 as [|c s Hc _ IH]; [reflexivity|].
  cbn [List.map]. rewrite N_of_byte_of_N, IH by lia. reflexivity.
Qed.

Lemma all_plain_ascii (s : pystr) : all_plain s -> Forall (fun c => (c < 128)%N) s.
Proof. apply Forall_impl, plain_ascii. Qed.

Lemma b64_str_plain (s : bytes) : all_plain (b64_str s).
Proof.
  unfold all_plain, b64_str. apply Forall_map.
  apply Base64Facts.urlsafe_b64encode_plain.
Qed.

(** [urlsafe_b64encode(s).decode("utf-8")] *)
Lemma utf8_decode_b64 (s : bytes) :
  Utf8.decode false (Base64.urlsafe_b64encode s) = Ok (b64_str s).
Proof.
  apply utf8_decode_ascii.
  eapply Forall_impl; [|apply Base64Facts.urlsafe_b64encode_plain].
  intros c. apply plain_ascii.
Qed.

(** [b64_str(s).encode("utf-8")] *)
Lemma utf8_encode_b64 (s : bytes) :
  Utf8.encode (b64_str s) = Ok (Base64.urlsafe_b64encode s).
Proof.
  rewrite utf8_encode_ascii by apply all_plain_ascii, b64_str_plain.
  unfold b64_str. now rewrite map_byte_of_N_of_byte.
Qed.

Lemma b64_str_inj (s t : bytes) : b64_str s = b64_str t -> s = t.
Proof.
  intros H. apply Base64Facts.urlsafe_b64encode_inj.
  rewrite <- (map_byte_of_N_of_byte (Base64.urlsafe_b64encode s)).
  rewrite <- (map_byte_of_N_of_byte (Base64.urlsafe_b64encode t)).
  unfold b64_str in H. now rewrite H.
Qed.

(** ** json on envelopes *)

Module JsonFacts.
Import Json.

Lemma plain_inv (c : N) : plain c = true ->
  (c =? QUOTE)%N = false /\ (c =? BACKSLASH)%N = false
  /\ (c <? 32)%N = false /\ ((32 <=? c) && (c <=? 126))%N = true.
Proof.
  unfold plain, QUOTE, BACKSLASH. intros H.
  destruct (N.eqb_spec c 34), (N.eqb_spec c 92), (N.ltb_spec c 32),
    (N.leb_spec 32 c), (N.leb_spec c 126);
    cbn in H; try discriminate; try lia; auto.
Qed.

Lemma escape_plain (s : pystr) : all_plain s -> flat_map escape_char s = s.
Proof.
  induction 1 as [|c s Hc _ IH]; [reflexivity|].
  cbn [flat_map]. rewrite IH. unfold escape_char.
  destruct (@plain_inv c Hc) as (-> & -> & _ & ->). reflexivity.
Qed.

Lemma encode_basestring_plain (s : pystr) : all_plain s ->
  encode_basestring_ascii s = QUOTE :: s ++ [QUOTE].
Proof. intros H. unfold encode_basestring_ascii. now rewrite escape_plain. Qed.

(** What [json.dumps] prints for an envelope. *)
Lemma dumps_envelope (s c : pystr) : all_plain s -> all_plain c ->
  dumps (envelope s c) = envelope_text s c.
Proof.
  intros Hs Hc. unfold envelope, envelope_text.
  cbn [dumps List.map join fst snd].
  rewrite (@encode_basestring_plain s Hs), (@encode_basestring_plain c Hc).
  cbn. rewrite <- !app_assoc. cbn. rewrite <- !app_assoc. reflexivity.
Qed.

Lemma scanstring_plain (s rest : pystr) : all_plain s ->
  scanstring (s ++ QUOTE :: rest) = Ok (s, rest).
Proof.
  induction 1 as [|c s Hc _ IH].
  - reflexivity.
  - cbn [Datatypes.app scanstring].
    destruct (@plain_inv c Hc) as (-> & -> & -> & _). now rewrite IH.
Qed.

Lemma scan_once_object (fuel : nat) (r : pystr) :
  scan_once (S fuel) (ch "{" :: QUOTE :: r) = parse_members fuel [] (QUOTE :: r).
Proof. reflexivity. Qed.

Lemma scan_once_string (fuel : nat) (v rest : pystr) : all_plain v ->
  scan_once (S fuel) (QUOTE :: v ++ QUOTE :: rest) = Ok (PyStr v, rest).
Proof.
  intros Hv. cbn [scan_once]. rewrite N.eqb_refl.
  now rewrite (@scanstring_plain v rest Hv).
Qed.

(** A member whose value is a string, followed by another member. *)
Lemma member_str_comma (fuel : nat) acc (k v next : pystr) :
  all_plain k -> all_plain v ->
  parse_members (S (S fuel)) acc
    (QUOTE :: k ++ QUOTE :: str ": " ++ QUOTE :: v ++ QUOTE :: str ", "
     ++ QUOTE :: next)
  = parse_members (S fuel) (dict_set acc k (PyStr v)) (QUOTE :: next).
Proof.
  intros Hk Hv. cbn [parse_members]. rewrite N.eqb_refl.
  rewrite (@scanstring_plain k _ Hk). cbn [rbind fst snd].
  change (skip_ws (str ": " ++ QUOTE :: v ++ QUOTE :: str ", " ++ QUOTE :: next))
    with (ch ":" :: 32%N :: QUOTE :: v ++ QUOTE :: str ", " ++ QUOTE :: next).
  change (is_char (ch ":") ":") with true. cbn iota.
  change (skip_ws (32%N :: QUOTE :: v ++ QUOTE :: str ", " ++ QUOTE :: next))
    with (QUOTE :: v ++ QUOTE :: str ", " ++ QUOTE :: next).
  rewrite (scan_once_string fuel _ Hv). cbn [rbind fst snd].
  reflexivity.
Qed.

(** The last member, whose value is a string. *)
Lemma member_str_last (fuel : nat) acc (k v : pystr) :
  all_plain k -> all_plain v ->
  parse_members (S (S fuel)) acc
    (QUOTE :: k ++ QUOTE :: str ": " ++ QUOTE :: v ++ [QUOTE; ch "}"])
  = Ok (PyDict (dict_set acc k (PyStr v)), []).
Proof.
  intros Hk Hv. cbn [parse_members]. rewrite N.eqb_refl.
  rewrite (@scanstring_plain k _ Hk). cbn [rbind fst snd].
  change (skip_ws (str ": " ++ QUOTE :: v ++ [QUOTE; ch "}"]))
    with (ch ":" :: 32%N :: QUOTE :: v ++ [QUOTE; ch "}"]).
  change (is_char (ch ":") ":") with true. cbn iota.
  change (skip_ws (32%N :: QUOTE :: v ++ [QUOTE; ch "}"]))
    with (QUOTE :: v ++ QUOTE :: [ch "}"]).
  rewrite (scan_once_string fuel _ Hv). cbn [rbind fst snd].
  reflexivity.
Qed.

(** A member whose value is an integer literal, followed by another
    member. *)
Lemma member_int_comma (fuel : nat) acc (k num next : pystr) (z : Z) :
  all_plain k ->
  (forall r, skip_ws (num ++ r) = num ++ r) ->
  (forall r, scan_once (S fuel) (num ++ ch "," :: r) = Ok (PyInt z, ch "," :: r)) ->
  parse_members (S (S fuel)) acc
    (QUOTE :: k ++ QUOTE :: str ": " ++ num ++ str ", " ++ QUOTE :: next)
  = parse_members (S fuel) (dict_set acc k (PyInt z)) (QUOTE :: next).
Proof.
  intros Hk Hws Hnum. cbn [parse_members]. rewrite N.eqb_refl.
  rewrite (@scanstring_plain k _ Hk). cbn [rbind fst snd].
  change (skip_ws (str ": " ++ num ++ str ", " ++ QUOTE :: next))
    with (ch ":" :: 32%N :: num ++ str ", " ++ QUOTE :: next).
  change (is_char (ch ":") ":") with true. cbn iota.
  change (skip_ws (32%N :: num ++ str ", " ++ QUOTE :: next))
    with (skip_ws (num ++ str ", " ++ QUOTE :: next)).
  rewrite Hws.
  change (num ++ str ", " ++ QUOTE :: next)
    with (num ++ ch "," :: 32%N :: QUOTE :: next).
  rewrite Hnum. cbn [rbind fst snd].
  reflexivity.
Qed.

Lemma scan_once_32 (fuel : nat) (r : pystr) :
  scan_once (S fuel) (str "32" ++ ch "," :: r) = Ok (PyInt 32, ch "," :: r).
Proof. vm_compute. reflexivity. Qed.

Lemma scan_once_131072 (fuel : nat) (r : pystr) :
  scan_once (S fuel) (str "131072" ++ ch "," :: r) = Ok (PyInt 131072, ch "," :: r).
Proof. vm_compute. reflexivity. Qed.

Lemma scan_once_8 (fuel : nat) (r : pystr) :
  scan_once (S fuel) (str "8" ++ ch "," :: r) = Ok (PyInt 8, ch "," :: r).
Proof. vm_compute. reflexivity. Qed.

Lemma scan_once_1 (fuel : nat) (r : pystr) :
  scan_once (S fuel) (str "1" ++ ch "," :: r) = Ok (PyInt 1, ch "," :: r).
Proof. vm_compute. reflexivity. Qed.

Lemma all_plain_str_salt : all_plain (str "salt").
Proof. repeat constructor. Qed.
Lemma all_plain_str_length : all_plain (str "length").
Proof. repeat constructor. Qed.
Lemma all_plain_str_n : all_plain (str "n").
Proof. repeat constructor. Qed.
Lemma all_plain_str_r : all_plain (str "r").
Proof. repeat constructor. Qed.
Lemma all_plain_str_p : all_plain (str "p").
Proof. repeat constructor. Qed.
Lemma all_plain_str_ciphertext : all_plain (str "ciphertext_b64").
Proof. repeat constructor. Qed.

(** The scanner reads the text of an envelope back. *)
Lemma scan_envelope_text (fuel : nat) (s c : pystr) :
  all_plain s -> all_plain c ->
  scan_once (8 + fuel) (envelope_text s c) = Ok (envelope s c, []).
Proof.
  intros Hs Hc.
  change (8 + fuel) with (S (S (S (S (S (S (S (S fuel)))))))).
  change (envelope_text s c) with
    (ch "{" :: QUOTE :: str "salt" ++ QUOTE :: str ": "
     ++ QUOTE :: s ++ QUOTE :: str ", "
     ++ QUOTE :: str "length" ++ QUOTE :: str ": " ++ str "32" ++ str ", "
     ++ QUOTE :: str "n" ++ QUOTE :: str ": " ++ str "131072" ++ str ", "
     ++ QUOTE :: str "r" ++ QUOTE :: str ": " ++ str "8" ++ str ", "
     ++ QUOTE :: str "p" ++ QUOTE :: str ": " ++ str "1" ++ str ", "
     ++ QUOTE :: str "ciphertext_b64" ++ QUOTE :: str ": "
     ++ QUOTE :: c ++ [QUOTE; ch "}"]).
  rewrite scan_once_object.
  rewrite (@member_str_comma _ _ (str "salt") s _ all_plain_str_salt Hs).
  rewrite (@member_int_comma _ _ (str "length") (str "32") _ 32 all_plain_str_length
             (fun r => eq_refl) (scan_once_32 _)).
  rewrite (@member_int_comma _ _ (str "n") (str "131072") _ 131072 all_plain_str_n
             (fun r => eq_refl) (scan_once_131072 _)).
  rewrite (@member_int_comma _ _ (str "r") (str "8") _ 8 all_plain_str_r
             (fun r => eq_refl) (scan_once_8 _)).
  rewrite (@member_int_comma _ _ (str "p") (str "1") _ 1 all_plain_str_p
             (fun r => eq_refl) (scan_once_1 _)).
  rewrite (@member_str_last _ _ (str "ciphertext_b64") c all_plain_str_ciphertext Hc).
  reflexivity.
Qed.

Lemma envelope_text_length (s c : pystr) : 7 <= length (envelope_text s c).
Proof.
  unfold envelope_text. change (str "salt") with [115; 97; 108; 116]%N.
  cbn [length Datatypes.app]. lia.
Qed.

(** [JSONDecoder.decode] reads the text of an envelope back. *)
Lemma decode_envelope_text (s c : pystr) : all_plain s -> all_plain c ->
  decode (envelope_text s c) = Ok (envelope s c).
Proof.
  intros Hs Hc. unfold decode.
  change (skip_ws (envelope_text s c)) with (envelope_text s c).
  cbv zeta.
  replace (S (length (envelope_text s c)))
    with (8 + (length (envelope_text s c) - 7))
    by (pose proof (envelope_text_length s c); lia).
  rewrite (scan_envelope_text _ Hs Hc). reflexivity.
Qed.

Lemma envelope_text_ascii (s c : pystr) : all_plain s -> all_plain c ->
  Forall (fun x => (x < 128)%N) (envelope_text s c).
Proof.
  intros Hs Hc. apply all_plain_ascii in Hs, Hc. unfold envelope_text.
  repeat first [ assumption
               | apply Forall_nil
               | apply Forall_cons; [reflexivity|]
               | apply Forall_app; split ].
Qed.

(** [envelope_text(s, c).encode("utf-8")] *)
Lemma utf8_encode_envelope_text (s c : pystr) : all_plain s -> all_plain c ->
  Utf8.encode (envelope_text s c) = Ok (List.map byte_of_N (envelope_text s c)).
Proof. intros Hs Hc. now apply utf8_encode_ascii, envelope_text_ascii. Qed.

Lemma detect_encoding_envelope_text {L : Library} (s c : pystr) :
  detect_encoding (List.map byte_of_N (envelope_text s c)) = utf_8.
Proof. reflexivity. Qed.

(** [json.loads] reads the bytes of an envelope back. *)
Lemma loads_envelope_text {L : Library} (s c : pystr) :
  all_plain s -> all_plain c ->
  loads (List.map byte_of_N (envelope_text s c)) = Ok (envelope s c).
Proof.
  intros Hs Hc. unfold loads. rewrite detect_encoding_envelope_text.
  pose proof (envelope_text_ascii Hs Hc) as A.
  rewrite utf8_decode_ascii.
  - rewrite (map_N_of_byte_of_N A). cbn [rbind].
    now apply decode_envelope_text.
  - apply Forall_map. eapply Forall_impl; [|exact A].
    intros x Hx. cbv beta in Hx. rewrite N_of_byte_of_N; lia.
Qed.

End JsonFacts.

(** ** Fernet *)

Module FernetFacts.
Import Fernet.

Lemma pad_size_bounds (len : nat) : 1 <= 16 - len mod 16 <= 16.
Proof. pose proof (Nat.mod_upper_bound len 16). lia. Qed.

Lemma pkcs7_pad_length (data : bytes) :
  length (pkcs7_pad data) = length data + (16 - length data mod 16).
Proof. unfold pkcs7_pad. rewrite length_app, repeat_length. reflexivity. Qed.

Lemma pkcs7_pad_blocks (data : bytes) : length (pkcs7_pad data) mod 16 = 0.
Proof.
  rewrite pkcs7_pad_length.
  pose proof (Nat.div_mod_eq (length data) 16) as E.
  pose proof (Nat.mod_upper_bound (length data) 16) as B.
  replace (length data + (16 - length data mod 16))
    with ((length data / 16 + 1) * 16) by lia.
  apply Nat.Div0.mod_mul.
Qed.

Lemma last_repeat (b : byte) (n : nat) (l : bytes) : 1 <= n ->
  last (l ++ repeat b n) x00 = b.
Proof.
  intros H. destruct n as [|n]; [lia|].
  replace (S n) with (n + 1) by lia.
  rewrite repeat_app, !app_assoc. cbn [repeat]. apply last_last.
Qed.

Lemma forallb_repeat (b : byte) (n : nat) :
  forallb (fun x => Byte.eqb x b) (repeat b n) = true.
Proof.
  induction n as [|n IH]; [reflexivity|].
  cbn [repeat forallb]. rewrite byte_eqb_refl, IH. reflexivity.
Qed.

(** Removing the padding undoes adding it. *)
Lemma pkcs7_unpad_pad (data : bytes) : pkcs7_unpad (pkcs7_pad data) = Ok data.
Proof.
  pose proof (pad_size_bounds (length data)) as B.
  unfold pkcs7_unpad.
  rewrite pkcs7_pad_blocks, pkcs7_pad_length.
  replace (Nat.eqb (length data + (16 - length data mod 16)) 0) with false
    by (symmetry; apply Nat.eqb_neq; lia).
  cbn [Nat.eqb orb negb].
  unfold pkcs7_pad. set (n := 16 - length data mod 16) in *.
  rewrite last_repeat by lia.
  rewrite N_of_byte_of_N by lia. rewrite Nat2N.id.
  replace (length data + n - n) with (length data) by lia.
  rewrite skipn_app, skipn_all, Nat.sub_diag. cbn [skipn Datatypes.app].
  rewrite forallb_repeat.
  replace (Nat.leb 1 n) with true by (symmetry; apply Nat.leb_le; lia).
  replace (Nat.leb n 16) with true by (symmetry; apply Nat.leb_le; lia).
  cbn [andb].
  rewrite firstn_app, firstn_all, Nat.sub_diag. cbn [firstn].
  rewrite app_nil_r. reflexivity.
Qed.

Lemma to_bytes8_length (z : Z) (ts : bytes) : to_bytes8 z = Ok ts -> length ts = 8.
Proof.
  unfold to_bytes8. destruct (_ && _); [|discriminate].
  intros H. apply Ok_inj in H. subst ts. reflexivity.
Qed.

Lemma to_bytes8_ok (z : Z) : (0 <= z < 2 ^ 64)%Z -> exists ts, to_bytes8 z = Ok ts.
Proof.
  intros H. unfold to_bytes8.
  replace ((0 <=? z)%Z && (z <? 2 ^ 64)%Z) with true; [eauto|].
  symmetry. apply andb_true_iff. split; [apply Z.leb_le | apply Z.ltb_lt]; lia.
Qed.

Lemma bytes_eqb_refl (b : bytes) : bytes_eqb b b = true.
Proof.
  unfold bytes_eqb. destruct (list_eq_dec Byte.byte_eq_dec b b);
    [reflexivity | congruence].
Qed.

Lemma bytes_eqb_eq (a b : bytes) : bytes_eqb a b = true <-> a = b.
Proof.
  unfold bytes_eqb. destruct (list_eq_dec Byte.byte_eq_dec a b); split;
    auto; discriminate.
Qed.

(** [Fernet(urlsafe_b64encode(k))] *)
Lemma init_encode (k : bytes) :
  init (Base64.urlsafe_b64encode k) =
  if Nat.eqb (length k) 32 then Ok (fernet_of k) else Raise ValueError.
Proof. unfold init. rewrite Base64Facts.urlsafe_b64decode_encode. reflexivity. Qed.

Lemma firstn_exact (A : Type) (l1 l2 : list A) (n : nat) :
  n = length l1 -> firstn n (l1 ++ l2) = l1.
Proof.
  intros ->. rewrite firstn_app, firstn_all, Nat.sub_diag.
  cbn [firstn]. apply app_nil_r.
Qed.

Lemma skipn_exact (A : Type) (l1 l2 : list A) (n : nat) :
  n = length l1 -> skipn n (l1 ++ l2) = l2.
Proof.
  intros ->. rewrite skipn_app, skipn_all, Nat.sub_diag. reflexivity.
Qed.

Section Token.
Context {L : Library} (HL : LibraryOk L).
Variables (k ts iv data : bytes).
Hypothesis Hk : length k = 32.
Hypothesis Hts : length ts = 8.
Hypothesis Hiv : length iv = 16.

Let f := fernet_of k.
Let ct := aes_cbc_encrypt (_encryption_key f) iv (pkcs7_pad data).
Let parts := fernet_parts f ts iv data.
Let tag := hmac_sha256 (_signing_key f) parts.

Lemma ct_blocks : length ct mod 16 = 0.
Proof. unfold ct. rewrite (aes_cbc_length HL). apply pkcs7_pad_blocks. Qed.

Lemma parts_length : length parts = 25 + length ct.
Proof.
  unfold parts, fernet_parts. fold f. fold ct.
  cbn [length]. rewrite !length_app. lia.
Qed.

Lemma tag_length : length tag = 32.
Proof. apply (hmac_length HL). Qed.

(** [Fernet.decrypt] opens the token [Fernet.encrypt] builds under
    the same key. *)
Lemma decrypt_token : decrypt f (fernet_token f ts iv data) = Ok data.
Proof.
  pose proof parts_length as PL. pose proof tag_length as TL.
  pose proof ct_blocks as CB.
  unfold decrypt, fernet_token. fold parts. fold tag.
  rewrite Base64Facts.urlsafe_b64decode_encode.
  assert (E : parts = x80 :: ts ++ iv ++ ct) by reflexivity.
  assert (D : parts ++ tag = x80 :: (ts ++ iv ++ ct) ++ tag)
    by (rewrite E; reflexivity).
  rewrite D at 1. cbv iota.
  rewrite byte_eqb_refl. cbn [negb].
  replace (Nat.ltb (length (parts ++ tag)) 9) with false
    by (symmetry; apply Nat.ltb_ge; rewrite length_app; lia).
  rewrite (@firstn_exact _ parts tag) by (rewrite length_app; lia).
  rewrite (@skipn_exact _ parts tag) by (rewrite length_app; lia).
  fold tag. rewrite bytes_eqb_refl. cbn [negb].
  replace (skipn 9 (parts ++ tag)) with (iv ++ ct ++ tag).
  2:{ rewrite E. change (x80 :: ts ++ iv ++ ct) with ((x80 :: ts) ++ iv ++ ct).
      rewrite <- !app_assoc.
      rewrite (@skipn_exact _ (x80 :: ts)) by (cbn [length]; lia).
      reflexivity. }
  rewrite (@firstn_exact _ iv) by lia.
  replace (skipn 25 parts) with ct.
  2:{ rewrite E. change (x80 :: ts ++ iv ++ ct) with ((x80 :: ts) ++ iv ++ ct).
      rewrite app_assoc.
      rewrite (@skipn_exact _ ((x80 :: ts) ++ iv))
        by (rewrite length_app; cbn [length]; lia).
      reflexivity. }
  rewrite Hiv, CB. cbn [Nat.eqb negb].
  unfold ct. rewrite (aes_cbc_inverse HL).
  - rewrite pkcs7_unpad_pad. reflexivity.
  - unfold f, fernet_of. cbn [_encryption_key]. rewrite length_skipn. lia.
  - exact Hiv.
  - apply pkcs7_pad_blocks.
Qed.
End Token.

(** What [Fernet.encrypt] returns and does to the world. *)
Lemma encrypt_spec {L : Library} (f : t) (data ts : bytes) (w : World) :
  to_bytes8 (clock w) = Ok ts ->
  encrypt f data w = (Ok (fernet_token f ts (draw w 16) data), advance w 16).
Proof.
  intros H. unfold encrypt, bind, time_time, os_urandom, lift, ret.
  cbv beta iota zeta. rewrite H. reflexivity.
Qed.

End FernetFacts.

(** ** The two functions on envelopes *)

Section MainFacts.
Context {L : Library} (HL : LibraryOk L).

Lemma Scrypt_init_default (salt : bytes) :
  Scrypt_init salt (PyInt 32) (PyInt (2 ^ 17)) (PyInt 8) (PyInt 1)
  = Ok {| _salt := salt; _length := PyInt 32; _n := 131072; _r := 8; _p := 1 |}.
Proof. reflexivity. Qed.

Lemma Scrypt_derive_spec (kdf : Scrypt) (key_material : bytes) (w : World) :
  Scrypt_derive kdf key_material w =
  let key := rbind (as_int (_length kdf))
               (derive_scrypt key_material (_salt kdf) (_n kdf) (_r kdf) (_p kdf)) in
  (key,
   logged w {| kdf_password := key_material; kdf_salt := _salt kdf;
               kdf_length := _length kdf; kdf_n := _n kdf; kdf_r := _r kdf;
               kdf_p := _p kdf; kdf_key := key |}).
Proof. reflexivity. Qed.

Lemma derive_default_length (key_material salt k : bytes) :
  derive_scrypt key_material salt 131072 8 1 32 = Ok k -> length k = 32.
Proof.
  intros H. apply (scrypt_length HL) in H. lia.
Qed.

Lemma derive_default_ok (key_material salt : bytes) :
  exists k, derive_scrypt key_material salt 131072 8 1 32 = Ok k /\ length k = 32.
Proof.
  destruct (scrypt_default HL (hmac_key_block key_material) salt) as [k Hk].
  exists k. split; [exact Hk | now apply derive_default_length in Hk].
Qed.

(** What [encrypt_file] returns and does to the world. *)
Lemma encrypt_file_spec (password : pystr) (file_bytes key_material k ts : bytes)
      (w : World) :
  Utf8.encode password = Ok key_material ->
  derive_scrypt key_material (draw w 32) 131072 8 1 32 = Ok k ->
  Fernet.to_bytes8 (clock w) = Ok ts ->
  encrypt_file password file_bytes w =
  (Ok (envelope_bytes (draw w 32)
         (fernet_token (fernet_of k) ts (draw (advance w 32) 16) file_bytes)),
   advance (logged (advance w 32) (default_call key_material (draw w 32))) 16).
Proof.
  intros Hpw Hk Hts. pose proof (derive_default_length _ _ Hk) as Hlen.
  unfold encrypt_file.
  unfold bind at 1. unfold os_urandom at 1. fold (draw w 32). fold (advance w 32).
  unfold bind at 1. unfold lift at 1. rewrite Scrypt_init_default.
  unfold bind at 1. unfold lift at 1. cbn [encode_utf8]. rewrite Hpw.
  unfold bind at 1. rewrite Scrypt_derive_spec.
  cbn [_length _salt _n _r _p as_int rbind]. cbv zeta.
  fold (default_call key_material (draw w 32)). rewrite Hk.
  unfold bind at 1. unfold lift at 1.
  rewrite FernetFacts.init_encode, Hlen. cbn [Nat.eqb].
  unfold bind at 1.
  rewrite (@FernetFacts.encrypt_spec L (fernet_of k) file_bytes ts) by exact Hts.
  unfold bind at 1. unfold lift at 1. rewrite utf8_decode_b64.
  unfold bind at 1. unfold lift at 1. rewrite utf8_decode_b64.
  unfold lift.
  change (PyDict _) with
    (envelope (b64_str (draw w 32))
       (b64_str (fernet_token (fernet_of k) ts
                   (draw (logged (advance w 32)
                            (default_call key_material (draw w 32))) 16)
                   file_bytes))).
  rewrite JsonFacts.dumps_envelope by apply b64_str_plain.
  rewrite JsonFacts.utf8_encode_envelope_text by apply b64_str_plain.
  reflexivity.
Qed.

Lemma getitem_salt (s c : pystr) :
  getitem (envelope s c) (str "salt") = Ok (PyStr s).
Proof. reflexivity. Qed.
Lemma getitem_length (s c : pystr) :
  getitem (envelope s c) (str "length") = Ok (PyInt 32).
Proof. reflexivity. Qed.
Lemma getitem_n (s c : pystr) :
  getitem (envelope s c) (str "n") = Ok (PyInt (2 ^ 17)).
Proof. reflexivity. Qed.
Lemma getitem_r (s c : pystr) :
  getitem (envelope s c) (str "r") = Ok (PyInt 8).
Proof. reflexivity. Qed.
Lemma getitem_p (s c : pystr) :
  getitem (envelope s c) (str "p") = Ok (PyInt 1).
Proof. reflexivity. Qed.
Lemma getitem_ciphertext (s c : pystr) :
  getitem (envelope s c) (str "ciphertext_b64") = Ok (PyStr c).
Proof. reflexivity. Qed.

Lemma loads_envelope_bytes (salt token : bytes) :
  Json.loads (envelope_bytes salt token)
  = Ok (envelope (b64_str salt) (b64_str token)).
Proof. apply JsonFacts.loads_envelope_text; apply b64_str_plain. Qed.

(** What [decrypt_file] returns and does to the world on an envelope
    with the parameters [encrypt_file] picks. *)
Lemma decrypt_file_envelope (password : pystr) (key_material salt token : bytes)
      (w : World) :
  Utf8.encode password = Ok key_material ->
  decrypt_file password (envelope_bytes salt token) w =
  (match derive_scrypt key_material salt 131072 8 1 32 with
   | Ok k => Fernet.decrypt (fernet_of k) token
   | Raise e => Raise e
   end,
   logged w (default_call key_material salt)).
Proof.
  intros Hpw. unfold decrypt_file.
  unfold bind at 1. unfold lift at 1. rewrite loads_envelope_bytes.
  unfold bind at 1. unfold lift at 1. rewrite getitem_salt.
  unfold bind at 1. unfold lift at 1. cbn [encode_utf8]. rewrite utf8_encode_b64.
  unfold bind at 1. unfold lift at 1.
  rewrite Base64Facts.urlsafe_b64decode_encode.
  unfold bind at 1. unfold lift at 1. rewrite getitem_length.
  unfold bind at 1. unfold lift at 1. rewrite getitem_n.
  unfold bind at 1. unfold lift at 1. rewrite getitem_r.
  unfold bind at 1. unfold lift at 1. rewrite getitem_p.
  unfold bind at 1. unfold lift at 1. rewrite Scrypt_init_default.
  unfold bind at 1. unfold lift at 1. rewrite Hpw.
  unfold bind at 1. rewrite Scrypt_derive_spec.
  cbn [_length _salt _n _r _p as_int rbind]. cbv zeta.
  fold (default_call key_material salt).
  destruct (derive_scrypt key_material salt 131072 8 1 32) as [k|e] eqn:Hk;
    [|reflexivity].
  pose proof (derive_default_length _ _ Hk) as Hlen.
  unfold bind at 1. unfold lift at 1. rewrite getitem_ciphertext.
  unfold bind at 1. unfold lift at 1. cbn [encode_utf8]. rewrite utf8_encode_b64.
  unfold bind at 1. unfold lift at 1.
  rewrite Base64Facts.urlsafe_b64decode_encode.
  unfold bind at 1. unfold lift at 1.
  rewrite FernetFacts.init_encode, Hlen. cbn [Nat.eqb].
  reflexivity.
Qed.

End MainFacts.

(** ** The executable instance meets the laws *)

Module ToyFacts.
Import Toy.

Lemma xor_twice (k a : byte) : xor_byte k (xor_byte k a) = a.
Proof.
  apply byte_eqb_eq. change (xor_twice_ok k a = true).
  apply forall_byte2_spec. vm_compute. reflexivity.
Qed.

Lemma stretch_length (base : bytes) (n : nat) : length (stretch base n) = n.
Proof. unfold stretch. rewrite length_map, length_seq. reflexivity. Qed.

Lemma map_xor_twice (k : byte) (data : bytes) :
  List.map (xor_byte k) (List.map (xor_byte k) data) = data.
Proof.
  induction data as [|a data IH]; [reflexivity|].
  cbn [List.map]. rewrite xor_twice, IH. reflexivity.
Qed.

Lemma library_ok : LibraryOk library.
Proof.
  constructor.
  - intros block salt n r p len k. cbn [scrypt_core library].
    destruct (Z.ltb_spec len 0) as [H|H]; intros E; [discriminate E|].
    apply Ok_inj in E. subst k. rewrite stretch_length. lia.
  - intros block salt. eexists. reflexivity.
  - intros key iv data. cbn [aes_cbc_encrypt library]. apply length_map.
  - intros key iv data _ _ _. cbn [aes_cbc_encrypt aes_cbc_decrypt library].
    apply map_xor_twice.
  - intros key msg. cbn [hmac_sha256 library]. apply stretch_length.
Qed.

End ToyFacts.

(** * The claims *)

Lemma draw_length (w : World) (n : nat) : length (draw w n) = n.
Proof. unfold draw. rewrite length_map, length_seq. reflexivity. Qed.

(** C1: for every password that can be encoded and every byte sequence,
    the empty one included, [encrypt_file] returns an envelope, and
    [decrypt_file] under the same password returns exactly the bytes that
    were encrypted, whatever the world it runs in. *)
Theorem C1_roundtrip {L : Library} (HL : LibraryOk L)
        (password : pystr) (file_bytes key_material : bytes) (w : World) :
  Utf8.encode password = Ok key_material ->
  clock_ok w ->
  exists env w',
    encrypt_file password file_bytes w = (Ok env, w')
    /\ forall w2, fst (decrypt_file password env w2) = Ok file_bytes.
Proof.
  intros Hpw Hclock.
  destruct (derive_default_ok HL key_material (draw w 32)) as (k & Hk & Hlen).
  destruct (FernetFacts.to_bytes8_ok Hclock) as [ts Hts].
  eexists. eexists. split.
  - eapply encrypt_file_spec; eassumption.
  - intros w2. erewrite decrypt_file_envelope by eassumption. cbn [fst].
    rewrite Hk. apply FernetFacts.decrypt_token.
    + exact HL.
    + exact Hlen.
    + eapply FernetFacts.to_bytes8_length; eassumption.
    + apply draw_length.
Qed.

Lemma C1_roundtrip_witness :
  LibraryOk Toy.library
  /\ Utf8.encode (str "correct horse") = Ok (lit "correct horse")
  /\ clock_ok Toy.world
  /\ exists env w',
      encrypt_file (L := Toy.library) (str "correct horse") (lit "hello world")
        Toy.world = (Ok env, w')
      /\ forall w2,
          fst (decrypt_file (L := Toy.library) (str "correct horse") env w2)
          = Ok (lit "hello world").
Proof.
  assert (A : Utf8.encode (str "correct horse") = Ok (lit "correct horse"))
    by (vm_compute; reflexivity).
  assert (B : clock_ok Toy.world) by (unfold clock_ok; cbn; lia).
  split; [exact ToyFacts.library_ok|]. split; [exact A|]. split; [exact B|].
  exact (@C1_roundtrip Toy.library ToyFacts.library_ok (str "correct horse")
           (lit "hello world") (lit "correct horse") Toy.world A B).
Defined.

(** C7: every call of [encrypt_file] draws its salt from [os.urandom], 32
    bytes read at the cursor of the entropy stream, which the call moves
    past everything it has read; it stores that salt in the envelope and
    derives the key with length 32, n = 2^17, r = 8 and p = 1. *)
Theorem C7_fresh_salt_default_parameters {L : Library} (HL : LibraryOk L)
        (password : pystr) (file_bytes key_material : bytes) (w : World) :
  Utf8.encode password = Ok key_material ->
  clock_ok w ->
  exists env w' c k,
    encrypt_file password file_bytes w = (Ok env, w')
    /\ length (draw w 32) = 32
    /\ (em <- Json.loads env ;; s <- getitem em (str "salt") ;;
        b <- encode_utf8 s ;; Base64.urlsafe_b64decode b)%result
       = Ok (draw w 32)
    /\ cursor w' = cursor w + 48
    /\ derivations w' = c :: derivations w
    /\ kdf_password c = key_material
    /\ kdf_salt c = draw w 32
    /\ kdf_length c = PyInt 32
    /\ kdf_n c = (2 ^ 17)%Z /\ kdf_r c = 8%Z /\ kdf_p c = 1%Z
    /\ kdf_key c = Ok k /\ length k = 32.
Proof.
  intros Hpw Hclock.
  destruct (derive_default_ok HL key_material (draw w 32)) as (k & Hk & Hlen).
  destruct (FernetFacts.to_bytes8_ok Hclock) as [ts Hts].
  eexists. eexists. exists (default_call key_material (draw w 32)). exists k.
  split; [eapply encrypt_file_spec; eassumption|].
  split; [apply draw_length|].
  split.
  { rewrite loads_envelope_bytes. cbn [rbind]. rewrite getitem_salt.
    cbn [rbind encode_utf8]. rewrite utf8_encode_b64. cbn [rbind].
    apply Base64Facts.urlsafe_b64decode_encode. }
  split; [cbn [cursor advance logged]; lia|].
  split; [reflexivity|].
  repeat (split; [reflexivity|]).
  split; [exact Hk | exact Hlen].
Qed.

Lemma C7_fresh_salt_default_parameters_witness :
  LibraryOk Toy.library
  /\ Utf8.encode (str "correct horse") = Ok (lit "correct horse")
  /\ clock_ok Toy.world
  /\ exists env w' c k,
      encrypt_file (L := Toy.library) (str "correct horse") (lit "hello world")
        Toy.world = (Ok env, w')
      /\ length (draw Toy.world 32) = 32
      /\ (em <- Json.loads (L := Toy.library) env ;;
          s <- getitem em (str "salt") ;;
          b <- encode_utf8 s ;; Base64.urlsafe_b64decode b)%result
         = Ok (draw Toy.world 32)
      /\ cursor w' = cursor Toy.world + 48
      /\ derivations w' = c :: derivations Toy.world
      /\ kdf_password c = lit "correct horse"
      /\ kdf_salt c = draw Toy.world 32
      /\ kdf_length c = PyInt 32
      /\ kdf_n c = (2 ^ 17)%Z /\ kdf_r c = 8%Z /\ kdf_p c = 1%Z
      /\ kdf_key c = Ok k /\ length k = 32.
Proof.
  assert (A : Utf8.encode (str "correct horse") = Ok (lit "correct horse"))
    by (vm_compute; reflexivity).
  assert (B : clock_ok Toy.world) by (unfold clock_ok; cbn; lia).
  split; [exact ToyFacts.library_ok|]. split; [exact A|]. split; [exact B|].
  exact (@C7_fresh_salt_default_parameters Toy.library ToyFacts.library_ok
           (str "correct horse") (lit "hello world") (lit "correct horse")
           Toy.world A B).
Defined.

(** C8: key derivation is a function of the password, the salt and the
    parameters alone: the world it runs in does not change the key, a key
    that is returned has exactly [length] bytes, and the derivation inside
    [decrypt_file] on an envelope of [encrypt_file] under the same password
    is the derivation inside [encrypt_file], same arguments and same 32
    bytes of key. *)
Theorem C8_key_derivation_deterministic {L : Library} (HL : LibraryOk L)
        (kdf : Scrypt) (material : bytes) (w1 w2 : World)
        (password : pystr) (file_bytes key_material : bytes) (w : World) :
  Utf8.encode password = Ok key_material ->
  clock_ok w ->
  fst (Scrypt_derive kdf material w1) = fst (Scrypt_derive kdf material w2)
  /\ (forall key, fst (Scrypt_derive kdf material w1) = Ok key ->
      as_int (_length kdf) = Ok (Z.of_nat (length key)))
  /\ exists env w' c k,
      encrypt_file password file_bytes w = (Ok env, w')
      /\ derivations w' = c :: derivations w
      /\ kdf_key c = Ok k /\ length k = 32
      /\ forall w3, derivations (snd (decrypt_file password env w3))
                    = c :: derivations w3.
Proof.
  intros Hpw Hclock. split; [reflexivity|]. split.
  { intros key. rewrite Scrypt_derive_spec. cbv zeta. cbn [fst].
    destruct (as_int (_length kdf)) as [len|e]; cbn [rbind]; intros H.
    - apply (scrypt_length HL) in H. rewrite H. reflexivity.
    - discriminate H. }
  destruct (derive_default_ok HL key_material (draw w 32)) as (k & Hk & Hlen).
  destruct (FernetFacts.to_bytes8_ok Hclock) as [ts Hts].
  eexists. eexists. exists (default_call key_material (draw w 32)). exists k.
  split; [eapply encrypt_file_spec; eassumption|].
  split; [reflexivity|]. split; [exact Hk|]. split; [exact Hlen|].
  intros w3. erewrite decrypt_file_envelope by eassumption. reflexivity.
Qed.

Lemma C8_key_derivation_deterministic_witness :
  LibraryOk Toy.library
  /\ Utf8.encode (str "correct horse") = Ok (lit "correct horse")
  /\ clock_ok Toy.world
  /\ exists env w' c k,
      encrypt_file (L := Toy.library) (str "correct horse") (lit "hello world")
        Toy.world = (Ok env, w')
      /\ derivations w' = c :: derivations Toy.world
      /\ kdf_key c = Ok k /\ length k = 32
      /\ forall w3,
          derivations
            (snd (decrypt_file (L := Toy.library) (str "correct horse") env w3))
          = c :: derivations w3.
Proof.
  assert (A : Utf8.encode (str "correct horse") = Ok (lit "correct horse"))
    by (vm_compute; reflexivity).
  assert (B : clock_ok Toy.world) by (unfold clock_ok; cbn; lia).
  split; [exact ToyFacts.library_ok|]. split; [exact A|]. split; [exact B|].
  exact (proj2 (proj2
           (@C8_key_derivation_deterministic Toy.library ToyFacts.library_ok
              {| _salt := []; _length := PyInt 32; _n := 2; _r := 1; _p := 1 |}
              [] Toy.world Toy.world
              (str "correct horse") (lit "hello world") (lit "correct horse")
              Toy.world A B))).
Defined.

(** Two tokens with different initialisation vectors are different. *)
Lemma fernet_token_iv_inj {L : Library} (f1 f2 : Fernet.t)
      (ts1 ts2 iv1 iv2 data1 data2 : bytes) :
  length ts1 = 8 -> length ts2 = 8 -> length iv1 = 16 -> length iv2 = 16 ->
  fernet_token f1 ts1 iv1 data1 = fernet_token f2 ts2 iv2 data2 -> iv1 = iv2.
Proof.
  intros T1 T2 I1 I2 H. unfold fernet_token in H.
  apply Base64Facts.urlsafe_b64encode_inj in H.
  unfold fernet_parts in H.
  apply (f_equal (fun l => firstn 16 (skipn 9 l))) in H.
  cbv beta in H.
  rewrite <- !app_comm_cons in H.
  change (x80 :: ?l) with ([x80] ++ l) in H.
  assert (S1 : forall (ts iv rest : bytes), length ts = 8 -> length iv = 16 ->
            firstn 16 (skipn 9 ([x80] ++ (ts ++ iv ++ rest))) = iv).
  { intros ts iv rest Hts Hiv. rewrite app_assoc.
    rewrite (@FernetFacts.skipn_exact _ ([x80] ++ ts))
      by (rewrite length_app; cbn [length]; lia).
    apply FernetFacts.firstn_exact. lia. }
  rewrite <- !app_assoc in H.
  rewrite !S1 in H by assumption. exact H.
Qed.

(** C9: two calls of [encrypt_file] for the same password and plaintext, in
    worlds whose entropy gives them different salts and different
    initialisation vectors, return envelopes whose [salt] fields differ and
    whose [ciphertext_b64] fields differ, and both envelopes decrypt to the
    plaintext under the password. *)
Theorem C9_fresh_randomness {L : Library} (HL : LibraryOk L)
        (password : pystr) (file_bytes key_material : bytes) (w1 w2 : World) :
  Utf8.encode password = Ok key_material ->
  clock_ok w1 -> clock_ok w2 ->
  draw w1 32 <> draw w2 32 ->
  draw (advance w1 32) 16 <> draw (advance w2 32) 16 ->
  exists env1 env2 w1' w2' salt1 salt2 ciphertext1 ciphertext2,
    encrypt_file password file_bytes w1 = (Ok env1, w1')
    /\ encrypt_file password file_bytes w2 = (Ok env2, w2')
    /\ Json.loads env1 = Ok (envelope salt1 ciphertext1)
    /\ Json.loads env2 = Ok (envelope salt2 ciphertext2)
    /\ salt1 <> salt2
    /\ ciphertext1 <> ciphertext2
    /\ (forall w, fst (decrypt_file password env1 w) = Ok file_bytes)
    /\ (forall w, fst (decrypt_file password env2 w) = Ok file_bytes).
Proof.
  intros Hpw C1 C2 Hsalt Hiv.
  destruct (derive_default_ok HL key_material (draw w1 32)) as (k1 & Hk1 & L1).
  destruct (derive_default_ok HL key_material (draw w2 32)) as (k2 & Hk2 & L2).
  destruct (FernetFacts.to_bytes8_ok C1) as [ts1 Hts1].
  destruct (FernetFacts.to_bytes8_ok C2) as [ts2 Hts2].
  pose proof (FernetFacts.to_bytes8_length _ Hts1) as T1.
  pose proof (FernetFacts.to_bytes8_length _ Hts2) as T2.
  do 4 eexists.
  exists (b64_str (draw w1 32)), (b64_str (draw w2 32)).
  exists (b64_str (fernet_token (fernet_of k1) ts1 (draw (advance w1 32) 16) file_bytes)).
  exists (b64_str (fernet_token (fernet_of k2) ts2 (draw (advance w2 32) 16) file_bytes)).
  split; [eapply encrypt_file_spec; eassumption|].
  split; [eapply encrypt_file_spec; eassumption|].
  split; [apply loads_envelope_bytes|].
  split; [apply loads_envelope_bytes|].
  split.
  { intros E. apply Hsalt. apply b64_str_inj. exact E. }
  split.
  { intros E. apply Hiv. apply b64_str_inj in E.
    apply fernet_token_iv_inj in E; try assumption; apply draw_length. }
  split.
  - intros w. erewrite decrypt_file_envelope by eassumption. cbn [fst].
    rewrite Hk1. apply FernetFacts.decrypt_token;
      [exact HL | exact L1 | exact T1 | apply draw_length].
  - intros w. erewrite decrypt_file_envelope by eassumption. cbn [fst].
    rewrite Hk2. apply FernetFacts.decrypt_token;
      [exact HL | exact L2 | exact T2 | apply draw_length].
Qed.

Lemma C9_fresh_randomness_witness :
  LibraryOk Toy.library
  /\ Utf8.encode (str "correct horse") = Ok (lit "correct horse")
  /\ clock_ok Toy.world /\ clock_ok Toy.world2
  /\ draw Toy.world 32 <> draw Toy.world2 32
  /\ draw (advance Toy.world 32) 16 <> draw (advance Toy.world2 32) 16
  /\ exists env1 env2 w1' w2' salt1 salt2 ciphertext1 ciphertext2,
      encrypt_file (L := Toy.library) (str "correct horse") (lit "hello world")
        Toy.world = (Ok env1, w1')
      /\ encrypt_file (L := Toy.library) (str "correct horse") (lit "hello world")
           Toy.world2 = (Ok env2, w2')
      /\ Json.loads (L := Toy.library) env1 = Ok (envelope salt1 ciphertext1)
      /\ Json.loads (L := Toy.library) env2 = Ok (envelope salt2 ciphertext2)
      /\ salt1 <> salt2
      /\ ciphertext1 <> ciphertext2
      /\ (forall w, fst (decrypt_file (L := Toy.library) (str "correct horse") env1 w)
                    = Ok (lit "hello world"))
      /\ (forall w, fst (decrypt_file (L := Toy.library) (str "correct horse") env2 w)
                    = Ok (lit "hello world")).
Proof.
  assert (A : Utf8.encode (str "correct horse") = Ok (lit "correct horse"))
    by (vm_compute; reflexivity).
  assert (B1 : clock_ok Toy.world) by (unfold clock_ok; cbn; lia).
  assert (B2 : clock_ok Toy.world2) by (unfold clock_ok; cbn; lia).
  assert (D1 : draw Toy.world 32 <> draw Toy.world2 32).
  { intros E. apply FernetFacts.bytes_eqb_eq in E. vm_compute in E. discriminate E. }
  assert (D2 : draw (advance Toy.world 32) 16 <> draw (advance Toy.world2 32) 16).
  { intros E. apply FernetFacts.bytes_eqb_eq in E. vm_compute in E. discriminate E. }
  split; [exact ToyFacts.library_ok|]. split; [exact A|].
  split; [exact B1|]. split; [exact B2|]. split; [exact D1|]. split; [exact D2|].
  exact (@C9_fresh_randomness Toy.library ToyFacts.library_ok
           (str "correct horse") (lit "hello world") (lit "correct horse")
           Toy.world Toy.world2 A B1 B2 D1 D2).
Defined.

(** ** Running [decrypt_file] step by step *)

Lemma bind_lift (A B : Type) (r : result A) (k : A -> M B) (w : World) :
  bind (lift r) k w = match r with
                      | Ok a => k a w
                      | Raise e => (Raise e, w)
                      end.
Proof. unfold bind, lift. destruct r; reflexivity. Qed.

Lemma Scrypt_init_fields (salt : bytes) (length n r p : pyobj) (kdf : Scrypt) :
  Scrypt_init salt length n r p = Ok kdf ->
  _salt kdf = salt /\ _length kdf = length
  /\ as_int n = Ok (_n kdf) /\ as_int r = Ok (_r kdf) /\ as_int p = Ok (_p kdf).
Proof.
  unfold Scrypt_init.
  destruct (as_int n) as [n'|e]; cbn [rbind]; [|intros H; discriminate H].
  destruct ((n' <? 2)%Z || negb (Z.land n' (n' - 1) =? 0)%Z);
    [intros H; discriminate H|].
  destruct (as_int r) as [r'|e]; cbn [rbind]; [|intros H; discriminate H].
  destruct (r' <? 1)%Z; [intros H; discriminate H|].
  destruct (as_int p) as [p'|e]; cbn [rbind]; [|intros H; discriminate H].
  destruct (p' <? 1)%Z; [intros H; discriminate H|].
  intros H. apply Ok_inj in H. subst kdf. cbn. repeat split; reflexivity.
Qed.

Lemma init_wrong_length (k : bytes) : length k <> 32 ->
  Fernet.init (Base64.urlsafe_b64encode k) = Raise ValueError.
Proof.
  intros H. rewrite FernetFacts.init_encode.
  apply Nat.eqb_neq in H. rewrite H. reflexivity.
Qed.

(** C10: whatever the password, an envelope whose [length] field is an
    integer other than 32 makes [decrypt_file] raise: scrypt returns
    exactly [length] bytes or fails, and [Fernet] refuses a key that is
    not built from 32 bytes with [ValueError]; no plaintext is returned. *)
Theorem C10_length_not_32 {L : Library} (HL : LibraryOk L)
        (password : pystr) (file_bytes : bytes) (encrypted_message : pyobj)
        (len : Z) (w : World) :
  Json.loads file_bytes = Ok encrypted_message ->
  getitem encrypted_message (str "length") = Ok (PyInt len) ->
  len <> 32%Z ->
  (exists e, fst (decrypt_file password file_bytes w) = Raise e)
  /\ (forall k, Z.of_nat (length k) = len ->
      Fernet.init (Base64.urlsafe_b64encode k) = Raise ValueError).
Proof.
  intros Hloads Hlength Hlen. split.
  2:{ intros k Hk. apply init_wrong_length. lia. }
  unfold decrypt_file.
  rewrite bind_lift, Hloads.
  rewrite bind_lift.
  destruct (getitem encrypted_message (str "salt")) as [salt_obj|e];
    [|eexists; reflexivity].
  rewrite bind_lift.
  destruct (encode_utf8 salt_obj) as [salt_b64|e]; [|eexists; reflexivity].
  rewrite bind_lift.
  destruct (Base64.urlsafe_b64decode salt_b64) as [salt|e]; [|eexists; reflexivity].
  rewrite bind_lift, Hlength.
  rewrite bind_lift.
  destruct (getitem encrypted_message (str "n")) as [n|e]; [|eexists; reflexivity].
  rewrite bind_lift.
  destruct (getitem encrypted_message (str "r")) as [r|e]; [|eexists; reflexivity].
  rewrite bind_lift.
  destruct (getitem encrypted_message (str "p")) as [p|e]; [|eexists; reflexivity].
  rewrite bind_lift.
  destruct (Scrypt_init salt (PyInt len) n r p) as [kdf|e] eqn:Hinit;
    [|eexists; reflexivity].
  apply Scrypt_init_fields in Hinit. destruct Hinit as (_ & Hl & _).
  rewrite bind_lift.
  destruct (encode_utf8 (PyStr password)) as [key_material|e];
    [|eexists; reflexivity].
  unfold bind at 1. rewrite Scrypt_derive_spec. cbv zeta.
  rewrite Hl. cbn [as_int rbind].
  destruct (derive_scrypt key_material (_salt kdf) (_n kdf) (_r kdf) (_p kdf) len)
    as [k|e] eqn:Hk; [|eexists; reflexivity].
  apply (scrypt_length HL) in Hk.
  rewrite bind_lift.
  destruct (getitem encrypted_message (str "ciphertext_b64")) as [c_obj|e];
    [|eexists; reflexivity].
  rewrite bind_lift.
  destruct (encode_utf8 c_obj) as [c_b64|e]; [|eexists; reflexivity].
  rewrite bind_lift.
  destruct (Base64.urlsafe_b64decode c_b64) as [ciphertext|e];
    [|eexists; reflexivity].
  rewrite bind_lift, init_wrong_length by lia.
  eexists. reflexivity.
Qed.

Lemma C10_length_not_32_witness :
  LibraryOk Toy.library
  /\ Json.loads (L := Toy.library)
       (file_of (with_field Example.message (str "length") (PyInt 16)))
     = Ok (with_field Example.message (str "length") (PyInt 16))
  /\ getitem (with_field Example.message (str "length") (PyInt 16)) (str "length")
     = Ok (PyInt 16)
  /\ 16%Z <> 32%Z
  /\ (exists e,
        fst (decrypt_file (L := Toy.library) Example.password
               (file_of (with_field Example.message (str "length") (PyInt 16)))
               Toy.world) = Raise e)
  /\ (forall k, Z.of_nat (length k) = 16%Z ->
      Fernet.init (Base64.urlsafe_b64encode k) = Raise ValueError).
Proof.
  assert (A : Json.loads (L := Toy.library)
                (file_of (with_field Example.message (str "length") (PyInt 16)))
              = Ok (with_field Example.message (str "length") (PyInt 16)))
    by (vm_compute; reflexivity).
  assert (B : getitem (with_field Example.message (str "length") (PyInt 16))
                (str "length") = Ok (PyInt 16))
    by (vm_compute; reflexivity).
  assert (C : 16%Z <> 32%Z) by lia.
  split; [exact ToyFacts.library_ok|]. split; [exact A|]. split; [exact B|].
  split; [exact C|].
  exact (@C10_length_not_32 Toy.library ToyFacts.library_ok Example.password
           (file_of (with_field Example.message (str "length") (PyInt 16)))
           (with_field Example.message (str "length") (PyInt 16))
           16%Z Toy.world A B C).
Defined.

(** ** Passwords that derive the same key *)

Lemma hmac_key_block_nul {L : Library} (key : bytes) : length key < 64 ->
  hmac_key_block (key ++ [x00]) = hmac_key_block key.
Proof.
  intros H. unfold hmac_key_block. rewrite length_app. cbn [length].
  replace (Nat.ltb 64 (length key + 1)) with false
    by (symmetry; apply Nat.ltb_ge; lia).
  replace (Nat.ltb 64 (length key)) with false
    by (symmetry; apply Nat.ltb_ge; lia).
  rewrite length_app. cbn [length].
  replace (64 - length key) with (S (64 - (length key + 1))) by lia.
  rewrite <- app_assoc. reflexivity.
Qed.

Lemma derive_scrypt_nul {L : Library} (key salt : bytes) (n r p len : Z) :
  length key < 64 ->
  derive_scrypt (key ++ [x00]) salt n r p len = derive_scrypt key salt n r p len.
Proof. intros H. unfold derive_scrypt. rewrite hmac_key_block_nul by exact H. reflexivity. Qed.

Lemma utf8_encode_nul (s : pystr) (b : bytes) :
  Utf8.encode s = Ok b -> Utf8.encode (s ++ [0%N]) = Ok (b ++ [x00]).
Proof.
  revert b. induction s as [|c s IH]; intros b H.
  - apply Ok_inj in H. subst b. reflexivity.
  - cbn [Datatypes.app Utf8.encode] in *.
    destruct (Utf8.encode_char c) as [bc|e]; cbn [rbind] in *; [|discriminate H].
    destruct (Utf8.encode s) as [bs|e]; cbn [rbind] in *; [|discriminate H].
    apply Ok_inj in H. subst b. rewrite (IH bs eq_refl). cbn [rbind].
    rewrite app_assoc. reflexivity.
Qed.

Lemma app_one_neq (A : Type) (l : list A) (a : A) : l ++ [a] <> l.
Proof.
  intros H. apply (f_equal (@length A)) in H.
  rewrite length_app in H. cbn [length] in H. lia.
Qed.

(** A token does not open under a key whose tag for the signed bytes
    differs. *)
Lemma decrypt_token_other_tag {L : Library} (HL : LibraryOk L)
      (f1 f2 : Fernet.t) (ts iv data : bytes) :
  length ts = 8 ->
  hmac_sha256 (Fernet._signing_key f2) (fernet_parts f1 ts iv data)
  <> hmac_sha256 (Fernet._signing_key f1) (fernet_parts f1 ts iv data) ->
  Fernet.decrypt f2 (fernet_token f1 ts iv data) = Raise InvalidToken.
Proof.
  intros Hts Htag. unfold Fernet.decrypt, fernet_token.
  rewrite Base64Facts.urlsafe_b64decode_encode.
  set (parts := fernet_parts f1 ts iv data) in *.
  set (tag := hmac_sha256 (Fernet._signing_key f1) parts) in *.
  assert (TL : length tag = 32) by apply (hmac_length HL).
  assert (PL : 9 <= length parts).
  { unfold parts, fernet_parts. cbn [length]. rewrite length_app. lia. }
  assert (D : parts ++ tag
              = x80 :: (ts ++ iv ++ aes_cbc_encrypt (Fernet._encryption_key f1) iv
                                      (Fernet.pkcs7_pad data)) ++ tag)
    by reflexivity.
  rewrite D at 1. cbv iota.
  rewrite byte_eqb_refl. cbn [negb].
  replace (Nat.ltb (length (parts ++ tag)) 9) with false
    by (symmetry; apply Nat.ltb_ge; rewrite length_app; lia).
  rewrite (@FernetFacts.firstn_exact _ parts tag) by (rewrite length_app; lia).
  rewrite (@FernetFacts.skipn_exact _ parts tag) by (rewrite length_app; lia).
  destruct (Fernet.bytes_eqb (hmac_sha256 (Fernet._signing_key f2) parts) tag) eqn:E.
  - apply FernetFacts.bytes_eqb_eq in E. contradiction.
  - reflexivity.
Qed.

(** C2: decrypting an envelope of [encrypt_file] under another password
    raises [InvalidToken] whenever the tag that the key of that password
    gives the signed bytes differs from the tag in the token, and returns
    the plaintext when the two passwords derive the same key, as a
    password shorter than 64 bytes and the same password followed by a NUL
    character do. *)
Theorem C2_other_password {L : Library} (HL : LibraryOk L)
        (P1 P2 : pystr) (file_bytes km1 km2 : bytes) (w : World) :
  Utf8.encode P1 = Ok km1 ->
  Utf8.encode P2 = Ok km2 ->
  clock_ok w ->
  exists env w' k1 k2 token signed,
    encrypt_file P1 file_bytes w = (Ok env, w')
    /\ env = envelope_bytes (draw w 32) token
    /\ Base64.urlsafe_b64decode token
       = Ok (signed ++ hmac_sha256 (firstn 16 k1) signed)
    /\ derive_scrypt km1 (draw w 32) 131072 8 1 32 = Ok k1
    /\ derive_scrypt km2 (draw w 32) 131072 8 1 32 = Ok k2
    /\ (hmac_sha256 (firstn 16 k2) signed <> hmac_sha256 (firstn 16 k1) signed ->
        forall w2, fst (decrypt_file P2 env w2) = Raise InvalidToken)
    /\ (k2 = k1 -> forall w2, fst (decrypt_file P2 env w2) = Ok file_bytes)
    /\ (length km1 < 64 -> km2 = km1 ++ [x00] -> k2 = k1).
Proof.
  intros Hp1 Hp2 Hclock.
  destruct (derive_default_ok HL km1 (draw w 32)) as (k1 & Hk1 & L1).
  destruct (derive_default_ok HL km2 (draw w 32)) as (k2 & Hk2 & L2).
  destruct (FernetFacts.to_bytes8_ok Hclock) as [ts Hts].
  pose proof (FernetFacts.to_bytes8_length _ Hts) as T.
  eexists. eexists. exists k1, k2.
  exists (fernet_token (fernet_of k1) ts (draw (advance w 32) 16) file_bytes).
  exists (fernet_parts (fernet_of k1) ts (draw (advance w 32) 16) file_bytes).
  split; [eapply encrypt_file_spec; eassumption|].
  split; [reflexivity|].
  split; [apply Base64Facts.urlsafe_b64decode_encode|].
  split; [exact Hk1|]. split; [exact Hk2|].
  split; [|split].
  - intros Htag w2. erewrite decrypt_file_envelope by eassumption. cbn [fst].
    rewrite Hk2. apply (decrypt_token_other_tag HL); assumption.
  - intros E w2. subst k2. erewrite decrypt_file_envelope by eassumption.
    cbn [fst]. rewrite Hk2. apply FernetFacts.decrypt_token;
      [exact HL | exact L1 | exact T | apply draw_length].
  - intros Hshort E. subst km2. rewrite derive_scrypt_nul in Hk2 by exact Hshort.
    rewrite Hk1 in Hk2. apply Ok_inj in Hk2. symmetry. exact Hk2.
Qed.

Lemma C2_other_password_witness :
  LibraryOk Toy.library
  /\ Utf8.encode (str "correct horse") = Ok (lit "correct horse")
  /\ Utf8.encode (str "wrong horse") = Ok (lit "wrong horse")
  /\ clock_ok Toy.world
  /\ exists env w' k1 k2 token signed,
      encrypt_file (L := Toy.library) (str "correct horse") (lit "hello world")
        Toy.world = (Ok env, w')
      /\ env = envelope_bytes (draw Toy.world 32) token
      /\ Base64.urlsafe_b64decode token
         = Ok (signed ++ hmac_sha256 (Library := Toy.library) (firstn 16 k1) signed)
      /\ derive_scrypt (L := Toy.library) (lit "correct horse")
           (draw Toy.world 32) 131072 8 1 32 = Ok k1
      /\ derive_scrypt (L := Toy.library) (lit "wrong horse")
           (draw Toy.world 32) 131072 8 1 32 = Ok k2
      /\ (hmac_sha256 (Library := Toy.library) (firstn 16 k2) signed
          <> hmac_sha256 (Library := Toy.library) (firstn 16 k1) signed ->
          forall w2, fst (decrypt_file (L := Toy.library) (str "wrong horse") env w2)
                     = Raise InvalidToken)
      /\ (k2 = k1 ->
          forall w2, fst (decrypt_file (L := Toy.library) (str "wrong horse") env w2)
                     = Ok (lit "hello world"))
      /\ (length (lit "correct horse") < 64 ->
          lit "wrong horse" = lit "correct horse" ++ [x00] -> k2 = k1).
Proof.
  assert (A : Utf8.encode (str "correct horse") = Ok (lit "correct horse"))
    by (vm_compute; reflexivity).
  assert (A' : Utf8.encode (str "wrong horse") = Ok (lit "wrong horse"))
    by (vm_compute; reflexivity).
  assert (B : clock_ok Toy.world) by (unfold clock_ok; cbn; lia).
  split; [exact ToyFacts.library_ok|]. split; [exact A|]. split; [exact A'|].
  split; [exact B|].
  exact (@C2_other_password Toy.library ToyFacts.library_ok
           (str "correct horse") (str "wrong horse") (lit "hello world")
           (lit "correct horse") (lit "wrong horse") Toy.world A A' B).
Defined.

(** A password and the same password followed by a NUL character open each
    other's envelopes, whatever the primitives are. *)
Lemma trailing_nul_opens {L : Library} (HL : LibraryOk L)
      (password : pystr) (file_bytes key_material : bytes) (w : World) :
  Utf8.encode password = Ok key_material ->
  length key_material < 64 ->
  clock_ok w ->
  exists env w',
    encrypt_file password file_bytes w = (Ok env, w')
    /\ password ++ [0%N] <> password
    /\ forall w2, fst (decrypt_file (password ++ [0%N]) env w2) = Ok file_bytes.
Proof.
  intros Hpw Hshort Hclock.
  pose proof (utf8_encode_nul _ Hpw) as Hpw'.
  destruct (derive_default_ok HL key_material (draw w 32)) as (k & Hk & Hlen).
  destruct (FernetFacts.to_bytes8_ok Hclock) as [ts Hts].
  eexists. eexists.
  split; [eapply encrypt_file_spec; eassumption|].
  split; [apply app_one_neq|].
  intros w2. erewrite decrypt_file_envelope by eassumption. cbn [fst].
  rewrite derive_scrypt_nul by exact Hshort. rewrite Hk.
  apply FernetFacts.decrypt_token.
  - exact HL.
  - exact Hlen.
  - eapply FernetFacts.to_bytes8_length; eassumption.
  - apply draw_length.
Qed.

Lemma C2_counterexample :
  exists env w',
    encrypt_file (L := Toy.library) (str "correct horse") (lit "hello world")
      Toy.world = (Ok env, w')
    /\ str "correct horse" ++ [0%N] <> str "correct horse"
    /\ forall w2,
        fst (decrypt_file (L := Toy.library) (str "correct horse" ++ [0%N]) env w2)
        = Ok (lit "hello world").
Proof.
  apply (@trailing_nul_opens Toy.library ToyFacts.library_ok (str "correct horse")
           (lit "hello world") (lit "correct horse") Toy.world).
  - vm_compute. reflexivity.
  - vm_compute. lia.
  - unfold clock_ok. cbn. lia.
Qed.

(** ** The shape of the base64 fields *)

Lemma digits_urlsafe : forallb digit_urlsafe (List.map N.of_nat (seq 0 64)) = true.
Proof. vm_compute. reflexivity. Qed.

Lemma b64_char_urlsafe (c : byte) : b64_char c ->
  urlsafe_char (N_of_byte (Base64._urlsafe_encode_translation c)) = true.
Proof.
  intros [i H|]; [|reflexivity].
  pose proof digits_urlsafe as A. rewrite forallb_forall in A.
  apply (A i). apply in_map_iff. exists (N.to_nat i). split; [apply N2Nat.id|].
  apply in_seq. lia.
Qed.

Lemma b64_str_urlsafe (s : bytes) : Forall (fun c => urlsafe_char c = true) (b64_str s).
Proof.
  unfold b64_str, Base64.urlsafe_b64encode, Base64.b64encode.
  apply Forall_map. apply Forall_map.
  eapply Forall_impl; [|apply Base64Facts.b2a_chars].
  intros c Hc. apply b64_char_urlsafe. exact Hc.
Qed.

Lemma b64_str_length (s : bytes) : length (b64_str s) = 4 * ((length s + 2) / 3).
Proof. unfold b64_str. rewrite length_map. apply Base64Facts.urlsafe_b64encode_length. Qed.

(** The text of 32 bytes ends in one pad. *)
Lemma b64_str_32_last (s : bytes) : length s = 32 -> last (b64_str s) 0%N = PAD_CHAR.
Proof.
  intros H. rewrite <- (firstn_skipn 30 s).
  assert (H2 : length (skipn 30 s) = 2) by (rewrite length_skipn; lia).
  assert (H30 : length (firstn 30 s) = 30) by (rewrite length_firstn; lia).
  destruct (skipn 30 s) as [|a [|b [|c t]]]; cbn [length] in H2; try lia.
  unfold b64_str, Base64.urlsafe_b64encode, Base64.b64encode.
  rewrite Base64Facts.b2a_app2 by (rewrite H30; reflexivity).
  cbn [Base64.b2a_base64]. rewrite !map_app. cbn [List.map].
  change (?x :: ?y :: ?z :: [?p]) with ([x; y; z] ++ [p]).
  rewrite app_assoc. rewrite last_last. reflexivity.
Qed.

Lemma decode_b64_str (s : bytes) :
  (b <- Utf8.encode (b64_str s) ;; Base64.urlsafe_b64decode b)%result = Ok s.
Proof.
  rewrite utf8_encode_b64. cbn [rbind]. apply Base64Facts.urlsafe_b64decode_encode.
Qed.

Lemma utf8_decode_envelope_bytes (salt token : bytes) :
  Utf8.decode false (envelope_bytes salt token)
  = Ok (envelope_text (b64_str salt) (b64_str token)).
Proof.
  unfold envelope_bytes.
  pose proof (JsonFacts.envelope_text_ascii (b64_str_plain salt) (b64_str_plain token))
    as A.
  rewrite utf8_decode_ascii.
  - rewrite (map_N_of_byte_of_N A). reflexivity.
  - apply Forall_map. eapply Forall_impl; [|exact A].
    intros x Hx. cbv beta in Hx. rewrite N_of_byte_of_N; lia.
Qed.

(** C6: an envelope of [encrypt_file] is the JSON text of exactly the six
    fields [salt], [length], [n], [r], [p], [ciphertext_b64], in that
    order; the two strings are URL-safe base64 with its padding: the salt
    is 44 characters that end in the pad [=] and decodes to the 32 bytes
    drawn, the ciphertext is a whole number of groups of four characters
    and decodes to the Fernet token: the very bytes that [Fernet.encrypt]
    returned for the file under the key derived from the password and
    the salt, with the time stamp of the clock and the initialisation
    vector drawn after the salt, which [Fernet.decrypt] opens to the
    file. *)
Theorem C6_envelope_format {L : Library} (HL : LibraryOk L)
        (password : pystr) (file_bytes key_material : bytes) (w : World) :
  Utf8.encode password = Ok key_material ->
  clock_ok w ->
  exists env w' salt_str ciphertext_str token k ts,
    encrypt_file password file_bytes w = (Ok env, w')
    /\ Utf8.decode false env = Ok (envelope_text salt_str ciphertext_str)
    /\ Json.loads env = Ok (envelope salt_str ciphertext_str)
    /\ Forall (fun c => urlsafe_char c = true) salt_str
    /\ Forall (fun c => urlsafe_char c = true) ciphertext_str
    /\ length salt_str = 44
    /\ last salt_str 0%N = PAD_CHAR
    /\ (b <- Utf8.encode salt_str ;; Base64.urlsafe_b64decode b)%result
       = Ok (draw w 32)
    /\ length (draw w 32) = 32
    /\ length ciphertext_str mod 4 = 0
    /\ (b <- Utf8.encode ciphertext_str ;; Base64.urlsafe_b64decode b)%result
       = Ok token
    /\ derive_scrypt key_material (draw w 32) 131072 8 1 32 = Ok k
    /\ Fernet.init (Base64.urlsafe_b64encode k) = Ok (fernet_of k)
    /\ Fernet.to_bytes8 (clock w) = Ok ts
    /\ Fernet.encrypt (fernet_of k) file_bytes
         (logged (advance w 32) (default_call key_material (draw w 32)))
       = (Ok token, w')
    /\ token = fernet_token (fernet_of k) ts (draw (advance w 32) 16) file_bytes
    /\ Fernet.decrypt (fernet_of k) token = Ok file_bytes.
Proof.
  intros Hpw Hclock.
  destruct (derive_default_ok HL key_material (draw w 32)) as (k & Hk & Hlen).
  destruct (FernetFacts.to_bytes8_ok Hclock) as [ts Hts].
  eexists. eexists. exists (b64_str (draw w 32)).
  exists (b64_str (fernet_token (fernet_of k) ts (draw (advance w 32) 16) file_bytes)).
  exists (fernet_token (fernet_of k) ts (draw (advance w 32) 16) file_bytes).
  exists k, ts.
  split; [eapply encrypt_file_spec; eassumption|].
  split; [apply utf8_decode_envelope_bytes|].
  split; [apply loads_envelope_bytes|].
  split; [apply b64_str_urlsafe|].
  split; [apply b64_str_urlsafe|].
  split; [rewrite b64_str_length, draw_length; reflexivity|].
  split; [apply b64_str_32_last, draw_length|].
  split; [apply decode_b64_str|].
  split; [apply draw_length|].
  split; [rewrite b64_str_length, Nat.mul_comm; apply Nat.Div0.mod_mul|].
  split; [apply decode_b64_str|].
  split; [exact Hk|].
  split; [rewrite FernetFacts.init_encode, Hlen; reflexivity|].
  split; [exact Hts|].
  split.
  { exact (@FernetFacts.encrypt_spec L (fernet_of k) file_bytes ts
             (logged (advance w 32) (default_call key_material (draw w 32)))
             Hts). }
  split; [reflexivity|].
  apply FernetFacts.decrypt_token.
  - exact HL.
  - exact Hlen.
  - eapply FernetFacts.to_bytes8_length; eassumption.
  - apply draw_length.
Qed.

Lemma C6_envelope_format_witness :
  LibraryOk Toy.library
  /\ Utf8.encode (str "correct horse") = Ok (lit "correct horse")
  /\ clock_ok Toy.world
  /\ exists env w' salt_str ciphertext_str token k ts,
      encrypt_file (L := Toy.library) (str "correct horse") (lit "hello world")
        Toy.world = (Ok env, w')
      /\ Utf8.decode false env = Ok (envelope_text salt_str ciphertext_str)
      /\ Json.loads (L := Toy.library) env = Ok (envelope salt_str ciphertext_str)
      /\ Forall (fun c => urlsafe_char c = true) salt_str
      /\ Forall (fun c => urlsafe_char c = true) ciphertext_str
      /\ length salt_str = 44
      /\ last salt_str 0%N = PAD_CHAR
      /\ (b <- Utf8.encode salt_str ;; Base64.urlsafe_b64decode b)%result
         = Ok (draw Toy.world 32)
      /\ length (draw Toy.world 32) = 32
      /\ length ciphertext_str mod 4 = 0
      /\ (b <- Utf8.encode ciphertext_str ;; Base64.urlsafe_b64decode b)%result
         = Ok token
      /\ derive_scrypt (L := Toy.library) (lit "correct horse")
           (draw Toy.world 32) 131072 8 1 32 = Ok k
      /\ Fernet.init (Base64.urlsafe_b64encode k) = Ok (fernet_of k)
      /\ Fernet.to_bytes8 (clock Toy.world) = Ok ts
      /\ Fernet.encrypt (L := Toy.library) (fernet_of k) (lit "hello world")
           (logged (advance Toy.world 32)
              (default_call (L := Toy.library) (lit "correct horse")
                 (draw Toy.world 32)))
         = (Ok token, w')
      /\ token = fernet_token (L := Toy.library) (fernet_of k) ts
                   (draw (advance Toy.world 32) 16) (lit "hello world")
      /\ Fernet.decrypt (L := Toy.library) (fernet_of k) token
         = Ok (lit "hello world").
Proof.
  assert (A : Utf8.encode (str "correct horse") = Ok (lit "correct horse"))
    by (vm_compute; reflexivity).
  assert (B : clock_ok Toy.world) by (unfold clock_ok; cbn; lia).
  split; [exact ToyFacts.library_ok|]. split; [exact A|]. split; [exact B|].
  exact (@C6_envelope_format Toy.library ToyFacts.library_ok
           (str "correct horse") (lit "hello world") (lit "correct horse")
           Toy.world A B).
Defined.

Lemma C6_counterexample :
  exists salt_str ciphertext_str,
    fst (encrypt_file (L := Toy.library) Example.password Example.plaintext Toy.world)
    = Ok Example.file
    /\ Json.loads (L := Toy.library) Example.file
       = Ok (envelope salt_str ciphertext_str)
    /\ last salt_str 0%N = PAD_CHAR
    /\ last ciphertext_str 0%N = PAD_CHAR.
Proof.
  eexists. eexists. split; [vm_compute; reflexivity|].
  split; [vm_compute; reflexivity|].
  split; vm_compute; reflexivity.
Qed.

(** ** The test [n & (n - 1)] of the [Scrypt] constructor *)

Lemma land_double (a b : Z) (x y : bool) :
  Z.land (2 * a + Z.b2z x) (2 * b + Z.b2z y) = (2 * Z.land a b + Z.b2z (x && y))%Z.
Proof.
  apply Z.bits_inj'. intros i Hi.
  rewrite Z.land_spec.
  destruct (Z.eq_dec i 0) as [->|Hne].
  - rewrite !Z.testbit_0_r. reflexivity.
  - replace i with (Z.succ (i - 1)) by lia.
    rewrite !Z.testbit_succ_r by lia. rewrite Z.land_spec. reflexivity.
Qed.

Lemma land_pred_pos (p : positive) :
  Z.land (Z.pos p) (Z.pos p - 1) = 0%Z -> power_of_two (Z.pos p).
Proof.
  induction p as [p IH|p IH|]; intros H.
  - exfalso.
    replace (Z.pos p~1) with (2 * Z.pos p + Z.b2z true)%Z in H by (unfold Z.b2z; lia).
    replace (2 * Z.pos p + Z.b2z true - 1)%Z
      with (2 * Z.pos p + Z.b2z false)%Z in H by (unfold Z.b2z; lia).
    rewrite land_double, Z.land_diag in H. cbn [andb Z.b2z] in H. lia.
  - replace (Z.pos p~0) with (2 * Z.pos p + Z.b2z false)%Z in H by (unfold Z.b2z; lia).
    replace (2 * Z.pos p + Z.b2z false - 1)%Z
      with (2 * (Z.pos p - 1) + Z.b2z true)%Z in H by (unfold Z.b2z; lia).
    rewrite land_double in H. cbn [andb Z.b2z] in H.
    assert (H' : Z.land (Z.pos p) (Z.pos p - 1) = 0%Z) by lia.
    destruct (IH H') as (k & Hk & E). exists (k + 1)%Z. split; [lia|].
    rewrite Z.pow_add_r by lia. change (Z.pos p~0) with (2 * Z.pos p)%Z. lia.
  - exists 0%Z. split; [lia | reflexivity].
Qed.

Lemma land_pred_power (k : Z) : (0 <= k)%Z -> Z.land (2 ^ k) (2 ^ k - 1) = 0%Z.
Proof.
  intros H. replace (2 ^ k - 1)%Z with (Z.ones k)
    by (rewrite Z.ones_equiv; lia).
  rewrite Z.land_ones by exact H. apply Z.mod_same. pose proof (Z.pow_pos_nonneg 2 k); lia.
Qed.

(** The constructor refuses exactly the integers that are below 2 or not
    a power of two. *)
Lemma n_check_spec (n : Z) :
  ((n <? 2)%Z || negb (Z.land n (n - 1) =? 0)%Z) = false
  <-> (2 <= n)%Z /\ power_of_two n.
Proof.
  split.
  - intros H. apply orb_false_iff in H. destruct H as [H1 H2].
    apply Z.ltb_ge in H1. apply negb_false_iff, Z.eqb_eq in H2.
    split; [exact H1|]. destruct n as [|p|p]; try lia.
    apply land_pred_pos. exact H2.
  - intros (H1 & k & Hk & ->). apply orb_false_iff. split.
    + apply Z.ltb_ge. exact H1.
    + apply negb_false_iff, Z.eqb_eq. apply land_pred_power. exact Hk.
Qed.

(** ** Where [decrypt_file] stops *)

(** Once the constructor has accepted the parameters, [Scrypt.derive] is
    called with them, whatever they are. *)
Lemma decrypt_file_derives {L : Library} (password : pystr)
      (file_bytes key_material salt_b64 salt : bytes)
      (encrypted_message salt_obj len n r p : pyobj) (kdf : Scrypt) (w : World) :
  Json.loads file_bytes = Ok encrypted_message ->
  getitem encrypted_message (str "salt") = Ok salt_obj ->
  encode_utf8 salt_obj = Ok salt_b64 ->
  Base64.urlsafe_b64decode salt_b64 = Ok salt ->
  getitem encrypted_message (str "length") = Ok len ->
  getitem encrypted_message (str "n") = Ok n ->
  getitem encrypted_message (str "r") = Ok r ->
  getitem encrypted_message (str "p") = Ok p ->
  Scrypt_init salt len n r p = Ok kdf ->
  Utf8.encode password = Ok key_material ->
  exists res w' c,
    decrypt_file password file_bytes w = (res, w')
    /\ derivations w' = c :: derivations w
    /\ kdf_password c = key_material /\ kdf_salt c = salt
    /\ kdf_n c = _n kdf /\ kdf_r c = _r kdf /\ kdf_p c = _p kdf.
Proof.
  intros Hloads Hsalt Henc Hdec Hlen Hn Hr Hp Hinit Hpw.
  pose proof (Scrypt_init_fields _ _ _ _ _ Hinit) as (Fs & _).
  unfold decrypt_file.
  rewrite bind_lift, Hloads. rewrite bind_lift, Hsalt.
  rewrite bind_lift, Henc. rewrite bind_lift, Hdec.
  rewrite bind_lift, Hlen. rewrite bind_lift, Hn.
  rewrite bind_lift, Hr. rewrite bind_lift, Hp.
  rewrite bind_lift, Hinit. rewrite bind_lift. cbn [encode_utf8]. rewrite Hpw.
  unfold bind at 1. rewrite Scrypt_derive_spec. cbv zeta.
  set (c := {| kdf_password := key_material; kdf_salt := _salt kdf;
               kdf_length := _length kdf; kdf_n := _n kdf; kdf_r := _r kdf;
               kdf_p := _p kdf;
               kdf_key := rbind (as_int (_length kdf))
                            (derive_scrypt key_material (_salt kdf) (_n kdf)
                               (_r kdf) (_p kdf)) |}).
  assert (Fc : derivations (logged w c) = c :: derivations w
               /\ kdf_password c = key_material /\ kdf_salt c = salt
               /\ kdf_n c = _n kdf /\ kdf_r c = _r kdf /\ kdf_p c = _p kdf).
  { subst c. cbn. rewrite Fs. repeat split; reflexivity. }
  destruct (rbind (as_int (_length kdf)) _) as [k|e];
    [|do 3 eexists; split; [reflexivity | exact Fc]].
  rewrite bind_lift.
  destruct (getitem encrypted_message (str "ciphertext_b64")) as [c_obj|e];
    [|do 3 eexists; split; [reflexivity | exact Fc]].
  rewrite bind_lift.
  destruct (encode_utf8 c_obj) as [c_b64|e];
    [|do 3 eexists; split; [reflexivity | exact Fc]].
  rewrite bind_lift.
  destruct (Base64.urlsafe_b64decode c_b64) as [ciphertext|e];
    [|do 3 eexists; split; [reflexivity | exact Fc]].
  rewrite bind_lift.
  destruct (Fernet.init (Base64.urlsafe_b64encode k)) as [f|e];
    [|do 3 eexists; split; [reflexivity | exact Fc]].
  do 3 eexists. split; [reflexivity | exact Fc].
Qed.

Lemma Scrypt_init_ints (salt : bytes) (len : pyobj) (n r p : Z) :
  (2 <= n)%Z -> power_of_two n -> (1 <= r)%Z -> (1 <= p)%Z ->
  Scrypt_init salt len (PyInt n) (PyInt r) (PyInt p)
  = Ok {| _salt := salt; _length := len; _n := n; _r := r; _p := p |}.
Proof.
  intros Hn Hpow Hr Hp. unfold Scrypt_init. cbn [as_int rbind].
  replace ((n <? 2)%Z || negb (Z.land n (n - 1) =? 0)%Z) with false
    by (symmetry; apply n_check_spec; split; assumption).
  replace (r <? 1)%Z with false by (symmetry; apply Z.ltb_ge; lia).
  replace (p <? 1)%Z with false by (symmetry; apply Z.ltb_ge; lia).
  reflexivity.
Qed.

(** C4: an envelope whose [n] is an integer below 2 or not a power of two
    makes [decrypt_file] raise before any key derivation is attempted, the
    world is left as it was, and the exception is the [ValueError] of the
    [Scrypt] constructor when the fields read before it are in order.
    There is no test of a ceiling: when [n] is a power of two from 2 on and
    [r] and [p] are at least 1, [Scrypt.derive] is called with them,
    however large they are. *)
Theorem C4_parameter_validation {L : Library}
        (password : pystr) (file_bytes : bytes) (encrypted_message : pyobj)
        (n : Z) (w : World) :
  Json.loads file_bytes = Ok encrypted_message ->
  getitem encrypted_message (str "n") = Ok (PyInt n) ->
  ((n < 2)%Z \/ ~ power_of_two n ->
   (exists e, decrypt_file password file_bytes w = (Raise e, w))
   /\ forall salt_obj salt_b64 salt len r p,
       getitem encrypted_message (str "salt") = Ok salt_obj ->
       encode_utf8 salt_obj = Ok salt_b64 ->
       Base64.urlsafe_b64decode salt_b64 = Ok salt ->
       getitem encrypted_message (str "length") = Ok len ->
       getitem encrypted_message (str "r") = Ok r ->
       getitem encrypted_message (str "p") = Ok p ->
       decrypt_file password file_bytes w = (Raise ValueError, w))
  /\ ((2 <= n)%Z -> power_of_two n ->
      forall key_material salt_obj salt_b64 salt len r p,
        Utf8.encode password = Ok key_material ->
        getitem encrypted_message (str "salt") = Ok salt_obj ->
        encode_utf8 salt_obj = Ok salt_b64 ->
        Base64.urlsafe_b64decode salt_b64 = Ok salt ->
        getitem encrypted_message (str "length") = Ok len ->
        getitem encrypted_message (str "r") = Ok (PyInt r) ->
        getitem encrypted_message (str "p") = Ok (PyInt p) ->
        (1 <= r)%Z -> (1 <= p)%Z ->
        exists res w' c,
          decrypt_file password file_bytes w = (res, w')
          /\ derivations w' = c :: derivations w
          /\ kdf_n c = n /\ kdf_r c = r /\ kdf_p c = p).
Proof.
  intros Hloads Hn. split.
  - intros Hbad.
    assert (Hcheck : ((n <? 2)%Z || negb (Z.land n (n - 1) =? 0)%Z) = true).
    { destruct ((n <? 2)%Z || negb (Z.land n (n - 1) =? 0)%Z) eqn:E;
        [reflexivity|].
      apply n_check_spec in E. destruct E as [E1 E2].
      destruct Hbad as [Hbad|Hbad]; [lia | contradiction]. }
    assert (Hinit : forall salt len r p,
              Scrypt_init salt len (PyInt n) r p = Raise ValueError).
    { intros salt len r p. unfold Scrypt_init. cbn [as_int rbind].
      rewrite Hcheck. reflexivity. }
    split.
    + unfold decrypt_file.
      rewrite bind_lift, Hloads. rewrite bind_lift.
      destruct (getitem encrypted_message (str "salt")) as [salt_obj|e];
        [|eexists; reflexivity].
      rewrite bind_lift.
      destruct (encode_utf8 salt_obj) as [salt_b64|e]; [|eexists; reflexivity].
      rewrite bind_lift.
      destruct (Base64.urlsafe_b64decode salt_b64) as [salt|e];
        [|eexists; reflexivity].
      rewrite bind_lift.
      destruct (getitem encrypted_message (str "length")) as [len|e];
        [|eexists; reflexivity].
      rewrite bind_lift, Hn. rewrite bind_lift.
      destruct (getitem encrypted_message (str "r")) as [r|e];
        [|eexists; reflexivity].
      rewrite bind_lift.
      destruct (getitem encrypted_message (str "p")) as [p|e];
        [|eexists; reflexivity].
      rewrite bind_lift, Hinit. eexists. reflexivity.
    + intros salt_obj salt_b64 salt len r p Hsalt Henc Hdec Hlen Hr Hp.
      unfold decrypt_file.
      rewrite bind_lift, Hloads. rewrite bind_lift, Hsalt.
      rewrite bind_lift, Henc. rewrite bind_lift, Hdec.
      rewrite bind_lift, Hlen. rewrite bind_lift, Hn.
      rewrite bind_lift, Hr. rewrite bind_lift, Hp.
      rewrite bind_lift, Hinit. reflexivity.
  - intros Hn2 Hpow key_material salt_obj salt_b64 salt len r p
           Hpw Hsalt Henc Hdec Hlen Hr Hp Hr1 Hp1.
    destruct (@decrypt_file_derives L password file_bytes key_material salt_b64 salt
                encrypted_message salt_obj len (PyInt n) (PyInt r) (PyInt p)
                {| _salt := salt; _length := len; _n := n; _r := r; _p := p |} w)
      as (res & w' & c & E & D & _ & _ & Fn & Fr & Fp); try assumption.
    { apply Scrypt_init_ints; assumption. }
    exists res, w', c. repeat split; assumption.
Qed.

Lemma three_not_power_of_two : ~ power_of_two 3.
Proof.
  intros (k & Hk & E).
  destruct (Z.le_gt_cases 2 k) as [H|H].
  - pose proof (Z.pow_le_mono_r 2 2 k) as P. change (2 ^ 2)%Z with 4%Z in P. lia.
  - assert (C : k = 0%Z \/ k = 1%Z) by lia.
    destruct C as [-> | ->]; cbn in E; lia.
Qed.

Lemma C4_parameter_validation_witness :
  Json.loads (L := Toy.library)
    (file_of (with_field Example.message (str "n") (PyInt 3)))
  = Ok (with_field Example.message (str "n") (PyInt 3))
  /\ getitem (with_field Example.message (str "n") (PyInt 3)) (str "n")
     = Ok (PyInt 3)
  /\ ((3 < 2)%Z \/ ~ power_of_two 3)
  /\ exists e,
      decrypt_file (L := Toy.library) Example.password
        (file_of (with_field Example.message (str "n") (PyInt 3))) Toy.world
      = (Raise e, Toy.world).
Proof.
  assert (A : Json.loads (L := Toy.library)
                (file_of (with_field Example.message (str "n") (PyInt 3)))
              = Ok (with_field Example.message (str "n") (PyInt 3)))
    by (vm_compute; reflexivity).
  assert (B : getitem (with_field Example.message (str "n") (PyInt 3)) (str "n")
              = Ok (PyInt 3))
    by (vm_compute; reflexivity).
  assert (C : (3 < 2)%Z \/ ~ power_of_two 3) by (right; exact three_not_power_of_two).
  split; [exact A|]. split; [exact B|]. split; [exact C|].
  exact (proj1 (proj1 (@C4_parameter_validation Toy.library Example.password
                         (file_of (with_field Example.message (str "n") (PyInt 3)))
                         (with_field Example.message (str "n") (PyInt 3))
                         3%Z Toy.world A B) C)).
Defined.

Lemma C4_counterexample :
  Json.loads (L := Toy.library) Oversized.file = Ok Oversized.message
  /\ getitem Oversized.message (str "n") = Ok (PyInt (2 ^ 62))
  /\ getitem Oversized.message (str "r") = Ok (PyInt (2 ^ 31))
  /\ getitem Oversized.message (str "p") = Ok (PyInt (2 ^ 31))
  /\ exists res w' c,
      decrypt_file (L := Toy.library) Example.password Oversized.file Toy.world
      = (res, w')
      /\ derivations w' = c :: derivations Toy.world
      /\ kdf_n c = (2 ^ 62)%Z /\ kdf_r c = (2 ^ 31)%Z /\ kdf_p c = (2 ^ 31)%Z.
Proof.
  split; [vm_compute; reflexivity|].
  split; [vm_compute; reflexivity|].
  split; [vm_compute; reflexivity|].
  split; [vm_compute; reflexivity|].
  edestruct (@decrypt_file_derives Toy.library Example.password Oversized.file)
    as (res & w' & c & E & D & _ & _ & Fn & Fr & Fp).
  1-10: vm_compute; reflexivity.
  exists res, w', c.
  split; [exact E|]. split; [exact D|].
  split; [exact Fn|]. split; [exact Fr | exact Fp].
Qed.

(** ** Dictionaries *)

Lemma pystr_eqb_eq (a b : pystr) : pystr_eqb a b = true <-> a = b.
Proof.
  unfold pystr_eqb. destruct (list_eq_dec N.eq_dec a b) as [E|E]; split;
    intros H; try assumption; try reflexivity; try discriminate H.
  contradiction.
Qed.

Lemma pystr_eqb_refl (a : pystr) : pystr_eqb a a = true.
Proof. apply pystr_eqb_eq. reflexivity. Qed.

Lemma dict_get_remove_same (d : list (pystr * pyobj)) (k : pystr) :
  Json.dict_get (dict_remove d k) k = None.
Proof.
  induction d as [|[k' v] d IH]; [reflexivity|].
  cbn [dict_remove]. destruct (pystr_eqb k' k) eqn:E; [exact IH|].
  cbn [Json.dict_get]. rewrite E. exact IH.
Qed.

Lemma dict_get_remove_other (d : list (pystr * pyobj)) (k q : pystr) :
  pystr_eqb k q = false ->
  Json.dict_get (dict_remove d k) q = Json.dict_get d q.
Proof.
  intros H. induction d as [|[k' v] d IH]; [reflexivity|].
  cbn [dict_remove Json.dict_get].
  destruct (pystr_eqb k' k) eqn:E.
  - apply pystr_eqb_eq in E. subst k'. rewrite H. exact IH.
  - cbn [Json.dict_get]. rewrite IH. reflexivity.
Qed.

Lemma dict_get_set_same (d : list (pystr * pyobj)) (k : pystr) (v : pyobj) :
  Json.dict_get (Json.dict_set d k v) k = Some v.
Proof.
  induction d as [|[k' v'] d IH].
  - cbn [Json.dict_set Json.dict_get]. rewrite pystr_eqb_refl. reflexivity.
  - cbn [Json.dict_set]. destruct (pystr_eqb k' k) eqn:E.
    + cbn [Json.dict_get]. rewrite E. reflexivity.
    + cbn [Json.dict_get]. rewrite E. exact IH.
Qed.

Lemma dict_get_set_other (d : list (pystr * pyobj)) (k q : pystr) (v : pyobj) :
  pystr_eqb k q = false ->
  Json.dict_get (Json.dict_set d k v) q = Json.dict_get d q.
Proof.
  intros H. induction d as [|[k' v'] d IH].
  - cbn [Json.dict_set Json.dict_get]. rewrite H. reflexivity.
  - cbn [Json.dict_set]. destruct (pystr_eqb k' k) eqn:E.
    + apply pystr_eqb_eq in E. subst k'. cbn [Json.dict_get]. rewrite H. reflexivity.
    + cbn [Json.dict_get]. rewrite IH. reflexivity.
Qed.

Lemma getitem_remove_same (d : list (pystr * pyobj)) (k : pystr) :
  getitem (PyDict (dict_remove d k)) k = Raise (KeyError k).
Proof. cbn [getitem]. rewrite dict_get_remove_same. reflexivity. Qed.

Lemma getitem_remove_other (d : list (pystr * pyobj)) (k q : pystr) :
  pystr_eqb k q = false ->
  getitem (PyDict (dict_remove d k)) q = getitem (PyDict d) q.
Proof. intros H. cbn [getitem]. rewrite dict_get_remove_other by exact H. reflexivity. Qed.

Lemma getitem_set_same (d : list (pystr * pyobj)) (k : pystr) (v : pyobj) :
  getitem (PyDict (Json.dict_set d k v)) k = Ok v.
Proof. cbn [getitem]. rewrite dict_get_set_same. reflexivity. Qed.

Lemma getitem_set_other (d : list (pystr * pyobj)) (k q : pystr) (v : pyobj) :
  pystr_eqb k q = false ->
  getitem (PyDict (Json.dict_set d k v)) q = getitem (PyDict d) q.
Proof. intros H. cbn [getitem]. rewrite dict_get_set_other by exact H. reflexivity. Qed.


(** ** A run of [decrypt_file], forwards and backwards *)

Lemma decrypt_file_run {L : Library} (password : pystr) (file_bytes : bytes)
      (em : pyobj) (c : KdfCall) (f : Fernet.t) (ciphertext : bytes) (w : World) :
  Json.loads file_bytes = Ok em ->
  reaches_token password em c f ciphertext ->
  decrypt_file password file_bytes w = (Fernet.decrypt f ciphertext, logged w c).
Proof.
  intros Hloads [so sb salt len n r p kdf km k co cb
                   H1 H2 H3 H4 H5 H6 H7 H8 H9 H10 Hc H11 H12 H13 H14].
  unfold decrypt_file.
  rewrite bind_lift, Hloads. rewrite bind_lift, H1. rewrite bind_lift, H2.
  rewrite bind_lift, H3. rewrite bind_lift, H4. rewrite bind_lift, H5.
  rewrite bind_lift, H6. rewrite bind_lift, H7. rewrite bind_lift, H8.
  rewrite bind_lift. cbn [encode_utf8]. rewrite H9.
  unfold bind at 1. rewrite Scrypt_derive_spec. cbv zeta. rewrite H10.
  rewrite <- Hc.
  rewrite bind_lift, H11. rewrite bind_lift, H12. rewrite bind_lift, H13.
  rewrite bind_lift, H14. reflexivity.
Qed.

Lemma pair_fst_Raise (A : Type) (e : exn) (w w1 : World) (m : A) :
  (Raise e, w) = (Ok m, w1) -> False.
Proof. intros H. apply (f_equal fst) in H. cbn [fst] in H. discriminate H. Qed.

Lemma decrypt_file_ok_inv {L : Library} (password : pystr) (file_bytes m : bytes)
      (em : pyobj) (w w1 : World) :
  Json.loads file_bytes = Ok em ->
  decrypt_file password file_bytes w = (Ok m, w1) ->
  exists c f ciphertext,
    reaches_token password em c f ciphertext
    /\ Fernet.decrypt f ciphertext = Ok m.
Proof.
  intros Hloads H. unfold decrypt_file in H.
  rewrite bind_lift, Hloads in H. rewrite bind_lift in H.
  destruct (getitem em (str "salt")) as [so|e] eqn:H1;
    [|exfalso; exact (pair_fst_Raise H)].
  rewrite bind_lift in H.
  destruct (encode_utf8 so) as [sb|e] eqn:H2; [|exfalso; exact (pair_fst_Raise H)].
  rewrite bind_lift in H.
  destruct (Base64.urlsafe_b64decode sb) as [salt|e] eqn:H3;
    [|exfalso; exact (pair_fst_Raise H)].
  rewrite bind_lift in H.
  destruct (getitem em (str "length")) as [len|e] eqn:H4;
    [|exfalso; exact (pair_fst_Raise H)].
  rewrite bind_lift in H.
  destruct (getitem em (str "n")) as [n|e] eqn:H5;
    [|exfalso; exact (pair_fst_Raise H)].
  rewrite bind_lift in H.
  destruct (getitem em (str "r")) as [r|e] eqn:H6;
    [|exfalso; exact (pair_fst_Raise H)].
  rewrite bind_lift in H.
  destruct (getitem em (str "p")) as [p|e] eqn:H7;
    [|exfalso; exact (pair_fst_Raise H)].
  rewrite bind_lift in H.
  destruct (Scrypt_init salt len n r p) as [kdf|e] eqn:H8;
    [|exfalso; exact (pair_fst_Raise H)].
  rewrite bind_lift in H. cbn [encode_utf8] in H.
  destruct (Utf8.encode password) as [km|e] eqn:H9;
    [|exfalso; exact (pair_fst_Raise H)].
  unfold bind at 1 in H. rewrite Scrypt_derive_spec in H. cbv zeta in H.
  destruct (rbind (as_int (_length kdf))
              (derive_scrypt km (_salt kdf) (_n kdf) (_r kdf) (_p kdf)))
    as [k|e] eqn:H10; [|exfalso; exact (pair_fst_Raise H)].
  rewrite bind_lift in H.
  destruct (getitem em (str "ciphertext_b64")) as [co|e] eqn:H11;
    [|exfalso; exact (pair_fst_Raise H)].
  rewrite bind_lift in H.
  destruct (encode_utf8 co) as [cb|e] eqn:H12; [|exfalso; exact (pair_fst_Raise H)].
  rewrite bind_lift in H.
  destruct (Base64.urlsafe_b64decode cb) as [ct|e] eqn:H13;
    [|exfalso; exact (pair_fst_Raise H)].
  rewrite bind_lift in H.
  destruct (Fernet.init (Base64.urlsafe_b64encode k)) as [f|e] eqn:H14;
    [|exfalso; exact (pair_fst_Raise H)].
  unfold lift in H. apply (f_equal fst) in H. cbn [fst] in H.
  eexists. exists f, ct. split; [|exact H].
  eapply reaches_token_intro; try eassumption. reflexivity.
Qed.

(** ** Text that is not a whole number of quads *)

Module Base64Errors.
Import Base64.

(** Alphabet characters that leave the decoder in the middle of a quad
    make it raise, whatever was decoded before. *)
Lemma a2b_digits_raise (rest : bytes) (D : bytes) :
  Forall b64_data D ->
  forall quad_pos leftchar,
    (quad_pos < 4)%N ->
    (forall leftchar',
        a2b_loop rest ((quad_pos + N.of_nat (length D)) mod 4) leftchar' 0
        = Raise BinasciiError) ->
    a2b_loop (D ++ rest) quad_pos leftchar 0 = Raise BinasciiError.
Proof.
  induction 1 as [|c D Hc _ IH]; intros qp lc Hqp Hrest.
  - cbn [length N.of_nat Datatypes.app] in *.
    rewrite N.add_0_r, N.mod_small in Hrest by exact Hqp. apply Hrest.
  - destruct Hc as [i Hi]. cbn [Datatypes.app].
    rewrite Base64Facts.a2b_loop_digit by exact Hi.
    assert (C : (qp = 0 \/ qp = 1 \/ qp = 2 \/ qp = 3)%N) by lia.
    destruct C as [-> | [-> | [-> | ->]]]; cbn [N.eqb Pos.eqb].
    + apply IH; [lia|]. intros lc'.
      replace (1 + N.of_nat (length D))%N
        with (0 + N.of_nat (length (table_b2a i :: D)))%N
        by (cbn [length]; lia).
      apply Hrest.
    + rewrite IH; [reflexivity | lia |]. intros lc'.
      replace (2 + N.of_nat (length D))%N
        with (1 + N.of_nat (length (table_b2a i :: D)))%N
        by (cbn [length]; lia).
      apply Hrest.
    + rewrite IH; [reflexivity | lia |]. intros lc'.
      replace (3 + N.of_nat (length D))%N
        with (2 + N.of_nat (length (table_b2a i :: D)))%N
        by (cbn [length]; lia).
      apply Hrest.
    + rewrite IH; [reflexivity | lia |]. intros lc'.
      replace ((0 + N.of_nat (length D)) mod 4)%N
        with ((3 + N.of_nat (length (table_b2a i :: D))) mod 4)%N.
      * apply Hrest.
      * replace (3 + N.of_nat (length (table_b2a i :: D)))%N
          with (0 + N.of_nat (length D) + 1 * 4)%N by (cbn [length]; lia).
        apply N.Div0.mod_add.
Qed.

(** Whole groups of three bytes are encoded without a pad. *)
Lemma b2a_digits (s : bytes) : length s mod 3 = 0 -> Forall b64_data (b2a_base64 s).
Proof.
  induction s as [|a|a b|a b c l IH] using list_ind3; intros H.
  - constructor.
  - discriminate H.
  - discriminate H.
  - cbn [length] in H.
    replace (S (S (S (length l)))) with (length l + 1 * 3) in H by lia.
    rewrite Nat.Div0.mod_add in H.
    rewrite Base64Facts.b2a_cons3.
    repeat (apply Forall_cons; [constructor|]).
    + apply Base64Facts.idx1_lt.
    + apply Base64Facts.idx2_lt.
    + apply Base64Facts.idx3_lt.
    + apply Base64Facts.idx4_lt.
    + apply IH. exact H.
Qed.

(** The encoding of 32 bytes: 43 alphabet characters and one pad. *)
Lemma b2a_32 (s : bytes) : length s = 32 ->
  exists D, b2a_base64 s = D ++ [PAD] /\ Forall b64_data D /\ length D = 43.
Proof.
  intros H. rewrite <- (firstn_skipn 30 s).
  assert (H2 : length (skipn 30 s) = 2) by (rewrite length_skipn; lia).
  assert (H30 : length (firstn 30 s) = 30) by (rewrite length_firstn; lia).
  destruct (skipn 30 s) as [|a [|b [|c t]]]; cbn [length] in H2; try lia.
  rewrite Base64Facts.b2a_app2 by (rewrite H30; reflexivity).
  cbn [b2a_base64].
  exists (b2a_base64 (firstn 30 s)
          ++ [table_b2a (N_of_byte a / 4);
              table_b2a ((N_of_byte a mod 4) * 16 + N_of_byte b / 16);
              table_b2a ((N_of_byte b mod 16) * 4)]).
  split; [rewrite <- app_assoc; reflexivity|]. split.
  - apply Forall_app. split; [apply b2a_digits; rewrite H30; reflexivity|].
    repeat (apply Forall_cons; [constructor|]); [| | |constructor].
    + apply Base64Facts.idx1_lt.
    + apply Base64Facts.idx2_lt.
    + apply Base64Facts.tail2_lt.
  - rewrite length_app, Base64Facts.b2a_length, H30. reflexivity.
Qed.

Lemma Forall_firstn_all (A : Type) (P : A -> Prop) (l : list A) :
  Forall P l -> forall n, Forall P (firstn n l).
Proof.
  induction 1 as [|a l Ha _ IH]; intros [|n]; cbn [firstn]; constructor;
    [exact Ha | apply IH].
Qed.

Lemma Forall_skipn_all (A : Type) (P : A -> Prop) (l : list A) :
  Forall P l -> forall n, Forall P (skipn n l).
Proof.
  induction 1 as [|a l Ha Hl IH]; intros [|n]; cbn [skipn].
  - constructor.
  - constructor.
  - constructor; assumption.
  - apply IH.
Qed.

Lemma Forall_remove_nth (A : Type) (P : A -> Prop) (i : nat) (l : list A) :
  Forall P l -> Forall P (remove_nth i l).
Proof.
  intros H. unfold remove_nth. apply Forall_app. split.
  - apply Forall_firstn_all. exact H.
  - apply Forall_skipn_all. exact H.
Qed.

Lemma remove_nth_map (A B : Type) (f : A -> B) (i : nat) (l : list A) :
  remove_nth i (List.map f l) = List.map f (remove_nth i l).
Proof. unfold remove_nth. rewrite map_app, firstn_map, skipn_map. reflexivity. Qed.

Lemma remove_nth_length (A : Type) (i : nat) (l : list A) : i < length l ->
  S (length (remove_nth i l)) = length l.
Proof.
  intros H. unfold remove_nth. rewrite length_app, length_firstn, length_skipn. lia.
Qed.

Lemma remove_nth_app_l (A : Type) (i : nat) (l1 l2 : list A) : i < length l1 ->
  remove_nth i (l1 ++ l2) = remove_nth i l1 ++ l2.
Proof.
  intros H. unfold remove_nth.
  rewrite firstn_app, skipn_app.
  replace (i - length l1) with 0 by lia.
  replace (S i - length l1) with 0 by lia.
  cbn [firstn skipn]. rewrite app_nil_r, app_assoc. reflexivity.
Qed.

Lemma remove_nth_last (A : Type) (l : list A) (a : A) :
  remove_nth (length l) (l ++ [a]) = l.
Proof.
  unfold remove_nth. rewrite firstn_app, firstn_all, Nat.sub_diag.
  cbn [firstn]. rewrite app_nil_r.
  rewrite skipn_all2 by (rewrite length_app; cbn [length]; lia).
  apply app_nil_r.
Qed.

(** The encoding of 32 bytes with any one character taken out does not
    decode. *)
Lemma decode_salt_minus_one (s : bytes) (i : nat) :
  length s = 32 -> i < 44 ->
  urlsafe_b64decode (remove_nth i (urlsafe_b64encode s)) = Raise BinasciiError.
Proof.
  intros Hs Hi. unfold urlsafe_b64decode, urlsafe_b64encode, b64decode, b64encode.
  rewrite remove_nth_map, <- !remove_nth_map.
  rewrite Base64Facts.map_translate by apply Base64Facts.b2a_chars.
  destruct (@b2a_32 s Hs) as (D & E & HD & HL). rewrite E.
  unfold a2b_base64.
  destruct (Nat.eq_dec i 43) as [->|Hne].
  - rewrite <- HL, remove_nth_last.
    rewrite <- (app_nil_r D).
    apply a2b_digits_raise; [exact HD | lia |].
    intros lc'. rewrite HL. reflexivity.
  - rewrite remove_nth_app_l by lia.
    apply a2b_digits_raise; [apply Forall_remove_nth; exact HD | lia |].
    intros lc'.
    assert (L42 : length (remove_nth i D) = 42).
    { pose proof (@remove_nth_length _ i D). lia. }
    rewrite L42. reflexivity.
Qed.

End Base64Errors.

(** ** Envelopes that lack a field or carry a damaged salt *)

Lemma utf8_encode_remove_nth (s : bytes) (i : nat) :
  Utf8.encode (remove_nth i (b64_str s))
  = Ok (remove_nth i (Base64.urlsafe_b64encode s)).
Proof.
  rewrite utf8_encode_ascii.
  - unfold b64_str. rewrite Base64Errors.remove_nth_map, map_byte_of_N_of_byte.
    reflexivity.
  - apply Base64Errors.Forall_remove_nth. apply all_plain_ascii, b64_str_plain.
Qed.

Ltac kept H :=
  rewrite bind_lift; rewrite getitem_remove_other by reflexivity; rewrite H.
Ltac gone := rewrite bind_lift; rewrite getitem_remove_same; reflexivity.
Ltac pure H := rewrite bind_lift; rewrite H.
Ltac derive H9 H10 :=
  rewrite bind_lift; cbn [encode_utf8]; rewrite H9;
  unfold bind at 1; rewrite Scrypt_derive_spec; cbv zeta; rewrite H10.

(** C5: taking any one of the six fields out of an envelope that decrypts
    makes [decrypt_file] raise [KeyError] for that field, and taking any
    one character out of its 44-character salt makes it raise
    [binascii.Error]; both differ from [InvalidToken] and from the
    [ValueError] of the [Scrypt] constructor. *)
Theorem C5_malformed_envelope {L : Library}
        (password : pystr) (file_bytes m : bytes) (d : list (pystr * pyobj))
        (w w1 : World) :
  Json.loads file_bytes = Ok (PyDict d) ->
  decrypt_file password file_bytes w = (Ok m, w1) ->
  (forall k file_bytes' w',
      In k fields ->
      Json.loads file_bytes' = Ok (PyDict (dict_remove d k)) ->
      fst (decrypt_file password file_bytes' w') = Raise (KeyError k))
  /\ (forall salt i file_bytes' w',
         getitem (PyDict d) (str "salt") = Ok (PyStr (b64_str salt)) ->
         length salt = 32 -> i < 44 ->
         Json.loads file_bytes'
         = Ok (PyDict (Json.dict_set d (str "salt")
                         (PyStr (remove_nth i (b64_str salt))))) ->
         decrypt_file password file_bytes' w' = (Raise BinasciiError, w')).
Proof.
  intros Hloads Hok.
  destruct (@decrypt_file_ok_inv L password file_bytes m (PyDict d) w w1 Hloads Hok)
    as (c & f & ct & Hrun & _).
  destruct Hrun as [so sb salt len n r p kdf km key co cb
                      H1 H2 H3 H4 H5 H6 H7 H8 H9 H10 Hc H11 H12 H13 H14].
  split.
  - intros k fb' w' Hk Hloads'. unfold decrypt_file.
    rewrite bind_lift, Hloads'.
    cbn [fields In] in Hk.
    destruct Hk as [<-|[<-|[<-|[<-|[<-|[<-|[]]]]]]].
    + gone.
    + kept H1. pure H2. pure H3. gone.
    + kept H1. pure H2. pure H3. kept H4. gone.
    + kept H1. pure H2. pure H3. kept H4. kept H5. gone.
    + kept H1. pure H2. pure H3. kept H4. kept H5. kept H6. gone.
    + kept H1. pure H2. pure H3. kept H4. kept H5. kept H6. kept H7.
      pure H8. derive H9 H10. gone.
  - intros salt' i fb' w' _ Hlen Hi Hloads'. unfold decrypt_file.
    rewrite bind_lift, Hloads'.
    rewrite bind_lift, getitem_set_same.
    rewrite bind_lift. cbn [encode_utf8]. rewrite utf8_encode_remove_nth.
    rewrite bind_lift, Base64Errors.decode_salt_minus_one by assumption.
    reflexivity.
Qed.

Lemma C5_malformed_envelope_witness :
  Json.loads (L := Toy.library) Example.file = Ok (PyDict Example.items)
  /\ decrypt_file (L := Toy.library) Example.password Example.file Toy.world
     = (Ok Example.plaintext,
        snd (decrypt_file (L := Toy.library) Example.password Example.file Toy.world))
  /\ In (str "n") fields
  /\ Json.loads (L := Toy.library)
       (file_of (without_field Example.message (str "n")))
     = Ok (PyDict (dict_remove Example.items (str "n")))
  /\ fst (decrypt_file (L := Toy.library) Example.password
            (file_of (without_field Example.message (str "n"))) Toy.world)
     = Raise (KeyError (str "n")).
Proof.
  assert (A : Json.loads (L := Toy.library) Example.file = Ok (PyDict Example.items))
    by (vm_compute; reflexivity).
  assert (B : decrypt_file (L := Toy.library) Example.password Example.file Toy.world
              = (Ok Example.plaintext,
                 snd (decrypt_file (L := Toy.library) Example.password Example.file
                        Toy.world)))
    by (vm_compute; reflexivity).
  assert (C : In (str "n") fields) by (right; right; left; reflexivity).
  assert (D : Json.loads (L := Toy.library)
                (file_of (without_field Example.message (str "n")))
              = Ok (PyDict (dict_remove Example.items (str "n"))))
    by (vm_compute; reflexivity).
  split; [exact A|]. split; [exact B|]. split; [exact C|]. split; [exact D|].
  exact (proj1 (@C5_malformed_envelope Toy.library Example.password Example.file
                  Example.plaintext Example.items Toy.world _ A B)
           (str "n") _ Toy.world C D).
Defined.

(** The decoder skips a character that is neither in the alphabet nor the
    pad. *)
Lemma urlsafe_b64decode_junk (c : byte) (l : bytes) :
  Byte.eqb (Base64._urlsafe_decode_translation c) Base64.PAD = false ->
  Base64.table_a2b (Base64._urlsafe_decode_translation c) = None ->
  Base64.urlsafe_b64decode (c :: l) = Base64.urlsafe_b64decode l.
Proof.
  intros H1 H2.
  unfold Base64.urlsafe_b64decode, Base64.b64decode, Base64.a2b_base64.
  cbn [List.map Base64.a2b_loop]. rewrite H1, H2. reflexivity.
Qed.

(** A character outside the alphabet at the head of the salt is skipped by
    the decoder: the envelope still opens, whatever the primitives are. *)
Lemma junk_in_salt_opens {L : Library} (HL : LibraryOk L)
      (password : pystr) (file_bytes key_material : bytes) (w : World) :
  Utf8.encode password = Ok key_material ->
  clock_ok w ->
  exists env w' salt_str ciphertext_str,
    encrypt_file password file_bytes w = (Ok env, w')
    /\ Json.loads env = Ok (envelope salt_str ciphertext_str)
    /\ urlsafe_char (Json.ch "!") = false
    /\ forall file_bytes' w2,
        Json.loads file_bytes'
        = Ok (envelope (Json.ch "!" :: salt_str) ciphertext_str) ->
        fst (decrypt_file password file_bytes' w2) = Ok file_bytes.
Proof.
  intros Hpw Hclock.
  destruct (derive_default_ok HL key_material (draw w 32)) as (k & Hk & Hlen).
  destruct (FernetFacts.to_bytes8_ok Hclock) as [ts Hts].
  eexists. eexists. exists (b64_str (draw w 32)).
  exists (b64_str (fernet_token (fernet_of k) ts (draw (advance w 32) 16) file_bytes)).
  split; [eapply encrypt_file_spec; eassumption|].
  split; [apply loads_envelope_bytes|].
  split; [reflexivity|].
  intros fb' w2 Hloads'.
  erewrite decrypt_file_run; [|exact Hloads'|].
  2:{ eapply reaches_token_intro with (salt := draw w 32) (key := k).
      - apply getitem_salt.
      - cbn [encode_utf8]. apply utf8_encode_ascii.
        apply Forall_cons; [reflexivity|]. apply all_plain_ascii, b64_str_plain.
      - cbn [List.map]. unfold b64_str. rewrite map_byte_of_N_of_byte.
        rewrite urlsafe_b64decode_junk by (vm_compute; reflexivity).
        apply Base64Facts.urlsafe_b64decode_encode.
      - apply getitem_length.
      - apply getitem_n.
      - apply getitem_r.
      - apply getitem_p.
      - apply Scrypt_init_default.
      - exact Hpw.
      - cbn [_length _salt _n _r _p as_int rbind]. exact Hk.
      - reflexivity.
      - apply getitem_ciphertext.
      - cbn [encode_utf8]. apply utf8_encode_b64.
      - apply Base64Facts.urlsafe_b64decode_encode.
      - rewrite FernetFacts.init_encode, Hlen. reflexivity. }
  cbn [fst]. apply FernetFacts.decrypt_token.
  - exact HL.
  - exact Hlen.
  - eapply FernetFacts.to_bytes8_length; eassumption.
  - apply draw_length.
Qed.

Lemma C5_counterexample :
  Json.loads (L := Toy.library) Example.file
  = Ok (envelope Example.salt_str
          (match getitem Example.message (str "ciphertext_b64") with
           | Ok (PyStr c) => c
           | _ => []
           end))
  /\ urlsafe_char (Json.ch "!") = false
  /\ fst (decrypt_file (L := Toy.library) Example.password
            (file_of (with_field Example.message (str "salt")
                        (PyStr (Json.ch "!" :: Example.salt_str))))
            Toy.world)
     = Ok Example.plaintext.
Proof.
  split; [vm_compute; reflexivity|].
  split; [reflexivity|].
  vm_compute. reflexivity.
Qed.

(** ** Tokens that were tampered with *)

Lemma a2b_loop_raise (s : bytes) : forall quad_pos leftchar pads e,
  Base64.a2b_loop s quad_pos leftchar pads = Raise e -> e = BinasciiError.
Proof.
  induction s as [|c s IH]; intros qp lc pads e H; cbn [Base64.a2b_loop] in H.
  - destruct (qp =? 0)%N; [discriminate H|].
    apply (f_equal (fun r => match r with Raise x => x | Ok _ => e end)) in H.
    symmetry. exact H.
  - destruct (Byte.eqb c Base64.PAD).
    + destruct (2 <=? qp)%N.
      * destruct (4 <=? qp + (pads + 1))%N; [discriminate H|]. eapply IH; exact H.
      * eapply IH; exact H.
    + destruct (Base64.table_a2b c) as [v|]; [|eapply IH; exact H].
      destruct (qp =? 0)%N; [eapply IH; exact H|].
      destruct (qp =? 1)%N.
      { destruct (Base64.a2b_loop s 2 (N.land v 15) 0) as [l|e'] eqn:E;
          cbn [rcons] in H; [discriminate H|].
        apply IH in E. subst e'.
        apply (f_equal (fun r => match r with Raise x => x | Ok _ => e end)) in H.
        symmetry. exact H. }
      destruct (qp =? 2)%N.
      { destruct (Base64.a2b_loop s 3 (N.land v 3) 0) as [l|e'] eqn:E;
          cbn [rcons] in H; [discriminate H|].
        apply IH in E. subst e'.
        apply (f_equal (fun r => match r with Raise x => x | Ok _ => e end)) in H.
        symmetry. exact H. }
      destruct (Base64.a2b_loop s 0 0 0) as [l|e'] eqn:E;
        cbn [rcons] in H; [discriminate H|].
      apply IH in E. subst e'.
      apply (f_equal (fun r => match r with Raise x => x | Ok _ => e end)) in H.
      symmetry. exact H.
Qed.

(** The only exception of [urlsafe_b64decode] is [binascii.Error]. *)
Lemma urlsafe_b64decode_raise (s : bytes) (e : exn) :
  Base64.urlsafe_b64decode s = Raise e -> e = BinasciiError.
Proof. apply a2b_loop_raise. Qed.

(** [Fernet.decrypt] returns bytes only for a token whose tag verifies. *)
Lemma decrypt_ok_verifies {L : Library} (f : Fernet.t) (token m : bytes) :
  Fernet.decrypt f token = Ok m -> tag_verifies f token.
Proof.
  unfold Fernet.decrypt, tag_verifies.
  destruct (Base64.urlsafe_b64decode token) as [data|e]; [|intros H; discriminate H].
  destruct data as [|version rest] eqn:Ed; [intros H; discriminate H|].
  rewrite <- Ed.
  destruct (negb (Byte.eqb version x80)); [intros H; discriminate H|].
  destruct (Nat.ltb (length data) 9); [intros H; discriminate H|].
  destruct (Fernet.bytes_eqb
              (hmac_sha256 (Fernet._signing_key f) (firstn (length data - 32) data))
              (skipn (length data - 32) data)) eqn:E;
    cbn [negb]; [|intros H; discriminate H].
  intros _. exists data. split; [reflexivity|].
  apply FernetFacts.bytes_eqb_eq. exact E.
Qed.

(** A token whose tag does not verify makes it raise [InvalidToken]. *)
Lemma decrypt_unverified {L : Library} (f : Fernet.t) (token : bytes) :
  ~ tag_verifies f token -> Fernet.decrypt f token = Raise InvalidToken.
Proof.
  intros Hno. unfold Fernet.decrypt.
  destruct (Base64.urlsafe_b64decode token) as [data|e] eqn:Hd; [|reflexivity].
  destruct data as [|version rest] eqn:Ed; [reflexivity|].
  rewrite <- Ed.
  destruct (negb (Byte.eqb version x80)); [reflexivity|].
  destruct (Nat.ltb (length data) 9); [reflexivity|].
  destruct (Fernet.bytes_eqb
              (hmac_sha256 (Fernet._signing_key f) (firstn (length data - 32) data))
              (skipn (length data - 32) data)) eqn:E;
    cbn [negb]; [|reflexivity].
  exfalso. apply Hno. exists data. split; [rewrite Ed; exact Hd|].
  apply FernetFacts.bytes_eqb_eq. exact E.
Qed.

Ltac same H :=
  rewrite bind_lift; rewrite getitem_set_other by reflexivity; rewrite H.

(** When the [ciphertext_b64] field of an envelope that decrypts is
    replaced by any other text and the bytes are still read as that
    dictionary, [decrypt_file] raises [binascii.Error] if the text no
    longer decodes, and otherwise does what [Fernet.decrypt] does with
    the decoded token under the same key: it raises [InvalidToken] when
    the tag of the token does not verify, and it returns bytes only for a
    token whose tag verifies; the original plaintext comes back when the
    text decodes to the original token. *)
Lemma replaced_ciphertext {L : Library}
        (password : pystr) (file_bytes m : bytes) (d : list (pystr * pyobj))
        (w w1 : World) :
  Json.loads file_bytes = Ok (PyDict d) ->
  decrypt_file password file_bytes w = (Ok m, w1) ->
  exists c f token,
    reaches_token password (PyDict d) c f token
    /\ Fernet.decrypt f token = Ok m
    /\ forall text' file_bytes' w',
        Json.loads file_bytes'
        = Ok (PyDict (Json.dict_set d (str "ciphertext_b64") (PyStr text'))) ->
        decrypt_file password file_bytes' w'
        = ((token' <- (b <- Utf8.encode text' ;; Base64.urlsafe_b64decode b) ;;
            Fernet.decrypt f token')%result,
           logged w' c)
        /\ (forall b e, Utf8.encode text' = Ok b ->
                        Base64.urlsafe_b64decode b = Raise e -> e = BinasciiError)
        /\ (forall b token',
               Utf8.encode text' = Ok b ->
               Base64.urlsafe_b64decode b = Ok token' ->
               (~ tag_verifies f token' ->
                fst (decrypt_file password file_bytes' w') = Raise InvalidToken)
               /\ (forall m', fst (decrypt_file password file_bytes' w') = Ok m' ->
                              tag_verifies f token')
               /\ (token' = token ->
                   fst (decrypt_file password file_bytes' w') = Ok m)).
Proof.
  intros Hloads Hok.
  destruct (@decrypt_file_ok_inv L password file_bytes m (PyDict d) w w1 Hloads Hok)
    as (c & f & ct & Hrun & Hdec).
  exists c, f, ct. split; [exact Hrun|]. split; [exact Hdec|].
  destruct Hrun as [so sb salt len n r p kdf km key co cb
                      H1 H2 H3 H4 H5 H6 H7 H8 H9 H10 Hc H11 H12 H13 H14].
  intros text' fb' w' Hloads'.
  assert (Hrun' : decrypt_file password fb' w'
                  = ((token' <- (b <- Utf8.encode text' ;;
                                 Base64.urlsafe_b64decode b) ;;
                      Fernet.decrypt f token')%result,
                     logged w' c)).
  { unfold decrypt_file. rewrite bind_lift, Hloads'.
    same H1. pure H2. pure H3. same H4. same H5. same H6. same H7.
    pure H8. derive H9 H10. rewrite <- Hc.
    rewrite bind_lift, getitem_set_same.
    rewrite bind_lift. cbn [encode_utf8].
    destruct (Utf8.encode text') as [b|e]; [|reflexivity].
    rewrite bind_lift. cbn [rbind].
    destruct (Base64.urlsafe_b64decode b) as [token'|e]; [|reflexivity].
    rewrite bind_lift, H14. reflexivity. }
  split; [exact Hrun'|]. split.
  - intros b e _ Hb. eapply urlsafe_b64decode_raise. exact Hb.
  - intros b token' Hb Ht. rewrite Hrun', Hb. cbn [rbind fst]. rewrite Ht.
    cbn [rbind]. split; [|split].
    + apply decrypt_unverified.
    + intros m'. apply decrypt_ok_verifies.
    + intros ->. exact Hdec.
Qed.

(** ** The bits of a base64 text that carry nothing *)

Module Base64Slack.
Import Base64.

(** At the start of a quad the decoder has no memory. *)
Lemma a2b_loop_start (s : bytes) : forall leftchar pads,
  a2b_loop s 0 leftchar pads = a2b_loop s 0 0 0.
Proof.
  induction s as [|c s IH]; intros lc pads; [reflexivity|].
  cbn [a2b_loop N.leb N.compare N.eqb].
  destruct (Byte.eqb c PAD).
  - rewrite IH. symmetry. apply IH.
  - destruct (table_a2b c); [reflexivity|].
    rewrite IH. symmetry. apply IH.
Qed.

Lemma a2b_b2a_app (s rest : bytes) : length s mod 3 = 0 ->
  forall leftchar pads,
    a2b_loop (b2a_base64 s ++ rest) 0 leftchar pads
    = match a2b_loop rest 0 0 0 with
      | Ok r => Ok (s ++ r)
      | Raise e => Raise e
      end.
Proof.
  induction s as [|a|a b|a b c l IH] using list_ind3; intros H lc pads.
  - cbn [b2a_base64 Datatypes.app]. rewrite a2b_loop_start.
    destruct (a2b_loop rest 0 0 0); reflexivity.
  - discriminate H.
  - discriminate H.
  - cbn [length] in H.
    replace (S (S (S (length l)))) with (length l + 1 * 3) in H by lia.
    rewrite Nat.Div0.mod_add in H.
    rewrite Base64Facts.b2a_cons3. rewrite <- !app_comm_cons.
    do 4 Base64Facts.digit_step.
    rewrite Base64Facts.byte1, Base64Facts.left2, Base64Facts.byte2,
      Base64Facts.left3, Base64Facts.byte3.
    rewrite IH by exact H.
    destruct (a2b_loop rest 0 0 0); reflexivity.
Qed.

(** The text that encodes a sequence ending in the pad byte, itself the
    end of an encoding, ends in [PQ==]; [PS==] in its place decodes to
    the same bytes. *)
Lemma b2a_pad_tail (t : bytes) : length t mod 3 = 0 ->
  b2a_base64 (t ++ [PAD]) = b2a_base64 t ++ lit "PQ==".
Proof. intros H. rewrite Base64Facts.b2a_app1 by exact H. reflexivity. Qed.

Lemma a2b_slack (t : bytes) : length t mod 3 = 0 ->
  a2b_loop (b2a_base64 t ++ lit "PS==") 0 0 0 = Ok (t ++ [PAD]).
Proof. intros H. rewrite a2b_b2a_app by exact H. reflexivity. Qed.

End Base64Slack.

(** The token of a plaintext shorter than one block is the encoding of 73
    bytes. *)
Lemma short_token_length {L : Library} (HL : LibraryOk L)
      (f : Fernet.t) (ts iv data : bytes) :
  length ts = 8 -> length iv = 16 -> length data < 16 ->
  length (fernet_parts f ts iv data
          ++ hmac_sha256 (Fernet._signing_key f) (fernet_parts f ts iv data)) = 73.
Proof.
  intros Hts Hiv Hd. rewrite length_app, (hmac_length HL).
  unfold fernet_parts. cbn [length].
  rewrite !length_app, (aes_cbc_length HL), FernetFacts.pkcs7_pad_length.
  rewrite Nat.mod_small by lia. lia.
Qed.

Lemma encode_73 (x : bytes) : length x = 73 ->
  exists t, Base64.urlsafe_b64encode x = t ++ [Base64.PAD]
            /\ length t mod 3 = 0.
Proof.
  intros H. rewrite <- (firstn_skipn 72 x).
  assert (H1 : length (skipn 72 x) = 1) by (rewrite length_skipn; lia).
  assert (H72 : length (firstn 72 x) = 72) by (rewrite length_firstn; lia).
  destruct (skipn 72 x) as [|a [|b t]]; cbn [length] in H1; try lia.
  unfold Base64.urlsafe_b64encode, Base64.b64encode.
  rewrite Base64Facts.b2a_app1 by (rewrite H72; reflexivity).
  cbn [Base64.b2a_base64].
  exists (List.map Base64._urlsafe_encode_translation
            (Base64.b2a_base64 (firstn 72 x)
             ++ [Base64.table_b2a (N_of_byte a / 4);
                 Base64.table_b2a ((N_of_byte a mod 4) * 16); Base64.PAD])).
  split.
  - rewrite !map_app. cbn [List.map]. rewrite <- app_assoc. reflexivity.
  - rewrite length_map, length_app, Base64Facts.b2a_length, H72. reflexivity.
Qed.

(** The envelope of a plaintext shorter than 16 bytes has a
    [ciphertext_b64] that ends in [PQ==]; with [PS==] in its place, one
    bit of one character flipped, it still opens, whatever the primitives
    are. *)
Lemma flip_unused_bits_opens {L : Library} (HL : LibraryOk L)
      (password : pystr) (file_bytes key_material : bytes) (w : World) :
  Utf8.encode password = Ok key_material ->
  clock_ok w ->
  length file_bytes < 16 ->
  exists env w' salt_str body,
    encrypt_file password file_bytes w = (Ok env, w')
    /\ Json.loads env = Ok (envelope salt_str (body ++ str "PQ=="))
    /\ forall file_bytes' w2,
        Json.loads file_bytes' = Ok (envelope salt_str (body ++ str "PS==")) ->
        fst (decrypt_file password file_bytes' w2) = Ok file_bytes.
Proof.
  intros Hpw Hclock Hshort.
  destruct (derive_default_ok HL key_material (draw w 32)) as (k & Hk & Hlen).
  destruct (FernetFacts.to_bytes8_ok Hclock) as [ts Hts].
  pose proof (FernetFacts.to_bytes8_length _ Hts) as T8.
  set (iv := draw (advance w 32) 16).
  assert (Hiv : length iv = 16) by apply draw_length.
  set (token := fernet_token (fernet_of k) ts iv file_bytes).
  assert (H73 : length (fernet_parts (fernet_of k) ts iv file_bytes
                       ++ hmac_sha256 (Fernet._signing_key (fernet_of k))
                            (fernet_parts (fernet_of k) ts iv file_bytes)) = 73)
    by (apply short_token_length; assumption).
  destruct (encode_73 _ H73) as (t & Et & Ht).
  fold (fernet_token (fernet_of k) ts iv file_bytes) in Et. fold token in Et.
  set (body := List.map N_of_byte
                 (List.map Base64._urlsafe_encode_translation (Base64.b2a_base64 t))).
  assert (Hbody : b64_str token = body ++ str "PQ==").
  { unfold b64_str, Base64.urlsafe_b64encode, Base64.b64encode.
    rewrite Et, Base64Slack.b2a_pad_tail by exact Ht.
    rewrite !map_app. reflexivity. }
  assert (Pbody : all_plain body).
  { pose proof (b64_str_plain token) as P. rewrite Hbody in P.
    apply Forall_app in P. apply P. }
  eexists. eexists. exists (b64_str (draw w 32)), body.
  split; [eapply encrypt_file_spec; eassumption|].
  split.
  { fold iv. fold token. rewrite <- Hbody. apply loads_envelope_bytes. }
  intros fb' w2 Hloads'.
  erewrite decrypt_file_run; [|exact Hloads'|].
  2:{ eapply reaches_token_intro with (salt := draw w 32) (key := k)
        (ciphertext_b64 := List.map Base64._urlsafe_encode_translation
                             (Base64.b2a_base64 t) ++ lit "PS==").
      - apply getitem_salt.
      - cbn [encode_utf8]. apply utf8_encode_b64.
      - apply Base64Facts.urlsafe_b64decode_encode.
      - apply getitem_length.
      - apply getitem_n.
      - apply getitem_r.
      - apply getitem_p.
      - apply Scrypt_init_default.
      - exact Hpw.
      - cbn [_length _salt _n _r _p as_int rbind]. exact Hk.
      - reflexivity.
      - apply getitem_ciphertext.
      - cbn [encode_utf8]. rewrite utf8_encode_ascii.
        + rewrite map_app. unfold body. rewrite map_byte_of_N_of_byte. reflexivity.
        + apply Forall_app. split; [apply all_plain_ascii, Pbody|].
          repeat (apply Forall_cons; [reflexivity|]). constructor.
      - unfold Base64.urlsafe_b64decode, Base64.b64decode, Base64.a2b_base64.
        rewrite map_app.
        rewrite Base64Facts.map_translate by apply Base64Facts.b2a_chars.
        change (List.map Base64._urlsafe_decode_translation (lit "PS=="))
          with (lit "PS==").
        rewrite Base64Slack.a2b_slack by exact Ht. rewrite <- Et. reflexivity.
      - rewrite FernetFacts.init_encode, Hlen. reflexivity. }
  cbn [fst]. apply FernetFacts.decrypt_token.
  - exact HL.
  - exact Hlen.
  - exact T8.
  - exact Hiv.
Qed.

(** * More of the two functions *)

(** ** Passwords that cannot be encoded *)

Lemma encode_char_raise (c : N) (e : exn) :
  Utf8.encode_char c = Raise e -> e = UnicodeEncodeError.
Proof.
  unfold Utf8.encode_char.
  destruct (c <? 128)%N; [intros H; discriminate H|].
  destruct (c <? 2048)%N; [intros H; discriminate H|].
  destruct (c <? 65536)%N.
  - destruct (Utf8.is_surrogate c); intros H; [|discriminate H].
    apply (f_equal (fun r => match r with Raise x => x | Ok _ => e end)) in H.
    symmetry. exact H.
  - destruct (c <? 1114112)%N; intros H; [discriminate H|].
    apply (f_equal (fun r => match r with Raise x => x | Ok _ => e end)) in H.
    symmetry. exact H.
Qed.

Lemma encode_char_surrogate (c : N) :
  Utf8.is_surrogate c = true -> Utf8.encode_char c = Raise UnicodeEncodeError.
Proof.
  intros Hc. unfold Utf8.encode_char. rewrite Hc.
  unfold Utf8.is_surrogate in Hc.
  apply andb_true_iff in Hc. destruct Hc as [H1 H2].
  apply N.leb_le in H1, H2.
  replace (c <? 128)%N with false by (symmetry; apply N.ltb_ge; lia).
  replace (c <? 2048)%N with false by (symmetry; apply N.ltb_ge; lia).
  replace (c <? 65536)%N with true by (symmetry; apply N.ltb_lt; lia).
  reflexivity.
Qed.

Lemma utf8_encode_surrogate (s : pystr) (c : N) :
  In c s -> Utf8.is_surrogate c = true -> Utf8.encode s = Raise UnicodeEncodeError.
Proof.
  intros Hin Hc. induction s as [|a s IH]; [destruct Hin|].
  cbn [Utf8.encode]. destruct Hin as [->|Hin].
  - rewrite (encode_char_surrogate _ Hc). reflexivity.
  - destruct (Utf8.encode_char a) as [b|e] eqn:E.
    + cbn [rbind]. rewrite (IH Hin). reflexivity.
    + apply encode_char_raise in E. subst e. reflexivity.
Qed.

(** X1: a password that holds a surrogate code point has no UTF-8
    encoding: [encrypt_file] raises [UnicodeEncodeError] once the salt is
    drawn, before any key is derived, and returns no envelope. *)
Theorem encrypt_file_surrogate_password {L : Library}
        (password : pystr) (file_bytes : bytes) (c : N) (w : World) :
  In c password -> Utf8.is_surrogate c = true ->
  encrypt_file password file_bytes w = (Raise UnicodeEncodeError, advance w 32).
Proof.
  intros Hin Hc. unfold encrypt_file.
  unfold bind at 1. unfold os_urandom at 1. fold (advance w 32).
  rewrite bind_lift, Scrypt_init_default.
  rewrite bind_lift. cbn [encode_utf8].
  rewrite (@utf8_encode_surrogate password c Hin Hc). reflexivity.
Qed.

Lemma encrypt_file_surrogate_password_witness :
  In 55357%N [104; 55357; 105]%N
  /\ Utf8.is_surrogate 55357 = true
  /\ encrypt_file (L := Toy.library) [104; 55357; 105]%N (lit "hello world")
       Toy.world
     = (Raise UnicodeEncodeError, advance Toy.world 32).
Proof.
  assert (A : In 55357%N [104; 55357; 105]%N) by (right; left; reflexivity).
  assert (B : Utf8.is_surrogate 55357 = true) by reflexivity.
  split; [exact A|]. split; [exact B|].
  exact (@encrypt_file_surrogate_password Toy.library [104; 55357; 105]%N
           (lit "hello world") 55357%N Toy.world A B).
Defined.

(** ** What [decrypt_file] leaves alone *)

(** X2: [decrypt_file] draws no randomness and does not move the clock:
    whatever its input, the world after it is the world before it, with
    at most one key derivation logged. *)
Theorem decrypt_file_keeps_entropy_and_clock {L : Library}
        (password : pystr) (file_bytes : bytes) (w : World) :
  snd (decrypt_file password file_bytes w) = w
  \/ exists c, snd (decrypt_file password file_bytes w) = logged w c.
Proof.
  unfold decrypt_file.
  rewrite bind_lift.
  destruct (Json.loads file_bytes) as [em|e]; [|left; reflexivity].
  rewrite bind_lift.
  destruct (getitem em (str "salt")) as [so|e]; [|left; reflexivity].
  rewrite bind_lift.
  destruct (encode_utf8 so) as [sb|e]; [|left; reflexivity].
  rewrite bind_lift.
  destruct (Base64.urlsafe_b64decode sb) as [salt|e]; [|left; reflexivity].
  rewrite bind_lift.
  destruct (getitem em (str "length")) as [len|e]; [|left; reflexivity].
  rewrite bind_lift.
  destruct (getitem em (str "n")) as [n|e]; [|left; reflexivity].
  rewrite bind_lift.
  destruct (getitem em (str "r")) as [r|e]; [|left; reflexivity].
  rewrite bind_lift.
  destruct (getitem em (str "p")) as [p|e]; [|left; reflexivity].
  rewrite bind_lift.
  destruct (Scrypt_init salt len n r p) as [kdf|e]; [|left; reflexivity].
  rewrite bind_lift.
  destruct (encode_utf8 (PyStr password)) as [km|e]; [|left; reflexivity].
  right. unfold bind at 1. rewrite Scrypt_derive_spec. cbv zeta.
  set (c := {| kdf_password := km; kdf_salt := _salt kdf;
               kdf_length := _length kdf; kdf_n := _n kdf; kdf_r := _r kdf;
               kdf_p := _p kdf;
               kdf_key := rbind (as_int (_length kdf))
                            (derive_scrypt km (_salt kdf) (_n kdf) (_r kdf)
                               (_p kdf)) |}).
  exists c.
  destruct (rbind (as_int (_length kdf)) _) as [k|e]; [|reflexivity].
  rewrite bind_lift.
  destruct (getitem em (str "ciphertext_b64")) as [co|e]; [|reflexivity].
  rewrite bind_lift.
  destruct (encode_utf8 co) as [cb|e]; [|reflexivity].
  rewrite bind_lift.
  destruct (Base64.urlsafe_b64decode cb) as [ct|e]; [|reflexivity].
  rewrite bind_lift.
  destruct (Fernet.init (Base64.urlsafe_b64encode k)) as [f|e]; reflexivity.
Qed.

(** ** Envelopes of the wrong shape *)

(** X3: input that is JSON but not a JSON object (an array, a string, a
    number, [true], [false] or [null]) makes [decrypt_file] raise
    [TypeError] at the first subscript, and nothing else happens. *)
Theorem decrypt_file_not_an_object {L : Library}
        (password : pystr) (file_bytes : bytes) (v : pyobj) (w : World) :
  Json.loads file_bytes = Ok v ->
  (forall d, v <> PyDict d) ->
  decrypt_file password file_bytes w = (Raise TypeError, w).
Proof.
  intros Hloads Hv. unfold decrypt_file.
  rewrite bind_lift, Hloads. rewrite bind_lift.
  destruct v; try reflexivity.
  exfalso. eapply Hv. reflexivity.
Qed.

Lemma decrypt_file_not_an_object_witness :
  Json.loads (L := Toy.library) (lit "[1, 2]") = Ok (PyList [PyInt 1; PyInt 2])
  /\ (forall d, PyList [PyInt 1; PyInt 2] <> PyDict d)
  /\ decrypt_file (L := Toy.library) Example.password (lit "[1, 2]") Toy.world
     = (Raise TypeError, Toy.world).
Proof.
  assert (A : Json.loads (L := Toy.library) (lit "[1, 2]")
              = Ok (PyList [PyInt 1; PyInt 2])) by (vm_compute; reflexivity).
  assert (B : forall d, PyList [PyInt 1; PyInt 2] <> PyDict d)
    by (intros d H; discriminate H).
  split; [exact A|]. split; [exact B|].
  exact (@decrypt_file_not_an_object Toy.library Example.password (lit "[1, 2]")
           (PyList [PyInt 1; PyInt 2]) Toy.world A B).
Defined.

(** X4: a [salt] that is not a JSON string has no [encode]:
    [decrypt_file] raises [AttributeError], before it reads any other
    field. *)
Theorem decrypt_file_salt_not_a_string {L : Library}
        (password : pystr) (file_bytes : bytes) (em v : pyobj) (w : World) :
  Json.loads file_bytes = Ok em ->
  getitem em (str "salt") = Ok v ->
  (forall s, v <> PyStr s) ->
  decrypt_file password file_bytes w = (Raise AttributeError, w).
Proof.
  intros Hloads Hsalt Hv. unfold decrypt_file.
  rewrite bind_lift, Hloads. rewrite bind_lift, Hsalt. rewrite bind_lift.
  destruct v; try reflexivity.
  exfalso. eapply Hv. reflexivity.
Qed.

Lemma decrypt_file_salt_not_a_string_witness :
  Json.loads (L := Toy.library)
    (file_of (with_field Example.message (str "salt") (PyInt 7)))
  = Ok (with_field Example.message (str "salt") (PyInt 7))
  /\ getitem (with_field Example.message (str "salt") (PyInt 7)) (str "salt")
     = Ok (PyInt 7)
  /\ (forall s, PyInt 7 <> PyStr s)
  /\ decrypt_file (L := Toy.library) Example.password
       (file_of (with_field Example.message (str "salt") (PyInt 7))) Toy.world
     = (Raise AttributeError, Toy.world).
Proof.
  assert (A : Json.loads (L := Toy.library)
                (file_of (with_field Example.message (str "salt") (PyInt 7)))
              = Ok (with_field Example.message (str "salt") (PyInt 7)))
    by (vm_compute; reflexivity).
  assert (B : getitem (with_field Example.message (str "salt") (PyInt 7))
                (str "salt") = Ok (PyInt 7)) by (vm_compute; reflexivity).
  assert (C : forall s, PyInt 7 <> PyStr s) by (intros s H; discriminate H).
  split; [exact A|]. split; [exact B|]. split; [exact C|].
  exact (@decrypt_file_salt_not_a_string Toy.library Example.password _ _ _
           Toy.world A B C).
Defined.

(** X5: the [ciphertext_b64] field is looked at last.  In an envelope
    that decrypts, a [ciphertext_b64] that is not a JSON string makes
    [decrypt_file] raise [AttributeError], and only after the whole key
    derivation has run, the same derivation as for the intact
    envelope. *)
Theorem decrypt_file_ciphertext_not_a_string {L : Library}
        (password : pystr) (file_bytes m : bytes) (d : list (pystr * pyobj))
        (w w1 : World) :
  Json.loads file_bytes = Ok (PyDict d) ->
  decrypt_file password file_bytes w = (Ok m, w1) ->
  exists c,
    w1 = logged w c
    /\ forall v file_bytes' w',
        (forall s, v <> PyStr s) ->
        Json.loads file_bytes'
        = Ok (PyDict (Json.dict_set d (str "ciphertext_b64") v)) ->
        decrypt_file password file_bytes' w' = (Raise AttributeError, logged w' c).
Proof.
  intros Hloads Hok.
  destruct (@decrypt_file_ok_inv L password file_bytes m (PyDict d) w w1 Hloads Hok)
    as (c & f & ct & Hrun & Hdec).
  exists c. split.
  - rewrite (@decrypt_file_run L password file_bytes (PyDict d) c f ct w Hloads Hrun)
      in Hok.
    apply (f_equal snd) in Hok. symmetry. exact Hok.
  - destruct Hrun as [so sb salt len n r p kdf km key co cb
                        H1 H2 H3 H4 H5 H6 H7 H8 H9 H10 Hc H11 H12 H13 H14].
    intros v fb' w' Hv Hloads'. unfold decrypt_file.
    rewrite bind_lift, Hloads'.
    same H1. pure H2. pure H3. same H4. same H5. same H6. same H7.
    pure H8. derive H9 H10. rewrite <- Hc.
    rewrite bind_lift, getitem_set_same. rewrite bind_lift.
    destruct v; try reflexivity.
    exfalso. eapply Hv. reflexivity.
Qed.

Lemma decrypt_file_ciphertext_not_a_string_witness :
  Json.loads (L := Toy.library) Example.file = Ok (PyDict Example.items)
  /\ decrypt_file (L := Toy.library) Example.password Example.file Toy.world
     = (Ok Example.plaintext,
        snd (decrypt_file (L := Toy.library) Example.password Example.file Toy.world))
  /\ exists c,
      snd (decrypt_file (L := Toy.library) Example.password Example.file Toy.world)
      = logged Toy.world c.
Proof.
  assert (A : Json.loads (L := Toy.library) Example.file = Ok (PyDict Example.items))
    by (vm_compute; reflexivity).
  assert (B : decrypt_file (L := Toy.library) Example.password Example.file Toy.world
              = (Ok Example.plaintext,
                 snd (decrypt_file (L := Toy.library) Example.password Example.file
                        Toy.world)))
    by (vm_compute; reflexivity).
  split; [exact A|]. split; [exact B|].
  destruct (@decrypt_file_ciphertext_not_a_string Toy.library Example.password
              Example.file Example.plaintext Example.items Toy.world _ A B)
    as (c & H1 & _).
  exists c. exact H1.
Defined.

(** X6: [decrypt_file] reads six fields and nothing else: two JSON
    objects that agree on [salt], [length], [n], [r], [p] and
    [ciphertext_b64] give the same result and the same log, whatever
    their other members and whatever the order of their members. *)
Theorem decrypt_file_reads_six_fields {L : Library}
        (password : pystr) (file_bytes1 file_bytes2 : bytes)
        (d1 d2 : list (pystr * pyobj)) (w : World) :
  Json.loads file_bytes1 = Ok (PyDict d1) ->
  Json.loads file_bytes2 = Ok (PyDict d2) ->
  (forall k, In k fields -> Json.dict_get d1 k = Json.dict_get d2 k) ->
  decrypt_file password file_bytes1 w = decrypt_file password file_bytes2 w.
Proof.
  intros Hl1 Hl2 Hsame.
  assert (G : forall k, In k fields ->
                        getitem (PyDict d1) k = getitem (PyDict d2) k).
  { intros k Hk. cbn [getitem]. rewrite (Hsame k Hk). reflexivity. }
  assert (G1 := G (str "salt") (or_introl eq_refl)).
  assert (G2 := G (str "length") (or_intror (or_introl eq_refl))).
  assert (G3 := G (str "n") (or_intror (or_intror (or_introl eq_refl)))).
  assert (G4 := G (str "r")
                  (or_intror (or_intror (or_intror (or_introl eq_refl))))).
  assert (G5 := G (str "p")
                  (or_intror (or_intror (or_intror (or_intror (or_introl eq_refl)))))).
  assert (G6 := G (str "ciphertext_b64")
                  (or_intror (or_intror (or_intror (or_intror
                     (or_intror (or_introl eq_refl))))))).
  unfold decrypt_file.
  rewrite (bind_lift (Json.loads file_bytes1)), Hl1.
  rewrite (bind_lift (Json.loads file_bytes2)), Hl2.
  rewrite G1, G2, G3, G4, G5, G6. reflexivity.
Qed.

Lemma decrypt_file_reads_six_fields_witness :
  Json.loads (L := Toy.library) Example.file = Ok (PyDict Example.items)
  /\ Json.loads (L := Toy.library)
       (file_of (PyDict ((str "note", PyStr (str "hi")) :: List.rev Example.items)))
     = Ok (PyDict ((str "note", PyStr (str "hi")) :: List.rev Example.items))
  /\ (forall k, In k fields ->
        Json.dict_get Example.items k
        = Json.dict_get ((str "note", PyStr (str "hi")) :: List.rev Example.items) k)
  /\ decrypt_file (L := Toy.library) Example.password Example.file Toy.world
     = decrypt_file (L := Toy.library) Example.password
         (file_of (PyDict ((str "note", PyStr (str "hi")) :: List.rev Example.items)))
         Toy.world.
Proof.
  assert (A : Json.loads (L := Toy.library) Example.file = Ok (PyDict Example.items))
    by (vm_compute; reflexivity).
  assert (B : Json.loads (L := Toy.library)
                (file_of (PyDict ((str "note", PyStr (str "hi"))
                                  :: List.rev Example.items)))
              = Ok (PyDict ((str "note", PyStr (str "hi")) :: List.rev Example.items)))
    by (vm_compute; reflexivity).
  assert (C : forall k, In k fields ->
                Json.dict_get Example.items k
                = Json.dict_get ((str "note", PyStr (str "hi"))
                                 :: List.rev Example.items) k).
  { intros k Hk. cbn [fields In] in Hk.
    destruct Hk as [<-|[<-|[<-|[<-|[<-|[<-|[]]]]]]]; vm_compute; reflexivity. }
  split; [exact A|]. split; [exact B|]. split; [exact C|].
  exact (@decrypt_file_reads_six_fields Toy.library Example.password _ _ _ _
           Toy.world A B C).
Defined.

(** ** Cost parameters the constructor refuses *)

(** X7: an envelope whose [n], [r] and [p] are integers and whose [r] or
    [p] is below 1 makes [decrypt_file] raise the [ValueError] of the
    [Scrypt] constructor; no key derivation is attempted. *)
Theorem decrypt_file_r_p_below_one {L : Library}
        (password : pystr) (file_bytes salt_b64 salt : bytes)
        (em salt_obj len : pyobj) (n r p : Z) (w : World) :
  Json.loads file_bytes = Ok em ->
  getitem em (str "salt") = Ok salt_obj ->
  encode_utf8 salt_obj = Ok salt_b64 ->
  Base64.urlsafe_b64decode salt_b64 = Ok salt ->
  getitem em (str "length") = Ok len ->
  getitem em (str "n") = Ok (PyInt n) ->
  getitem em (str "r") = Ok (PyInt r) ->
  getitem em (str "p") = Ok (PyInt p) ->
  (r < 1 \/ p < 1)%Z ->
  decrypt_file password file_bytes w = (Raise ValueError, w).
Proof.
  intros Hloads Hsalt Henc Hdec Hlen Hn Hr Hp Hbad.
  unfold decrypt_file.
  rewrite bind_lift, Hloads. rewrite bind_lift, Hsalt.
  rewrite bind_lift, Henc. rewrite bind_lift, Hdec.
  rewrite bind_lift, Hlen. rewrite bind_lift, Hn.
  rewrite bind_lift, Hr. rewrite bind_lift, Hp.
  rewrite bind_lift.
  unfold Scrypt_init. cbn [as_int rbind].
  destruct ((n <? 2)%Z || negb (Z.land n (n - 1) =? 0)%Z); [reflexivity|].
  destruct (Z.ltb_spec r 1); [reflexivity|].
  destruct (Z.ltb_spec p 1); [reflexivity|].
  exfalso. lia.
Qed.

Lemma decrypt_file_r_p_below_one_witness :
  Json.loads (L := Toy.library)
    (file_of (with_field Example.message (str "r") (PyInt 0)))
  = Ok (with_field Example.message (str "r") (PyInt 0))
  /\ (0 < 1 \/ 1 < 1)%Z
  /\ decrypt_file (L := Toy.library) Example.password
       (file_of (with_field Example.message (str "r") (PyInt 0))) Toy.world
     = (Raise ValueError, Toy.world).
Proof.
  assert (A : Json.loads (L := Toy.library)
                (file_of (with_field Example.message (str "r") (PyInt 0)))
              = Ok (with_field Example.message (str "r") (PyInt 0)))
    by (vm_compute; reflexivity).
  assert (B : (0 < 1 \/ 1 < 1)%Z) by (left; lia).
  split; [exact A|]. split; [exact B|].
  refine (@decrypt_file_r_p_below_one Toy.library Example.password _
            (Base64.urlsafe_b64encode (draw Toy.world 32)) (draw Toy.world 32)
            _ (PyStr Example.salt_str) (PyInt 32) 131072 0 1 Toy.world
            A _ _ _ _ _ _ _ B); vm_compute; reflexivity.
Defined.

(** X8: a cost parameter that is a JSON string, array, object or [null]
    cannot be compared with a number: [decrypt_file] raises [TypeError]
    inside the [Scrypt] constructor, at the first such parameter in the
    order [n], [r], [p] when those before it are in range, and no key
    derivation is attempted. *)
Theorem decrypt_file_parameter_not_a_number {L : Library}
        (password : pystr) (file_bytes salt_b64 salt : bytes)
        (em salt_obj len n r p : pyobj) (w : World) :
  Json.loads file_bytes = Ok em ->
  getitem em (str "salt") = Ok salt_obj ->
  encode_utf8 salt_obj = Ok salt_b64 ->
  Base64.urlsafe_b64decode salt_b64 = Ok salt ->
  getitem em (str "length") = Ok len ->
  getitem em (str "n") = Ok n ->
  getitem em (str "r") = Ok r ->
  getitem em (str "p") = Ok p ->
  unordered n = true
  \/ (exists n', n = PyInt n' /\ (2 <= n')%Z /\ power_of_two n'
      /\ (unordered r = true
          \/ exists r', r = PyInt r' /\ (1 <= r')%Z /\ unordered p = true)) ->
  decrypt_file password file_bytes w = (Raise TypeError, w).
Proof.
  intros Hloads Hsalt Henc Hdec Hlen Hn Hr Hp Hbad.
  unfold decrypt_file.
  rewrite bind_lift, Hloads. rewrite bind_lift, Hsalt.
  rewrite bind_lift, Henc. rewrite bind_lift, Hdec.
  rewrite bind_lift, Hlen. rewrite bind_lift, Hn.
  rewrite bind_lift, Hr. rewrite bind_lift, Hp.
  rewrite bind_lift.
  destruct Hbad as [Un|(n' & -> & Hn2 & Hpow & Hrest)].
  - destruct n; try discriminate Un; reflexivity.
  - unfold Scrypt_init. cbn [as_int rbind].
    replace ((n' <? 2)%Z || negb (Z.land n' (n' - 1) =? 0)%Z) with false
      by (symmetry; apply n_check_spec; split; assumption).
    destruct Hrest as [Ur|(r' & -> & Hr1 & Up)].
    + destruct r; try discriminate Ur; reflexivity.
    + cbn [as_int rbind].
      replace (r' <? 1)%Z with false by (symmetry; apply Z.ltb_ge; lia).
      destruct p; try discriminate Up; reflexivity.
Qed.

Lemma decrypt_file_parameter_not_a_number_witness :
  Json.loads (L := Toy.library)
    (file_of (with_field Example.message (str "n") (PyStr (str "131072"))))
  = Ok (with_field Example.message (str "n") (PyStr (str "131072")))
  /\ unordered (PyStr (str "131072")) = true
  /\ decrypt_file (L := Toy.library) Example.password
       (file_of (with_field Example.message (str "n") (PyStr (str "131072"))))
       Toy.world
     = (Raise TypeError, Toy.world).
Proof.
  assert (A : Json.loads (L := Toy.library)
                (file_of (with_field Example.message (str "n")
                            (PyStr (str "131072"))))
              = Ok (with_field Example.message (str "n") (PyStr (str "131072"))))
    by (vm_compute; reflexivity).
  assert (B : unordered (PyStr (str "131072")) = true) by reflexivity.
  split; [exact A|]. split; [exact B|].
  refine (@decrypt_file_parameter_not_a_number Toy.library Example.password _
            (Base64.urlsafe_b64encode (draw Toy.world 32)) (draw Toy.world 32)
            _ (PyStr Example.salt_str) (PyInt 32) (PyStr (str "131072"))
            (PyInt 8) (PyInt 1) Toy.world
            A _ _ _ _ _ _ _ (or_introl B)); vm_compute; reflexivity.
Defined.

(** ** The bytes of an envelope *)

Lemma envelope_text_size (s c : pystr) :
  length (envelope_text s c) = 77 + length s + length c.
Proof.
  unfold envelope_text.
  repeat first [ rewrite length_app | rewrite length_cons ].
  cbn [str list_ascii_of_string List.map length]. lia.
Qed.

(** X9: the size of an envelope depends on the size of the plaintext
    alone, in steps of 16 bytes of plaintext.  The Fernet token of [len]
    bytes is [4 * ((59 + 16 * (len / 16 + 1)) / 3)] characters of base64,
    [encrypt_file] encodes those in base64 once more, and the envelope
    has 121 bytes besides, whatever the password, the content and the
    randomness. *)
Theorem envelope_length {L : Library} (HL : LibraryOk L)
        (password : pystr) (file_bytes key_material : bytes) (w : World) :
  Utf8.encode password = Ok key_material ->
  clock_ok w ->
  exists env w',
    encrypt_file password file_bytes w = (Ok env, w')
    /\ length env = 121 + 4 * ((4 * ((59 + 16 * (length file_bytes / 16 + 1)) / 3) + 2) / 3).
Proof.
  intros Hpw Hclock.
  destruct (derive_default_ok HL key_material (draw w 32)) as (k & Hk & Hlen).
  destruct (FernetFacts.to_bytes8_ok Hclock) as [ts Hts].
  pose proof (FernetFacts.to_bytes8_length _ Hts) as T8.
  eexists. eexists. split; [eapply encrypt_file_spec; eassumption|].
  unfold envelope_bytes. rewrite length_map, envelope_text_size.
  rewrite !b64_str_length, draw_length.
  unfold fernet_token at 1. rewrite Base64Facts.urlsafe_b64encode_length.
  rewrite length_app, (hmac_length HL).
  unfold fernet_parts. cbn [length].
  rewrite !length_app, (aes_cbc_length HL), FernetFacts.pkcs7_pad_length.
  rewrite T8, draw_length.
  pose proof (Nat.div_mod_eq (length file_bytes) 16) as E.
  pose proof (Nat.mod_upper_bound (length file_bytes) 16) as B.
  replace (S (8 + (16 + (length file_bytes + (16 - length file_bytes mod 16))))
           + 32 + 2)
    with (59 + 16 * (length file_bytes / 16 + 1)) by lia.
  change ((32 + 2) / 3) with 11. lia.
Qed.

Lemma envelope_length_witness :
  LibraryOk Toy.library
  /\ Utf8.encode (str "correct horse") = Ok (lit "correct horse")
  /\ clock_ok Toy.world
  /\ exists env w',
      encrypt_file (L := Toy.library) (str "correct horse") (lit "hello world")
        Toy.world = (Ok env, w')
      /\ length env
         = 121 + 4 * ((4 * ((59 + 16 * (length (lit "hello world") / 16 + 1)) / 3)
                             + 2) / 3).
Proof.
  assert (A : Utf8.encode (str "correct horse") = Ok (lit "correct horse"))
    by (vm_compute; reflexivity).
  assert (B : clock_ok Toy.world) by (unfold clock_ok; cbn; lia).
  split; [exact ToyFacts.library_ok|]. split; [exact A|]. split; [exact B|].
  exact (@envelope_length Toy.library ToyFacts.library_ok (str "correct horse")
           (lit "hello world") (lit "correct horse") Toy.world A B).
Defined.

Lemma plain_printable (c : N) : plain c = true -> printable c = true.
Proof.
  unfold plain, printable. intros H.
  apply andb_true_iff in H. destruct H as [H _].
  apply andb_true_iff in H. destruct H as [H _]. exact H.
Qed.

Lemma envelope_text_printable (s c : pystr) : all_plain s -> all_plain c ->
  Forall (fun x => printable x = true) (envelope_text s c).
Proof.
  intros Hs Hc.
  assert (Ps : Forall (fun x => printable x = true) s)
    by (eapply Forall_impl; [|exact Hs]; apply plain_printable).
  assert (Pc : Forall (fun x => printable x = true) c)
    by (eapply Forall_impl; [|exact Hc]; apply plain_printable).
  unfold envelope_text.
  repeat first [ assumption
               | apply Forall_nil
               | apply Forall_cons; [reflexivity|]
               | apply Forall_app; split ].
Qed.

(** X10: an envelope is one line of printable ASCII: every byte of the
    output of [encrypt_file] lies between the space and the tilde, so
    there is no control character, no line break and no byte above 127
    in it. *)
Theorem envelope_printable {L : Library} (HL : LibraryOk L)
        (password : pystr) (file_bytes key_material : bytes) (w : World) :
  Utf8.encode password = Ok key_material ->
  clock_ok w ->
  exists env w',
    encrypt_file password file_bytes w = (Ok env, w')
    /\ Forall (fun b => printable (N_of_byte b) = true) env.
Proof.
  intros Hpw Hclock.
  destruct (derive_default_ok HL key_material (draw w 32)) as (k & Hk & Hlen).
  destruct (FernetFacts.to_bytes8_ok Hclock) as [ts Hts].
  eexists. eexists. split; [eapply encrypt_file_spec; eassumption|].
  unfold envelope_bytes. apply Forall_map.
  eapply Forall_impl;
    [|apply envelope_text_printable; apply b64_str_plain].
  intros x Hx. cbv beta in Hx.
  rewrite N_of_byte_of_N; [exact Hx|].
  unfold printable in Hx. apply andb_true_iff in Hx. destruct Hx as [_ Hx].
  apply N.leb_le in Hx. lia.
Qed.

Lemma envelope_printable_witness :
  LibraryOk Toy.library
  /\ Utf8.encode (str "correct horse") = Ok (lit "correct horse")
  /\ clock_ok Toy.world
  /\ exists env w',
      encrypt_file (L := Toy.library) (str "correct horse") (lit "hello world")
        Toy.world = (Ok env, w')
      /\ Forall (fun b => printable (N_of_byte b) = true) env.
Proof.
  assert (A : Utf8.encode (str "correct horse") = Ok (lit "correct horse"))
    by (vm_compute; reflexivity).
  assert (B : clock_ok Toy.world) by (unfold clock_ok; cbn; lia).
  split; [exact ToyFacts.library_ok|]. split; [exact A|]. split; [exact B|].
  exact (@envelope_printable Toy.library ToyFacts.library_ok (str "correct horse")
           (lit "hello world") (lit "correct horse") Toy.world A B).
Defined.

(** ** White space and a byte order mark around an envelope *)

Module JsonSpace.
Import Json.

Lemma skip_ws_app (ws s : pystr) : Forall (fun c => is_ws c = true) ws ->
  skip_ws (ws ++ s) = skip_ws s.
Proof.
  induction 1 as [|c ws Hc _ IH]; [reflexivity|].
  cbn [Datatypes.app skip_ws]. rewrite Hc. exact IH.
Qed.

Lemma skip_ws_all (ws : pystr) : Forall (fun c => is_ws c = true) ws ->
  skip_ws ws = [].
Proof.
  intros H. rewrite <- (app_nil_r ws). rewrite (skip_ws_app [] H). reflexivity.
Qed.

Lemma is_ws_ascii (c : N) : is_ws c = true -> (0 < c < 128)%N.
Proof.
  unfold is_ws. intros H.
  destruct (N.eqb_spec c 32); [lia|]. destruct (N.eqb_spec c 9); [lia|].
  destruct (N.eqb_spec c 10); [lia|]. destruct (N.eqb_spec c 13); [lia|].
  discriminate H.
Qed.

(** The last member, whose value is a string, with what follows the
    object. *)
Lemma member_str_last_rest (fuel : nat) acc (k v rest : pystr) :
  all_plain k -> all_plain v ->
  parse_members (S (S fuel)) acc
    (QUOTE :: k ++ QUOTE :: str ": " ++ QUOTE :: v ++ QUOTE :: ch "}" :: rest)
  = Ok (PyDict (dict_set acc k (PyStr v)), rest).
Proof.
  intros Hk Hv. cbn [parse_members]. rewrite N.eqb_refl.
  rewrite (@JsonFacts.scanstring_plain k _ Hk). cbn [rbind fst snd].
  change (skip_ws (str ": " ++ QUOTE :: v ++ QUOTE :: ch "}" :: rest))
    with (ch ":" :: 32%N :: QUOTE :: v ++ QUOTE :: ch "}" :: rest).
  change (is_char (ch ":") ":") with true. cbn iota.
  change (skip_ws (32%N :: QUOTE :: v ++ QUOTE :: ch "}" :: rest))
    with (QUOTE :: v ++ QUOTE :: ch "}" :: rest).
  rewrite (JsonFacts.scan_once_string fuel _ Hv). cbn [rbind fst snd].
  reflexivity.
Qed.

Lemma envelope_text_app (s c rest : pystr) :
  envelope_text s c ++ rest
  = ch "{" :: QUOTE :: str "salt" ++ QUOTE :: str ": "
    ++ QUOTE :: s ++ QUOTE :: str ", "
    ++ QUOTE :: str "length" ++ QUOTE :: str ": " ++ str "32" ++ str ", "
    ++ QUOTE :: str "n" ++ QUOTE :: str ": " ++ str "131072" ++ str ", "
    ++ QUOTE :: str "r" ++ QUOTE :: str ": " ++ str "8" ++ str ", "
    ++ QUOTE :: str "p" ++ QUOTE :: str ": " ++ str "1" ++ str ", "
    ++ QUOTE :: str "ciphertext_b64" ++ QUOTE :: str ": "
    ++ QUOTE :: c ++ QUOTE :: ch "}" :: rest.
Proof.
  unfold envelope_text.
  cbn [str list_ascii_of_string List.map Datatypes.app].
  rewrite <- !app_assoc. cbn [Datatypes.app].
  rewrite <- !app_assoc. reflexivity.
Qed.

(** The scanner reads an envelope and leaves what follows it. *)
Lemma scan_envelope_text_rest (fuel : nat) (s c rest : pystr) :
  all_plain s -> all_plain c ->
  scan_once (8 + fuel) (envelope_text s c ++ rest) = Ok (envelope s c, rest).
Proof.
  intros Hs Hc. rewrite envelope_text_app.
  change (8 + fuel) with (S (S (S (S (S (S (S (S fuel)))))))).
  rewrite JsonFacts.scan_once_object.
  rewrite (@JsonFacts.member_str_comma _ _ (str "salt") s _
             JsonFacts.all_plain_str_salt Hs).
  rewrite (@JsonFacts.member_int_comma _ _ (str "length") (str "32") _ 32
             JsonFacts.all_plain_str_length
             (fun r => eq_refl) (JsonFacts.scan_once_32 _)).
  rewrite (@JsonFacts.member_int_comma _ _ (str "n") (str "131072") _ 131072
             JsonFacts.all_plain_str_n
             (fun r => eq_refl) (JsonFacts.scan_once_131072 _)).
  rewrite (@JsonFacts.member_int_comma _ _ (str "r") (str "8") _ 8
             JsonFacts.all_plain_str_r
             (fun r => eq_refl) (JsonFacts.scan_once_8 _)).
  rewrite (@JsonFacts.member_int_comma _ _ (str "p") (str "1") _ 1
             JsonFacts.all_plain_str_p
             (fun r => eq_refl) (JsonFacts.scan_once_1 _)).
  rewrite (@member_str_last_rest _ _ (str "ciphertext_b64") c rest
             JsonFacts.all_plain_str_ciphertext Hc).
  reflexivity.
Qed.

(** [JSONDecoder.decode] on an envelope between white space. *)
Lemma decode_spaced (s c before after : pystr) :
  all_plain s -> all_plain c ->
  Forall (fun x => is_ws x = true) before ->
  Forall (fun x => is_ws x = true) after ->
  decode (before ++ envelope_text s c ++ after) = Ok (envelope s c).
Proof.
  intros Hs Hc Hb Ha. unfold decode.
  rewrite (skip_ws_app _ Hb).
  assert (E : skip_ws (envelope_text s c ++ after) = envelope_text s c ++ after)
    by (rewrite envelope_text_app; reflexivity).
  rewrite E. cbv zeta.
  replace (S (length (envelope_text s c ++ after)))
    with (8 + (length (envelope_text s c ++ after) - 7))
    by (rewrite length_app; pose proof (JsonFacts.envelope_text_length s c); lia).
  rewrite (scan_envelope_text_rest _ after Hs Hc). cbn [rbind fst snd].
  rewrite (skip_ws_all Ha). reflexivity.
Qed.

(** Bytes that start with ASCII other than NUL are taken for UTF-8. *)
Lemma detect_encoding_ascii (b : bytes) :
  Forall (fun x => (0 < N_of_byte x < 128)%N) b -> detect_encoding b = utf_8.
Proof.
  intros H. unfold detect_encoding, starts_with.
  destruct b as [|b0 b]; [reflexivity|].
  apply Forall_cons_iff in H. destruct H as [H0 H].
  cbn [List.map strip_prefix].
  destruct (N.eqb_spec 0 (N_of_byte b0)); [lia|].
  destruct (N.eqb_spec 255 (N_of_byte b0)); [lia|].
  destruct (N.eqb_spec 254 (N_of_byte b0)); [lia|].
  destruct (N.eqb_spec 239 (N_of_byte b0)); [lia|].
  cbn [orb].
  destruct b as [|b1 b]; [reflexivity|].
  apply Forall_cons_iff in H. destruct H as [H1 H].
  cbn [List.map].
  destruct (N.eqb_spec (N_of_byte b0) 0); [lia|].
  destruct (N.eqb_spec (N_of_byte b1) 0); [lia|].
  destruct b as [|b2 b]; [reflexivity|].
  destruct b as [|b3 b]; reflexivity.
Qed.

End JsonSpace.

Lemma ws_byte_ascii (b : bytes) : Forall (fun x => ws_byte x = true) b ->
  Forall (fun x => (0 < N_of_byte x < 128)%N) b.
Proof. apply Forall_impl. intros x Hx. apply JsonSpace.is_ws_ascii. exact Hx. Qed.

Lemma envelope_bytes_ascii (salt token : bytes) :
  Forall (fun x => (0 < N_of_byte x < 128)%N) (envelope_bytes salt token).
Proof.
  unfold envelope_bytes. apply Forall_map.
  eapply Forall_impl;
    [|apply envelope_text_printable; apply b64_str_plain].
  intros x Hx. cbv beta in Hx.
  unfold printable in Hx. apply andb_true_iff in Hx. destruct Hx as [H1 H2].
  apply N.leb_le in H1, H2. rewrite N_of_byte_of_N; lia.
Qed.

(** [json.loads] on an envelope between white space. *)
Lemma loads_spaced {L : Library} (salt token before after : bytes) :
  Forall (fun x => ws_byte x = true) before ->
  Forall (fun x => ws_byte x = true) after ->
  Json.loads (before ++ envelope_bytes salt token ++ after)
  = Ok (envelope (b64_str salt) (b64_str token)).
Proof.
  intros Hb Ha.
  assert (A : Forall (fun x => (0 < N_of_byte x < 128)%N)
                (before ++ envelope_bytes salt token ++ after)).
  { apply Forall_app. split; [apply ws_byte_ascii, Hb|].
    apply Forall_app. split; [apply envelope_bytes_ascii | apply ws_byte_ascii, Ha]. }
  unfold Json.loads. rewrite (JsonSpace.detect_encoding_ascii A).
  rewrite utf8_decode_ascii by (eapply Forall_impl; [|exact A]; cbv beta; lia).
  cbn [rbind]. rewrite !map_app.
  unfold envelope_bytes at 1.
  rewrite map_N_of_byte_of_N
    by (apply JsonFacts.envelope_text_ascii; apply b64_str_plain).
  apply JsonSpace.decode_spaced; try apply b64_str_plain.
  - apply Forall_map. exact Hb.
  - apply Forall_map. exact Ha.
Qed.

(** X11: an envelope still decrypts when the file it was saved in has
    white space (spaces, tabs, line breaks) before or after it and a
    UTF-8 byte order mark in front: [json.loads] skips them. *)
Theorem decrypt_file_tolerates_bom_and_whitespace {L : Library} (HL : LibraryOk L)
        (password : pystr) (file_bytes key_material bom before after : bytes)
        (w : World) :
  Utf8.encode password = Ok key_material ->
  clock_ok w ->
  bom = [] \/ bom = BOM_UTF8 ->
  Forall (fun b => ws_byte b = true) before ->
  Forall (fun b => ws_byte b = true) after ->
  exists env w',
    encrypt_file password file_bytes w = (Ok env, w')
    /\ forall w2,
        fst (decrypt_file password (bom ++ before ++ env ++ after) w2)
        = Ok file_bytes.
Proof.
  intros Hpw Hclock Hbom Hb Ha.
  destruct (derive_default_ok HL key_material (draw w 32)) as (k & Hk & Hlen).
  destruct (FernetFacts.to_bytes8_ok Hclock) as [ts Hts].
  eexists. eexists. split; [eapply encrypt_file_spec; eassumption|].
  intros w2.
  set (salt := draw w 32).
  set (token := fernet_token (fernet_of k) ts (draw (advance w 32) 16) file_bytes).
  assert (E : Json.loads (bom ++ before ++ envelope_bytes salt token ++ after)
              = Json.loads (envelope_bytes salt token)).
  { rewrite loads_envelope_bytes.
    destruct Hbom as [->| ->].
    - cbn [Datatypes.app]. apply loads_spaced; assumption.
    - unfold Json.loads at 1.
      change (Json.detect_encoding
                (BOM_UTF8 ++ before ++ envelope_bytes salt token ++ after))
        with utf_8_sig.
      cbv iota.
      change (skipn 3 (BOM_UTF8 ++ before ++ envelope_bytes salt token ++ after))
        with (before ++ envelope_bytes salt token ++ after).
      assert (A : Forall (fun x => (0 < N_of_byte x < 128)%N)
                    (before ++ envelope_bytes salt token ++ after)).
      { apply Forall_app. split; [apply ws_byte_ascii, Hb|].
        apply Forall_app. split;
          [apply envelope_bytes_ascii | apply ws_byte_ascii, Ha]. }
      rewrite utf8_decode_ascii by (eapply Forall_impl; [|exact A]; cbv beta; lia).
      cbn [rbind]. rewrite !map_app.
      unfold envelope_bytes at 1.
      rewrite map_N_of_byte_of_N
        by (apply JsonFacts.envelope_text_ascii; apply b64_str_plain).
      apply JsonSpace.decode_spaced; try apply b64_str_plain.
      + apply Forall_map. exact Hb.
      + apply Forall_map. exact Ha. }
  assert (D : decrypt_file password
                (bom ++ before ++ envelope_bytes salt token ++ after) w2
              = decrypt_file password (envelope_bytes salt token) w2).
  { unfold decrypt_file.
    rewrite (bind_lift (Json.loads (bom ++ before ++ envelope_bytes salt token
                                    ++ after))).
    rewrite (bind_lift (Json.loads (envelope_bytes salt token))).
    rewrite E. reflexivity. }
  rewrite D. erewrite decrypt_file_envelope by eassumption. cbn [fst].
  subst salt. rewrite Hk. apply FernetFacts.decrypt_token.
  - exact HL.
  - exact Hlen.
  - eapply FernetFacts.to_bytes8_length; eassumption.
  - apply draw_length.
Qed.

Lemma decrypt_file_tolerates_bom_and_whitespace_witness :
  LibraryOk Toy.library
  /\ Utf8.encode (str "correct horse") = Ok (lit "correct horse")
  /\ clock_ok Toy.world
  /\ (BOM_UTF8 = [] \/ BOM_UTF8 = BOM_UTF8)
  /\ Forall (fun b => ws_byte b = true) (lit "  ")
  /\ Forall (fun b => ws_byte b = true) [x0d; x0a]
  /\ exists env w',
      encrypt_file (L := Toy.library) (str "correct horse") (lit "hello world")
        Toy.world = (Ok env, w')
      /\ forall w2,
          fst (decrypt_file (L := Toy.library) (str "correct horse")
                 (BOM_UTF8 ++ lit "  " ++ env ++ [x0d; x0a]) w2)
          = Ok (lit "hello world").
Proof.
  assert (A : Utf8.encode (str "correct horse") = Ok (lit "correct horse"))
    by (vm_compute; reflexivity).
  assert (B : clock_ok Toy.world) by (unfold clock_ok; cbn; lia).
  assert (C : BOM_UTF8 = [] \/ BOM_UTF8 = BOM_UTF8) by (right; reflexivity).
  assert (D : Forall (fun b => ws_byte b = true) (lit "  "))
    by (repeat constructor).
  assert (E : Forall (fun b => ws_byte b = true) [x0d; x0a])
    by (repeat constructor).
  split; [exact ToyFacts.library_ok|]. split; [exact A|]. split; [exact B|].
  split; [exact C|]. split; [exact D|]. split; [exact E|].
  exact (@decrypt_file_tolerates_bom_and_whitespace Toy.library ToyFacts.library_ok
           (str "correct horse") (lit "hello world") (lit "correct horse")
           BOM_UTF8 (lit "  ") [x0d; x0a] Toy.world A B C D E).
Defined.

(** * The codecs on their own *)

(** ** base64 *)

Module Base64More.
Import Base64.

Lemma standard_ok_all : forallb standard_ok (List.map N.of_nat (seq 0 64)) = true.
Proof. vm_compute. reflexivity. Qed.

Lemma b64_char_standard (c : byte) : b64_char c ->
  _urlsafe_decode_translation c = c.
Proof.
  intros [i H|]; [|reflexivity].
  pose proof standard_ok_all as A. rewrite forallb_forall in A.
  apply byte_eqb_eq. apply (A i). apply in_map_iff.
  exists (N.to_nat i). split; [apply N2Nat.id|]. apply in_seq. lia.
Qed.

Lemma map_standard (l : bytes) : Forall b64_char l ->
  List.map _urlsafe_decode_translation l = l.
Proof.
  induction 1 as [|c l Hc _ IH]; cbn [List.map]; [reflexivity|].
  now rewrite IH, b64_char_standard.
Qed.

Lemma junk_ok_all : forall_byte junk_ok = true.
Proof. vm_compute. reflexivity. Qed.

Lemma junk_skipped (c : byte) : junk c = true ->
  Byte.eqb (_urlsafe_decode_translation c) PAD = false
  /\ table_a2b (_urlsafe_decode_translation c) = None.
Proof.
  intros H. pose proof (forall_byte_spec _ junk_ok_all c) as A.
  unfold junk_ok in A. rewrite H in A. cbn [implb] in A.
  apply andb_true_iff in A. destruct A as [A1 A2].
  apply negb_true_iff in A1. split; [exact A1|].
  destruct (table_a2b (_urlsafe_decode_translation c)); [discriminate A2|reflexivity].
Qed.

(** A byte without a value that is not the pad changes nothing, wherever
    it stands and whatever the decoder has read so far. *)
Lemma a2b_loop_skip (c : byte) (l1 l2 : bytes) :
  Byte.eqb c PAD = false -> table_a2b c = None ->
  forall quad_pos leftchar pads,
    a2b_loop (l1 ++ c :: l2) quad_pos leftchar pads
    = a2b_loop (l1 ++ l2) quad_pos leftchar pads.
Proof.
  intros H1 H2. induction l1 as [|a l1 IH]; intros qp lc pads.
  - cbn [Datatypes.app a2b_loop]. rewrite H1, H2. reflexivity.
  - cbn [Datatypes.app a2b_loop].
    destruct (Byte.eqb a PAD); [rewrite !IH; reflexivity|].
    destruct (table_a2b a); rewrite !IH; reflexivity.
Qed.

End Base64More.

(** X12: [urlsafe_b64decode] undoes [urlsafe_b64encode] on every byte
    sequence, and it reads the standard alphabet of [b64encode], with [+]
    and [/], just as well. *)
Theorem base64_roundtrip (s : bytes) :
  Base64.urlsafe_b64decode (Base64.urlsafe_b64encode s) = Ok s
  /\ Base64.urlsafe_b64decode (Base64.b64encode s) = Ok s.
Proof.
  split; [apply Base64Facts.urlsafe_b64decode_encode|].
  unfold Base64.urlsafe_b64decode, Base64.b64decode, Base64.b64encode,
    Base64.a2b_base64.
  rewrite Base64More.map_standard by apply Base64Facts.b2a_chars.
  apply Base64Facts.a2b_b2a.
Qed.

(** X13: [urlsafe_b64decode] passes over every byte that is neither in
    one of the two alphabets nor the pad (a space, a line break, a
    quote, ...), wherever it stands: with or without it the result is
    the same, be it bytes or [binascii.Error]. *)
Theorem urlsafe_b64decode_skips_junk (l1 l2 : bytes) (c : byte) :
  junk c = true ->
  Base64.urlsafe_b64decode (l1 ++ c :: l2) = Base64.urlsafe_b64decode (l1 ++ l2).
Proof.
  intros H. destruct (Base64More.junk_skipped _ H) as [H1 H2].
  unfold Base64.urlsafe_b64decode, Base64.b64decode, Base64.a2b_base64.
  rewrite !map_app. cbn [List.map].
  apply Base64More.a2b_loop_skip; assumption.
Qed.

Lemma urlsafe_b64decode_skips_junk_witness :
  junk x0a = true
  /\ Base64.urlsafe_b64decode (lit "aGVs" ++ x0a :: lit "bG8=")
     = Base64.urlsafe_b64decode (lit "aGVs" ++ lit "bG8=").
Proof.
  assert (A : junk x0a = true) by reflexivity.
  split; [exact A|].
  exact (@urlsafe_b64decode_skips_junk (lit "aGVs") (lit "bG8=") x0a A).
Defined.

(** ** UTF-8 *)

Ltac dlia := zify; Z.to_euclidean_division_equations; lia.

Ltac byte_back :=
  repeat match goal with
         | |- context [N_of_byte (byte_of_N ?n)] =>
             rewrite (@N_of_byte_of_N n) by dlia
         end.

Ltac settle :=
  repeat match goal with
         | |- context [(?a <? ?b)%N] =>
             first [ replace (a <? b)%N with true
                       by (symmetry; apply N.ltb_lt; dlia)
                   | replace (a <? b)%N with false
                       by (symmetry; apply N.ltb_ge; dlia) ]
         | |- context [(?a <=? ?b)%N] =>
             first [ replace (a <=? b)%N with true
                       by (symmetry; apply N.leb_le; dlia)
                   | replace (a <=? b)%N with false
                       by (symmetry; apply N.leb_gt; dlia) ]
         end.

(** The decoder reads back the bytes of one character. *)
Lemma utf8_decode_encode_char (surrogatepass : bool) (c : N) (bc r : bytes) :
  Utf8.encode_char c = Ok bc ->
  Utf8.decode surrogatepass (bc ++ r) = rcons c (Utf8.decode surrogatepass r).
Proof.
  unfold Utf8.encode_char.
  destruct (N.ltb_spec c 128) as [C1|C1].
  { intros H. apply Ok_inj in H. subst bc.
    cbn [Datatypes.app Utf8.decode]. byte_back. settle. reflexivity. }
  destruct (N.ltb_spec c 2048) as [C2|C2].
  { intros H. apply Ok_inj in H. subst bc.
    cbn [Datatypes.app Utf8.decode]. unfold Utf8.cont, Utf8.low6.
    byte_back. settle. cbn [andb].
    replace ((192 + c / 64 - 192) * 64 + (128 + c mod 64) mod 64)%N with c by dlia.
    reflexivity. }
  destruct (N.ltb_spec c 65536) as [C3|C3].
  { destruct (Utf8.is_surrogate c) eqn:S; [intros H; discriminate H|].
    intros H. apply Ok_inj in H. subst bc.
    cbn [Datatypes.app Utf8.decode]. unfold Utf8.cont, Utf8.low6.
    byte_back.
    replace ((224 + c / 4096 - 224) * 4096 + (128 + (c / 64) mod 64) mod 64 * 64
             + (128 + c mod 64) mod 64)%N with c by dlia.
    rewrite S. settle. cbn [andb negb]. rewrite orb_true_r. reflexivity. }
  destruct (N.ltb_spec c 1114112) as [C4|C4]; [|intros H; discriminate H].
  intros H. apply Ok_inj in H. subst bc.
  cbn [Datatypes.app Utf8.decode]. unfold Utf8.cont, Utf8.low6.
  byte_back.
  replace ((240 + c / 262144 - 240) * 262144
           + (128 + (c / 4096) mod 64) mod 64 * 4096
           + (128 + (c / 64) mod 64) mod 64 * 64
           + (128 + c mod 64) mod 64)%N with c by dlia.
  settle. cbn [andb]. reflexivity.
Qed.

Lemma utf8_decode_encode (surrogatepass : bool) (s : pystr) : forall b,
  Utf8.encode s = Ok b -> Utf8.decode surrogatepass b = Ok s.
Proof.
  induction s as [|c s IH]; intros b H; cbn [Utf8.encode] in H.
  - apply Ok_inj in H. subst b. reflexivity.
  - destruct (Utf8.encode_char c) as [bc|e] eqn:Ec; cbn [rbind] in H;
      [|discriminate H].
    destruct (Utf8.encode s) as [bs|e] eqn:Es; cbn [rbind] in H;
      [|discriminate H].
    apply Ok_inj in H. subst b.
    rewrite (@utf8_decode_encode_char surrogatepass c bc bs Ec).
    rewrite (IH bs eq_refl). reflexivity.
Qed.

(** X14: [bytes.decode("utf-8")] undoes [str.encode("utf-8")], so the
    encoding is one to one: two passwords that are different strings are
    never the same key material. *)
Theorem utf8_roundtrip (s : pystr) (b : bytes) (surrogatepass : bool) :
  Utf8.encode s = Ok b ->
  Utf8.decode surrogatepass b = Ok s
  /\ forall s', Utf8.encode s' = Ok b -> s' = s.
Proof.
  intros H. split; [exact (@utf8_decode_encode surrogatepass s b H)|].
  intros s' H'.
  pose proof (@utf8_decode_encode false s b H) as A.
  pose proof (@utf8_decode_encode false s' b H') as A'.
  rewrite A in A'. apply Ok_inj in A'. symmetry. exact A'.
Qed.

Lemma utf8_roundtrip_witness :
  Utf8.encode [104; 233; 8364; 128512]%N
  = Ok [x68; xc3; xa9; xe2; x82; xac; xf0; x9f; x98; x80]
  /\ Utf8.decode false [x68; xc3; xa9; xe2; x82; xac; xf0; x9f; x98; x80]
     = Ok [104; 233; 8364; 128512]%N.
Proof.
  assert (A : Utf8.encode [104; 233; 8364; 128512]%N
              = Ok [x68; xc3; xa9; xe2; x82; xac; xf0; x9f; x98; x80])
    by (vm_compute; reflexivity).
  split; [exact A|].
  exact (proj1 (@utf8_roundtrip [104; 233; 8364; 128512]%N _ false A)).
Defined.

(** * The rest of the script *)

(** ** The chat identifiers *)

Lemma str_split_nonempty (sep : N) (s : pystr) : str_split sep s <> [].
Proof.
  destruct s as [|c s]; cbn [str_split]; [intros H; discriminate H|].
  destruct (c =? sep)%N; [intros H; discriminate H|].
  destruct (str_split sep s); intros H; discriminate H.
Qed.

Lemma str_join_cons (sep : N) (p : pystr) (pieces : list pystr) :
  pieces <> [] -> str_join sep (p :: pieces) = p ++ sep :: str_join sep pieces.
Proof. destruct pieces; [intros H; contradiction H|]; reflexivity. Qed.

Lemma str_join_split (sep : N) (s : pystr) : str_join sep (str_split sep s) = s.
Proof.
  induction s as [|c s IH]; [reflexivity|].
  cbn [str_split]. pose proof (str_split_nonempty sep s) as NE.
  destruct (N.eqb_spec c sep) as [->|Hc].
  - rewrite str_join_cons by exact NE. rewrite IH. reflexivity.
  - destruct (str_split sep s) as [|piece pieces]; [contradiction NE; reflexivity|].
    destruct pieces as [|q pieces].
    + cbn [str_join] in *. rewrite IH. reflexivity.
    + rewrite str_join_cons by (intros H; discriminate H).
      rewrite str_join_cons in IH by (intros H; discriminate H).
      rewrite <- IH. reflexivity.
Qed.

Lemma str_split_no_sep (sep : N) (s : pystr) :
  Forall (fun piece => ~ In sep piece) (str_split sep s).
Proof.
  induction s as [|c s IH]; cbn [str_split].
  - constructor; [intros H; exact H | constructor].
  - destruct (N.eqb_spec c sep) as [->|Hc].
    + constructor; [intros H; exact H | exact IH].
    + destruct (str_split sep s) as [|piece pieces].
      * constructor; [|constructor]. intros [H|H]; [congruence | exact H].
      * apply Forall_cons_iff in IH. destruct IH as [IH1 IH2].
        constructor; [|exact IH2]. intros [H|H]; [congruence | exact (IH1 H)].
Qed.

Lemma str_split_length (sep : N) (s : pystr) :
  length (str_split sep s) = S (count_occ N.eq_dec s sep).
Proof.
  induction s as [|c s IH]; [reflexivity|].
  cbn [str_split count_occ]. pose proof (str_split_nonempty sep s) as NE.
  destruct (N.eqb_spec c sep) as [->|Hc].
  - destruct (N.eq_dec sep sep) as [_|N]; [|contradiction N; reflexivity].
    cbn [length]. rewrite IH. reflexivity.
  - destruct (N.eq_dec c sep) as [E|_]; [contradiction|].
    destruct (str_split sep s) as [|piece pieces]; [contradiction NE; reflexivity|].
    exact IH.
Qed.

(** X15: the module cannot be loaded without [CHAT_IDS]: [None] has no
    [split] and the assignment raises [AttributeError], while a missing
    [TOKEN] or [PASSWORD] goes unnoticed at this point.  When [CHAT_IDS] is
    set, the identifiers are the pieces between its commas: there is
    always at least one (for an empty value, the empty identifier), one
    more than there are commas, none holds a comma, and joined with
    commas they give the value back. *)
Theorem settings_chat_ids (environ : Environ) :
  match environ (str "CHAT_IDS") with
  | None => settings environ = Raise AttributeError
  | Some v =>
      exists s,
        settings environ = Ok s
        /\ TOKEN s = environ (str "TOKEN")
        /\ PASSWORD s = environ (str "PASSWORD")
        /\ CHAT_IDS s <> []
        /\ length (CHAT_IDS s) = S (count_occ N.eq_dec v (Json.ch ","))
        /\ Forall (fun chat_id => ~ In (Json.ch ",") chat_id) (CHAT_IDS s)
        /\ str_join (Json.ch ",") (CHAT_IDS s) = v
  end.
Proof.
  unfold settings. destruct (environ (str "CHAT_IDS")) as [v|]; [|reflexivity].
  eexists. split; [reflexivity|]. cbn [TOKEN PASSWORD CHAT_IDS].
  split; [reflexivity|]. split; [reflexivity|].
  split; [apply str_split_nonempty|].
  split; [apply str_split_length|].
  split; [apply str_split_no_sep | apply str_join_split].
Qed.

(** ** Sending *)

Section ProgramFacts.

Context {L : Library} {frame : Type} {V : Vision frame}.

(** A step of the loop, by what the network replies. *)
Lemma post_all_step (endpoint : pystr) (files : list (pystr * part))
      (chat_id : pystr) (rest : list pystr) (d : Device frame) :
  post_all endpoint files (chat_id :: rest) d
  = match dev_network d (request_to endpoint files chat_id :: dev_requests d) with
    | Answer json =>
        post_all endpoint files rest
          (add_printed (add_request d (request_to endpoint files chat_id)) json)
    | NotJson =>
        (Thrown ResponseJSONDecodeError,
         add_request d (request_to endpoint files chat_id))
    | NoAnswer =>
        (Thrown RequestException,
         add_request d (request_to endpoint files chat_id))
    end.
Proof.
  cbn [post_all]. unfold io_bind at 1. unfold post_all at 1, post_json.
  fold (request_to endpoint files chat_id). cbv zeta.
  cbn [dev_requests add_request].
  destruct (dev_network d (request_to endpoint files chat_id :: dev_requests d));
    reflexivity.
Qed.

Lemma replies_length (network : list Request -> reply) (rs : list Request) :
  forall h, length (replies network h rs) = length rs.
Proof.
  induction rs as [|r rs IH]; intros h; [reflexivity|].
  cbn [replies length]. rewrite IH. reflexivity.
Qed.

(** When each request is answered, the loop reaches every chat, in order,
    and prints each answer. *)
Lemma post_all_answered (endpoint : pystr) (files : list (pystr * part))
      (chat_ids : list pystr) :
  forall (d : Device frame) (jsons : list pyobj),
  replies (dev_network d) (dev_requests d)
    (List.map (request_to endpoint files) chat_ids)
  = List.map Answer jsons ->
  exists d',
    post_all endpoint files chat_ids d = (Returned tt, d')
    /\ dev_requests d'
       = List.rev (List.map (request_to endpoint files) chat_ids) ++ dev_requests d
    /\ dev_printed d' = List.rev jsons ++ dev_printed d
    /\ dev_world d' = dev_world d.
Proof.
  induction chat_ids as [|chat_id rest IH]; intros d jsons H.
  - destruct jsons as [|j js]; [|discriminate H].
    exists d. repeat split; reflexivity.
  - cbn [List.map replies] in H.
    destruct jsons as [|j js]; [discriminate H|].
    cbn [List.map] in H.
    pose proof (f_equal (fun l => hd NoAnswer l) H) as Hj.
    pose proof (f_equal (fun l => tl l) H) as Hrest.
    cbn [hd tl] in Hj, Hrest.
    rewrite post_all_step, Hj.
    destruct (IH (add_printed (add_request d (request_to endpoint files chat_id)) j)
                js Hrest) as (d' & E & R & P & W).
    exists d'. split; [exact E|]. split; [|split].
    + rewrite R. cbn [dev_requests add_printed add_request List.map List.rev].
      rewrite <- app_assoc. reflexivity.
    + rewrite P. cbn [dev_printed add_printed add_request List.rev].
      rewrite <- app_assoc. reflexivity.
    + rewrite W. reflexivity.
Qed.

(** Whatever the network does, the loop makes no other requests than its
    own, and leaves the world of the encryption layer alone. *)
Lemma post_all_requests (endpoint : pystr) (files : list (pystr * part))
      (chat_ids : list pystr) : forall (d : Device frame) (r : Request),
  In r (dev_requests (snd (post_all endpoint files chat_ids d))) ->
  In r (dev_requests d)
  \/ exists chat_id, In chat_id chat_ids /\ r = request_to endpoint files chat_id.
Proof.
  induction chat_ids as [|chat_id rest IH]; intros d r H.
  - left. exact H.
  - rewrite post_all_step in H.
    assert (Here : In r (request_to endpoint files chat_id :: dev_requests d) ->
                   In r (dev_requests d)
                   \/ exists c, In c (chat_id :: rest)
                                /\ r = request_to endpoint files c).
    { intros [<-|Hr]; [|left; exact Hr].
      right. exists chat_id. split; [left; reflexivity | reflexivity]. }
    destruct (dev_network d (request_to endpoint files chat_id :: dev_requests d)).
    + apply IH in H. destruct H as [H|(c & Hc & ->)].
      * apply Here. exact H.
      * right. exists c. split; [right; exact Hc | reflexivity].
    + apply Here. exact H.
    + apply Here. exact H.
Qed.

(** The loop stops at the first request that fails. *)
Lemma post_all_stops (endpoint : pystr) (files : list (pystr * part))
      (before : list pystr) (chat_id : pystr) (after : list pystr)
      (bad : reply) :
  (forall json, bad <> Answer json) ->
  forall (d : Device frame) (jsons : list pyobj),
  replies (dev_network d) (dev_requests d)
    (List.map (request_to endpoint files) (before ++ [chat_id]))
  = List.map Answer jsons ++ [bad] ->
  exists d',
    post_all endpoint files (before ++ chat_id :: after) d
    = (Thrown (match bad with
               | NotJson => ResponseJSONDecodeError
               | _ => RequestException
               end), d')
    /\ dev_requests d'
       = List.rev (List.map (request_to endpoint files) (before ++ [chat_id]))
         ++ dev_requests d
    /\ dev_printed d' = List.rev jsons ++ dev_printed d.
Proof.
  intros Hbad. induction before as [|b before IH]; intros d jsons H.
  - cbn [Datatypes.app List.map replies] in H.
    destruct jsons as [|j [|j' js]]; cbn [List.map Datatypes.app] in H;
      try discriminate H.
    pose proof (f_equal (fun l => hd NoAnswer l) H) as Hj. cbn [hd] in Hj.
    cbn [Datatypes.app]. rewrite post_all_step, Hj.
    destruct bad as [json| |].
    + exfalso. exact (Hbad json eq_refl).
    + eexists. split; [reflexivity|]. split; reflexivity.
    + eexists. split; [reflexivity|]. split; reflexivity.
  - cbn [Datatypes.app List.map replies] in H.
    destruct jsons as [|j js].
    { exfalso. apply (f_equal (@length reply)) in H.
      cbn [List.map Datatypes.app length] in H.
      rewrite replies_length, length_map, length_app in H. cbn [length] in H. lia. }
    cbn [List.map Datatypes.app] in H.
    pose proof (f_equal (fun l => hd NoAnswer l) H) as Hj.
    pose proof (f_equal (fun l => tl l) H) as Hrest.
    cbn [hd tl] in Hj, Hrest.
    cbn [Datatypes.app]. rewrite post_all_step, Hj.
    destruct (IH (add_printed (add_request d (request_to endpoint files b)) j)
                js Hrest) as (d' & E & R & P).
    exists d'. split; [exact E|]. split.
    + rewrite R. cbn [dev_requests add_printed add_request List.map List.rev].
      rewrite <- !app_assoc. reflexivity.
    + rewrite P. cbn [dev_printed add_printed add_request List.rev].
      rewrite <- app_assoc. reflexivity.
Qed.

(** [encrypt_file_and_broadcast] once the envelope is there. *)
Lemma broadcast_encrypted (filename : pystr) (file_bytes blurred_file_bytes : bytes)
      (password : pystr) (token : option pystr) (chat_ids : list pystr)
      (thumbnail : bool) (env : bytes) (w' : World) (d : Device frame) :
  encrypt_file password file_bytes (dev_world d) = (Ok env, w') ->
  encrypt_file_and_broadcast filename file_bytes blurred_file_bytes
    (Some password) token chat_ids thumbnail d
  = post_all
      (str "https://api.telegram.org/bot" ++ format_value token
       ++ str "/sendDocument")
      [(str "document",
        Named (filename ++ str ".txt") env (str "application/octet-stream"));
       (str "thumb", if thumbnail then Raw blurred_file_bytes else Absent)]
      chat_ids (set_world d w').
Proof.
  intros H. unfold encrypt_file_and_broadcast, io_bind, in_world.
  cbn [encrypt_file_env]. rewrite H. reflexivity.
Qed.

(** X16: when encryption succeeds and the network answers each request,
    [encrypt_file_and_broadcast] posts one request per chat identifier,
    in the order of [chat_ids], all with the same document: the file is
    encrypted once, so every chat gets the same envelope under the name
    [filename + ".txt"].  What it prints is the answer to each of these
    requests, in the same order, and nothing else. *)
Theorem broadcast_reaches_every_chat
        (filename : pystr) (file_bytes blurred_file_bytes : bytes)
        (password : pystr) (token : option pystr) (chat_ids : list pystr)
        (thumbnail : bool) (env : bytes) (w' : World) (jsons : list pyobj)
        (d : Device frame) :
  encrypt_file password file_bytes (dev_world d) = (Ok env, w') ->
  replies (dev_network d) (dev_requests d)
    (List.map
       (send_document token filename env
          (if thumbnail then Raw blurred_file_bytes else Absent))
       chat_ids)
  = List.map Answer jsons ->
  exists d',
    encrypt_file_and_broadcast filename file_bytes blurred_file_bytes
      (Some password) token chat_ids thumbnail d = (Returned tt, d')
    /\ dev_requests d'
       = List.rev
           (List.map
              (send_document token filename env
                 (if thumbnail then Raw blurred_file_bytes else Absent))
              chat_ids)
         ++ dev_requests d
    /\ dev_printed d' = List.rev jsons ++ dev_printed d
    /\ dev_world d' = w'.
Proof.
  intros Henc Hnet.
  rewrite (@broadcast_encrypted filename file_bytes blurred_file_bytes
             password token chat_ids thumbnail env w' d Henc).
  destruct (@post_all_answered
              (str "https://api.telegram.org/bot" ++ format_value token
               ++ str "/sendDocument")
              [(str "document",
                Named (filename ++ str ".txt") env
                      (str "application/octet-stream"));
               (str "thumb",
                if thumbnail then Raw blurred_file_bytes else Absent)]
              chat_ids (set_world d w') jsons Hnet) as (d' & E & R & P & W).
  exists d'. split; [exact E|]. split; [exact R|]. split; [exact P | exact W].
Qed.

(** The requests of [encrypt_file_and_broadcast], whatever the network
    does. *)
Lemma broadcast_requests (HL : LibraryOk L)
        (filename : pystr) (file_bytes blurred_file_bytes key_material : bytes)
        (password : pystr) (token : option pystr) (chat_ids : list pystr)
        (thumbnail : bool) (d : Device frame) :
  Utf8.encode password = Ok key_material ->
  clock_ok (dev_world d) ->
  exists env,
    fst (encrypt_file password file_bytes (dev_world d)) = Ok env
    /\ (forall w2, fst (decrypt_file password env w2) = Ok file_bytes)
    /\ forall r,
        In r (dev_requests
                (snd (encrypt_file_and_broadcast filename file_bytes
                        blurred_file_bytes (Some password) token chat_ids
                        thumbnail d))) ->
        In r (dev_requests d)
        \/ exists chat_id,
            In chat_id chat_ids
            /\ r = send_document token filename env
                     (if thumbnail then Raw blurred_file_bytes else Absent)
                     chat_id.
Proof.
  intros Hpw Hclock.
  destruct (derive_default_ok HL key_material (draw (dev_world d) 32))
    as (k & Hk & Hlen).
  destruct (FernetFacts.to_bytes8_ok Hclock) as [ts Hts].
  pose proof (@encrypt_file_spec L HL password file_bytes key_material k ts
                (dev_world d) Hpw Hk Hts) as Henc.
  eexists. split; [rewrite Henc; reflexivity|]. split.
  - intros w2. erewrite decrypt_file_envelope by eassumption. cbn [fst].
    rewrite Hk. apply FernetFacts.decrypt_token.
    + exact HL.
    + exact Hlen.
    + eapply FernetFacts.to_bytes8_length; eassumption.
    + apply draw_length.
  - intros r Hr.
    rewrite (@broadcast_encrypted filename file_bytes blurred_file_bytes password
               token chat_ids thumbnail _ _ d Henc) in Hr.
    apply post_all_requests in Hr. exact Hr.
Qed.

(** X17: whatever the network does, every request that
    [encrypt_file_and_broadcast] makes goes to the [sendDocument] address
    of the token for one of the given chats and carries the envelope as
    its document, an envelope that [decrypt_file] opens to the file under
    the password; the thumbnail is absent unless [thumbnail] is set, and
    then it is the blurred picture as it is, not encrypted. *)
Theorem broadcast_sends_only_the_envelope (HL : LibraryOk L)
        (filename : pystr) (file_bytes blurred_file_bytes key_material : bytes)
        (password : pystr) (token : option pystr) (chat_ids : list pystr)
        (thumbnail : bool) (d : Device frame) :
  Utf8.encode password = Ok key_material ->
  clock_ok (dev_world d) ->
  exists env,
    fst (encrypt_file password file_bytes (dev_world d)) = Ok env
    /\ (forall w2, fst (decrypt_file password env w2) = Ok file_bytes)
    /\ forall r,
        In r (dev_requests
                (snd (encrypt_file_and_broadcast filename file_bytes
                        blurred_file_bytes (Some password) token chat_ids
                        thumbnail d))) ->
        In r (dev_requests d)
        \/ exists chat_id,
            In chat_id chat_ids
            /\ r = send_document token filename env
                     (if thumbnail then Raw blurred_file_bytes else Absent)
                     chat_id.
Proof.
  intros Hpw Hclock.
  exact (@broadcast_requests HL filename file_bytes blurred_file_bytes
           key_material password token chat_ids thumbnail d Hpw Hclock).
Qed.

(** X18: there is no retry and no skipping: when a request fails, because
    no answer comes or because the answer is not JSON,
    [encrypt_file_and_broadcast] raises at once.  The requests for the
    chats before the failing one were made and their answers printed, in
    order; the failing request was made and nothing is printed for it;
    the chats after it are never contacted. *)
Theorem broadcast_stops_at_first_failure
        (filename : pystr) (file_bytes blurred_file_bytes : bytes)
        (password : pystr) (token : option pystr)
        (before : list pystr) (chat_id : pystr) (after : list pystr)
        (thumbnail : bool) (env : bytes) (w' : World) (bad : reply)
        (jsons : list pyobj) (d : Device frame) :
  encrypt_file password file_bytes (dev_world d) = (Ok env, w') ->
  (forall json, bad <> Answer json) ->
  replies (dev_network d) (dev_requests d)
    (List.map
       (send_document token filename env
          (if thumbnail then Raw blurred_file_bytes else Absent))
       (before ++ [chat_id]))
  = List.map Answer jsons ++ [bad] ->
  exists d',
    encrypt_file_and_broadcast filename file_bytes blurred_file_bytes
      (Some password) token (before ++ chat_id :: after) thumbnail d
    = (Thrown (match bad with
               | NotJson => ResponseJSONDecodeError
               | _ => RequestException
               end), d')
    /\ dev_requests d'
       = List.rev
           (List.map
              (send_document token filename env
                 (if thumbnail then Raw blurred_file_bytes else Absent))
              (before ++ [chat_id]))
         ++ dev_requests d
    /\ dev_printed d' = List.rev jsons ++ dev_printed d
    /\ length jsons = length before.
Proof.
  intros Henc Hbad Hnet.
  rewrite (@broadcast_encrypted filename file_bytes blurred_file_bytes
             password token (before ++ chat_id :: after) thumbnail env w' d Henc).
  destruct (@post_all_stops
              (str "https://api.telegram.org/bot" ++ format_value token
               ++ str "/sendDocument")
              [(str "document",
                Named (filename ++ str ".txt") env
                      (str "application/octet-stream"));
               (str "thumb",
                if thumbnail then Raw blurred_file_bytes else Absent)]
              before chat_id after bad Hbad (set_world d w') jsons Hnet)
    as (d' & E & R & P).
  exists d'. split; [exact E|]. split; [exact R|]. split; [exact P|].
  apply (f_equal (@length reply)) in Hnet.
  rewrite replies_length, !length_map, !length_app, length_map in Hnet.
  cbn [length] in Hnet. lia.
Qed.

(** ** The camera *)

Lemma capture_image_returns (d : Device frame) (f : frame) (rest : list frame) :
  cam_ready d = true -> cam_frames d = f :: rest ->
  exists d',
    capture_image d
    = (Returned (imencode (str ".jpg") f 20,
                 imencode (str ".jpg") (blur f (60, 60)) 20), d')
    /\ dev_world d' = dev_world d /\ dev_now d' = dev_now d
    /\ dev_network d' = dev_network d /\ dev_requests d' = dev_requests d
    /\ dev_printed d' = dev_printed d
    /\ cam_frames d' = rest /\ cam_open d' = false.
Proof.
  intros Hr Hf.
  unfold capture_image, io_bind, VideoCapture, isOpened, camera_read,
    camera_release, io_ret.
  cbn [cam_open cam_frames set_camera]. rewrite Hr, Hf.
  eexists. split; [reflexivity|]. cbn. repeat split; reflexivity.
Qed.

Lemma capture_image_fails (d : Device frame) :
  cam_ready d = false \/ cam_frames d = [] ->
  exists d',
    capture_image d = (Thrown CameraInaccessible, d')
    /\ dev_world d' = dev_world d /\ dev_requests d' = dev_requests d
    /\ dev_printed d' = dev_printed d
    /\ cam_frames d' = cam_frames d /\ cam_open d' = cam_ready d.
Proof.
  intros H.
  unfold capture_image, io_bind, VideoCapture, isOpened, camera_read,
    camera_release, io_ret, throw.
  cbn [cam_open cam_frames set_camera].
  destruct (cam_ready d) eqn:Hr.
  - destruct H as [H|H]; [discriminate H|]. rewrite H.
    eexists. split; [reflexivity|]. cbn. repeat split; reflexivity.
  - eexists. split; [reflexivity|]. cbn. repeat split; reflexivity.
Qed.

(** X19: [capture_image] releases the camera only on success.  When it
    returns, it has read exactly one frame, the capture is released, and
    the two results are the JPEG of that frame and the JPEG of its blur.
    When it raises, the exception is the one for an inaccessible camera,
    no frame was consumed, and a capture that could be opened but gave no
    frame is left open.  In both cases nothing is sent or printed and no
    randomness is drawn. *)
Theorem capture_image_releases_on_success_only (d : Device frame) :
  (forall photo d',
      capture_image d = (Returned photo, d') ->
      exists f rest,
        cam_ready d = true /\ cam_frames d = f :: rest
        /\ photo = (imencode (str ".jpg") f 20,
                    imencode (str ".jpg") (blur f (60, 60)) 20)
        /\ cam_frames d' = rest /\ cam_open d' = false)
  /\ (forall e d',
         capture_image d = (Thrown e, d') ->
         e = CameraInaccessible
         /\ (cam_ready d = false \/ cam_frames d = [])
         /\ cam_frames d' = cam_frames d /\ cam_open d' = cam_ready d)
  /\ dev_requests (snd (capture_image d)) = dev_requests d
  /\ dev_printed (snd (capture_image d)) = dev_printed d
  /\ dev_world (snd (capture_image d)) = dev_world d.
Proof.
  destruct (cam_ready d) eqn:Hr; [destruct (cam_frames d) as [|f rest] eqn:Hf|].
  - destruct (@capture_image_fails d (or_intror Hf))
      as (d1 & E & W & R & P & F & O).
    rewrite E. cbn [snd]. split; [|split; [|split; [|split]]]; try assumption.
    + intros photo d' H. discriminate H.
    + intros e d' H. injection H as <- <-.
      split; [reflexivity|]. split; [right; reflexivity|].
      rewrite Hf, Hr in *. split; assumption.
  - destruct (@capture_image_returns d f rest Hr Hf)
      as (d1 & E & W & _ & _ & R & P & F & O).
    rewrite E. cbn [snd]. split; [|split; [|split; [|split]]]; try assumption.
    + intros photo d' H. injection H as <- <-.
      exists f, rest. repeat split; assumption.
    + intros e d' H. discriminate H.
  - destruct (@capture_image_fails d (or_introl Hr))
      as (d1 & E & W & R & P & F & O).
    rewrite E. cbn [snd]. split; [|split; [|split; [|split]]]; try assumption.
    + intros photo d' H. discriminate H.
    + intros e d' H. injection H as <- <-.
      split; [reflexivity|]. split; [left; reflexivity|].
      rewrite Hr in *. split; assumption.
Qed.

(** ** The script *)

(** X20: without a picture nothing leaves the machine: when the camera
    cannot be opened or gives no frame, the script raises before it
    encrypts anything; no request is made, nothing is printed, and no
    randomness is drawn. *)
Theorem main_without_camera (s : Settings) (d : Device frame) :
  cam_ready d = false \/ cam_frames d = [] ->
  exists d',
    main s d = (Thrown CameraInaccessible, d')
    /\ dev_requests d' = dev_requests d
    /\ dev_printed d' = dev_printed d
    /\ dev_world d' = dev_world d.
Proof.
  intros H. destruct (@capture_image_fails d H) as (d' & E & W & R & P & _).
  exists d'. unfold main, io_bind, now_isoformat. rewrite E.
  repeat split; assumption.
Qed.

(** X21: the script sends the photograph only encrypted.  With a password
    that can be encoded and a camera that delivers a frame, every request
    the script makes carries, as [<timestamp>.jpg.txt], an envelope that
    [decrypt_file] opens under the password to the JPEG of the frame, and
    no thumbnail: the blurred picture that [capture_image] also makes is
    never sent. *)
Theorem main_sends_the_photo_encrypted (HL : LibraryOk L)
        (s : Settings) (password : pystr) (key_material : bytes)
        (f : frame) (rest : list frame) (d : Device frame) :
  PASSWORD s = Some password ->
  Utf8.encode password = Ok key_material ->
  clock_ok (dev_world d) ->
  cam_ready d = true ->
  cam_frames d = f :: rest ->
  exists env,
    (forall w2,
        fst (decrypt_file password env w2) = Ok (imencode (str ".jpg") f 20))
    /\ forall r,
        In r (dev_requests (snd (main s d))) ->
        In r (dev_requests d)
        \/ exists chat_id,
            In chat_id (CHAT_IDS s)
            /\ r = send_document (TOKEN s) (dev_now d ++ str ".jpg") env Absent
                     chat_id.
Proof.
  intros Hs Hpw Hclock Hr Hf.
  destruct (@capture_image_returns d f rest Hr Hf)
    as (d1 & E & W & N & _ & R & _ & _ & _).
  assert (Hclock1 : clock_ok (dev_world d1)) by (rewrite W; exact Hclock).
  destruct (@broadcast_requests HL (dev_now d ++ str ".jpg")
              (imencode (str ".jpg") f 20)
              (imencode (str ".jpg") (blur f (60, 60)) 20)
              key_material password (TOKEN s) (CHAT_IDS s) false d1 Hpw Hclock1)
    as (env & _ & Hdec & Hreq).
  exists env. split; [exact Hdec|].
  intros r Hin. rewrite <- R. apply Hreq.
  unfold main, io_bind, now_isoformat in Hin. rewrite E in Hin.
  cbn [fst snd] in Hin. rewrite Hs in Hin. exact Hin.
Qed.

(** X22: a missing [PASSWORD] is noticed late: the module loads, the
    photograph is taken and a salt is drawn before [None.encode] raises
    [AttributeError]; no key is derived and no request is made. *)
Theorem script_without_password (environ : Environ) (v : pystr)
        (f : frame) (rest : list frame) (d : Device frame) :
  environ (str "CHAT_IDS") = Some v ->
  environ (str "PASSWORD") = None ->
  cam_ready d = true ->
  cam_frames d = f :: rest ->
  exists d',
    script environ d = (Thrown (Python AttributeError), d')
    /\ dev_requests d' = dev_requests d
    /\ cam_frames d' = rest
    /\ cursor (dev_world d') = cursor (dev_world d) + 32
    /\ derivations (dev_world d') = derivations (dev_world d).
Proof.
  intros Hc Hp Hr Hf.
  destruct (@capture_image_returns d f rest Hr Hf)
    as (d1 & E & W & _ & _ & R & _ & F & _).
  unfold script, settings. rewrite Hc, Hp. cbn [rbind].
  unfold main, io_bind, now_isoformat. rewrite E.
  cbn [fst snd PASSWORD TOKEN CHAT_IDS].
  unfold encrypt_file_and_broadcast, io_bind, in_world.
  cbn [encrypt_file_env].
  unfold bind at 1. unfold os_urandom at 1.
  rewrite bind_lift, Scrypt_init_default.
  unfold lift. cbn [encode_utf8].
  eexists. split; [reflexivity|].
  cbn [dev_requests dev_world set_world cam_frames cursor derivations].
  rewrite W. repeat split; assumption.
Qed.

End ProgramFacts.

(** ** The script on the example device *)

Lemma example_envelope :
  encrypt_file (L := Toy.library) Example.password Example.plaintext Toy.world
  = (Ok Example.file,
     snd (encrypt_file (L := Toy.library) Example.password Example.plaintext
            Toy.world)).
Proof. vm_compute. reflexivity. Qed.

Lemma broadcast_reaches_every_chat_witness :
  encrypt_file (L := Toy.library) Example.password Example.plaintext
    (dev_world ToyDevice.device)
  = (Ok Example.file,
     snd (encrypt_file (L := Toy.library) Example.password Example.plaintext
            Toy.world))
  /\ replies (dev_network ToyDevice.device) (dev_requests ToyDevice.device)
       (List.map
          (send_document (Some (str "123:abc")) (str "photo.jpg") Example.file
             Absent)
          [str "11"; str "22"])
     = List.map Answer [PyInt 1; PyInt 2]
  /\ exists d',
      encrypt_file_and_broadcast (L := Toy.library) (str "photo.jpg")
        Example.plaintext (lit "blurred") (Some Example.password)
        (Some (str "123:abc")) [str "11"; str "22"] false ToyDevice.device
      = (Returned tt, d')
      /\ dev_requests d'
         = [send_document (Some (str "123:abc")) (str "photo.jpg") Example.file
              Absent (str "22");
            send_document (Some (str "123:abc")) (str "photo.jpg") Example.file
              Absent (str "11")]
      /\ dev_printed d' = [PyInt 2; PyInt 1].
Proof.
  assert (A : encrypt_file (L := Toy.library) Example.password Example.plaintext
                (dev_world ToyDevice.device)
              = (Ok Example.file,
                 snd (encrypt_file (L := Toy.library) Example.password
                        Example.plaintext Toy.world)))
    by exact example_envelope.
  assert (B : replies (dev_network ToyDevice.device)
                (dev_requests ToyDevice.device)
                (List.map
                   (send_document (Some (str "123:abc")) (str "photo.jpg")
                      Example.file Absent)
                   [str "11"; str "22"])
              = List.map Answer [PyInt 1; PyInt 2]) by reflexivity.
  split; [exact A|]. split; [exact B|].
  destruct (@broadcast_reaches_every_chat Toy.library bytes (str "photo.jpg")
              Example.plaintext (lit "blurred") Example.password
              (Some (str "123:abc")) [str "11"; str "22"] false _ _
              [PyInt 1; PyInt 2] ToyDevice.device A B) as (d' & E & R & P & _).
  exists d'. split; [exact E|]. split; [exact R | exact P].
Defined.

Lemma broadcast_sends_only_the_envelope_witness :
  LibraryOk Toy.library
  /\ Utf8.encode (str "correct horse") = Ok (lit "correct horse")
  /\ clock_ok (dev_world ToyDevice.device_offline)
  /\ exists env,
      (forall w2,
          fst (decrypt_file (L := Toy.library) (str "correct horse") env w2)
          = Ok (lit "hello world"))
      /\ forall r,
          In r (dev_requests
                  (snd (encrypt_file_and_broadcast (L := Toy.library)
                          (str "photo.jpg") (lit "hello world") (lit "blurred")
                          (Some (str "correct horse")) (Some (str "123:abc"))
                          [str "11"; str "22"] true ToyDevice.device_offline))) ->
          In r (dev_requests ToyDevice.device_offline)
          \/ exists chat_id,
              In chat_id [str "11"; str "22"]
              /\ r = send_document (Some (str "123:abc")) (str "photo.jpg") env
                       (Raw (lit "blurred")) chat_id.
Proof.
  assert (A : Utf8.encode (str "correct horse") = Ok (lit "correct horse"))
    by (vm_compute; reflexivity).
  assert (B : clock_ok (dev_world ToyDevice.device_offline))
    by (unfold clock_ok; cbn; lia).
  split; [exact ToyFacts.library_ok|]. split; [exact A|]. split; [exact B|].
  destruct (@broadcast_sends_only_the_envelope Toy.library bytes
              ToyFacts.library_ok (str "photo.jpg") (lit "hello world")
              (lit "blurred") _ (str "correct horse") (Some (str "123:abc"))
              [str "11"; str "22"] true ToyDevice.device_offline A B)
    as (env & _ & D & R).
  exists env. split; [exact D | exact R].
Defined.

Lemma broadcast_stops_at_first_failure_witness :
  encrypt_file (L := Toy.library) Example.password Example.plaintext
    (dev_world ToyDevice.device_offline)
  = (Ok Example.file,
     snd (encrypt_file (L := Toy.library) Example.password Example.plaintext
            Toy.world))
  /\ (forall json, NoAnswer <> Answer json)
  /\ replies (dev_network ToyDevice.device_offline)
       (dev_requests ToyDevice.device_offline)
       (List.map
          (send_document (Some (str "123:abc")) (str "photo.jpg") Example.file
             Absent)
          ([str "11"] ++ [str "22"]))
     = List.map Answer [PyBool true] ++ [NoAnswer]
  /\ exists d',
      encrypt_file_and_broadcast (L := Toy.library) (str "photo.jpg")
        Example.plaintext (lit "blurred") (Some Example.password)
        (Some (str "123:abc")) ([str "11"] ++ str "22" :: [str "33"]) false
        ToyDevice.device_offline
      = (Thrown RequestException, d')
      /\ dev_requests d'
         = [send_document (Some (str "123:abc")) (str "photo.jpg") Example.file
              Absent (str "22");
            send_document (Some (str "123:abc")) (str "photo.jpg") Example.file
              Absent (str "11")]
      /\ dev_printed d' = [PyBool true].
Proof.
  assert (A : encrypt_file (L := Toy.library) Example.password Example.plaintext
                (dev_world ToyDevice.device_offline)
              = (Ok Example.file,
                 snd (encrypt_file (L := Toy.library) Example.password
                        Example.plaintext Toy.world)))
    by exact example_envelope.
  assert (B : forall json, NoAnswer <> Answer json)
    by (intros json H; discriminate H).
  assert (C : replies (dev_network ToyDevice.device_offline)
                (dev_requests ToyDevice.device_offline)
                (List.map
                   (send_document (Some (str "123:abc")) (str "photo.jpg")
                      Example.file Absent)
                   ([str "11"] ++ [str "22"]))
              = List.map Answer [PyBool true] ++ [NoAnswer]) by reflexivity.
  split; [exact A|]. split; [exact B|]. split; [exact C|].
  destruct (@broadcast_stops_at_first_failure Toy.library bytes (str "photo.jpg")
              Example.plaintext (lit "blurred") Example.password
              (Some (str "123:abc")) [str "11"] (str "22") [str "33"] false
              _ _ NoAnswer [PyBool true] ToyDevice.device_offline A B C)
    as (d' & E & R & P & _).
  exists d'. split; [exact E|]. split; [exact R | exact P].
Defined.

Lemma main_without_camera_witness :
  (cam_ready ToyDevice.device_dark = false \/ cam_frames ToyDevice.device_dark = [])
  /\ exists d',
      main (L := Toy.library) (V := ToyDevice.vision) ToyDevice.example_settings
        ToyDevice.device_dark
      = (Thrown CameraInaccessible, d')
      /\ dev_requests d' = dev_requests ToyDevice.device_dark
      /\ dev_printed d' = dev_printed ToyDevice.device_dark
      /\ dev_world d' = dev_world ToyDevice.device_dark.
Proof.
  assert (A : cam_ready ToyDevice.device_dark = false
              \/ cam_frames ToyDevice.device_dark = [])
    by (right; reflexivity).
  split; [exact A|].
  exact (@main_without_camera Toy.library bytes ToyDevice.vision
           ToyDevice.example_settings ToyDevice.device_dark A).
Defined.

Lemma main_sends_the_photo_encrypted_witness :
  LibraryOk Toy.library
  /\ PASSWORD ToyDevice.example_settings = Some (str "correct horse")
  /\ Utf8.encode (str "correct horse") = Ok (lit "correct horse")
  /\ clock_ok (dev_world ToyDevice.device)
  /\ cam_ready ToyDevice.device = true
  /\ cam_frames ToyDevice.device = [lit "frame one"; lit "frame two"]
  /\ exists env,
      (forall w2,
          fst (decrypt_file (L := Toy.library) (str "correct horse") env w2)
          = Ok (imencode (Vision := ToyDevice.vision) (str ".jpg")
                  (lit "frame one") 20))
      /\ forall r,
          In r (dev_requests
                  (snd (main (L := Toy.library) (V := ToyDevice.vision)
                          ToyDevice.example_settings ToyDevice.device))) ->
          In r (dev_requests ToyDevice.device)
          \/ exists chat_id,
              In chat_id (CHAT_IDS ToyDevice.example_settings)
              /\ r = send_document (TOKEN ToyDevice.example_settings)
                       (dev_now ToyDevice.device ++ str ".jpg") env Absent
                       chat_id.
Proof.
  assert (A : PASSWORD ToyDevice.example_settings = Some (str "correct horse"))
    by reflexivity.
  assert (B : Utf8.encode (str "correct horse") = Ok (lit "correct horse"))
    by (vm_compute; reflexivity).
  assert (C : clock_ok (dev_world ToyDevice.device))
    by (unfold clock_ok; cbn; lia).
  assert (D : cam_ready ToyDevice.device = true) by reflexivity.
  assert (E : cam_frames ToyDevice.device = [lit "frame one"; lit "frame two"])
    by reflexivity.
  split; [exact ToyFacts.library_ok|]. split; [exact A|]. split; [exact B|].
  split; [exact C|]. split; [exact D|]. split; [exact E|].
  exact (@main_sends_the_photo_encrypted Toy.library bytes ToyDevice.vision
           ToyFacts.library_ok ToyDevice.example_settings _ _ _ _
           ToyDevice.device A B C D E).
Defined.

Lemma script_without_password_witness :
  ToyDevice.environ_without_password (str "CHAT_IDS") = Some (str "11,22,33")
  /\ ToyDevice.environ_without_password (str "PASSWORD") = None
  /\ cam_ready ToyDevice.device = true
  /\ cam_frames ToyDevice.device = [lit "frame one"; lit "frame two"]
  /\ exists d',
      script (L := Toy.library) (V := ToyDevice.vision)
        ToyDevice.environ_without_password ToyDevice.device
      = (Thrown (Python AttributeError), d')
      /\ dev_requests d' = dev_requests ToyDevice.device
      /\ cam_frames d' = [lit "frame two"]
      /\ cursor (dev_world d') = cursor (dev_world ToyDevice.device) + 32
      /\ derivations (dev_world d') = derivations (dev_world ToyDevice.device).
Proof.
  assert (A : ToyDevice.environ_without_password (str "CHAT_IDS")
              = Some (str "11,22,33")) by reflexivity.
  assert (B : ToyDevice.environ_without_password (str "PASSWORD") = None)
    by reflexivity.
  assert (C : cam_ready ToyDevice.device = true) by reflexivity.
  assert (D : cam_frames ToyDevice.device = [lit "frame one"; lit "frame two"])
    by reflexivity.
  split; [exact A|]. split; [exact B|]. split; [exact C|]. split; [exact D|].
  exact (@script_without_password Toy.library bytes ToyDevice.vision
           ToyDevice.environ_without_password _ _ _ ToyDevice.device A B C D).
Defined.

(** * How [encrypt_file] can fail, and what its envelope tells *)

Lemma utf8_encode_raise (s : pystr) (e : exn) :
  Utf8.encode s = Raise e -> e = UnicodeEncodeError.
Proof.
  induction s as [|c s IH]; cbn [Utf8.encode]; [intros H; discriminate H|].
  destruct (Utf8.encode_char c) as [b|e0] eqn:Ec; cbn [rbind].
  - destruct (Utf8.encode s) as [bs|e1]; cbn [rbind]; [intros H; discriminate H|].
    intros H. apply IH. exact H.
  - apply encode_char_raise in Ec. subst e0. intros H.
    apply (f_equal (fun r => match r with Raise x => x | Ok _ => e end)) in H.
    symmetry. exact H.
Qed.

Lemma to_bytes8_raise (z : Z) (e : exn) :
  Fernet.to_bytes8 z = Raise e -> e = OverflowError /\ ~ (0 <= z < 2 ^ 64)%Z.
Proof.
  unfold Fernet.to_bytes8.
  destruct ((0 <=? z)%Z && (z <? 2 ^ 64)%Z) eqn:E; [intros H; discriminate H|].
  intros H. split.
  - apply (f_equal (fun r => match r with Raise x => x | Ok _ => e end)) in H.
    symmetry. exact H.
  - intros [A B]. apply andb_false_iff in E. destruct E as [E|E].
    + apply Z.leb_gt in E. lia.
    + apply Z.ltb_ge in E. lia.
Qed.

Lemma encrypt_overflow {L : Library} (f : Fernet.t) (data : bytes) (e : exn)
      (w : World) :
  Fernet.to_bytes8 (clock w) = Raise e ->
  Fernet.encrypt f data w = (Raise e, advance w 16).
Proof.
  intros H. unfold Fernet.encrypt, bind, time_time, os_urandom, lift, ret.
  cbv beta iota zeta. rewrite H. reflexivity.
Qed.

(** X23: with the scrypt of the host working at the default cost,
    [encrypt_file] fails in two ways only.  A password without a UTF-8
    encoding raises [UnicodeEncodeError] when only the salt has been
    drawn; a clock outside the eight bytes of a Fernet time stamp raises
    [OverflowError] after the key has been derived and the initialisation
    vector drawn. *)
Theorem encrypt_file_failures {L : Library} (HL : LibraryOk L)
        (password : pystr) (file_bytes : bytes) (w w' : World) (e : exn) :
  encrypt_file password file_bytes w = (Raise e, w') ->
  (e = UnicodeEncodeError
   /\ Utf8.encode password = Raise UnicodeEncodeError
   /\ w' = advance w 32)
  \/ (e = OverflowError
      /\ ~ clock_ok w
      /\ cursor w' = cursor w + 48
      /\ exists c, derivations w' = c :: derivations w).
Proof.
  intros H.
  destruct (Utf8.encode password) as [km|e0] eqn:Hpw.
  - right.
    destruct (derive_default_ok HL km (draw w 32)) as (k & Hk & Hlen).
    destruct (Fernet.to_bytes8 (clock w)) as [ts|e1] eqn:Hts.
    + rewrite (@encrypt_file_spec L HL password file_bytes km k ts w Hpw Hk Hts)
        in H.
      apply (f_equal fst) in H. cbn [fst] in H. discriminate H.
    + destruct (to_bytes8_raise _ Hts) as [-> Hclock].
      unfold encrypt_file in H.
      unfold bind at 1 in H. unfold os_urandom at 1 in H.
      fold (draw w 32) in H. fold (advance w 32) in H.
      rewrite bind_lift, Scrypt_init_default in H.
      rewrite bind_lift in H. cbn [encode_utf8] in H. rewrite Hpw in H.
      unfold bind at 1 in H. rewrite Scrypt_derive_spec in H.
      cbn [_length _salt _n _r _p as_int rbind] in H. cbv zeta in H.
      rewrite Hk in H.
      rewrite bind_lift, FernetFacts.init_encode, Hlen in H. cbn [Nat.eqb] in H.
      unfold bind at 1 in H.
      erewrite (@encrypt_overflow L (fernet_of k) file_bytes OverflowError) in H
        by exact Hts.
      pose proof (f_equal fst H) as He. pose proof (f_equal snd H) as Hw.
      cbn [fst snd] in He, Hw. subst w'.
      apply (f_equal (fun r => match r with Raise x => x | Ok _ => e end)) in He.
      split; [symmetry; exact He|]. split; [exact Hclock|].
      cbn [cursor derivations advance logged]. split; [lia|].
      eexists. reflexivity.
  - left. apply utf8_encode_raise in Hpw as He0. subst e0.
    unfold encrypt_file in H.
    unfold bind at 1 in H. unfold os_urandom at 1 in H. fold (advance w 32) in H.
    rewrite bind_lift, Scrypt_init_default in H.
    rewrite bind_lift in H. cbn [encode_utf8] in H. rewrite Hpw in H.
    pose proof (f_equal fst H) as He. pose proof (f_equal snd H) as Hw.
    cbn [fst snd] in He, Hw. subst w'.
    apply (f_equal (fun r => match r with Raise x => x | Ok _ => e end)) in He.
    split; [symmetry; exact He|]. split; reflexivity.
Qed.

Lemma encrypt_file_failures_witness :
  LibraryOk Toy.library
  /\ encrypt_file (L := Toy.library) [104; 55357; 105]%N (lit "hello world")
       Toy.world
     = (Raise UnicodeEncodeError, advance Toy.world 32)
  /\ ((UnicodeEncodeError = UnicodeEncodeError
       /\ Utf8.encode [104; 55357; 105]%N = Raise UnicodeEncodeError
       /\ advance Toy.world 32 = advance Toy.world 32)
      \/ (UnicodeEncodeError = OverflowError
          /\ ~ clock_ok Toy.world
          /\ cursor (advance Toy.world 32) = cursor Toy.world + 48
          /\ exists c,
              derivations (advance Toy.world 32) = c :: derivations Toy.world)).
Proof.
  assert (A : encrypt_file (L := Toy.library) [104; 55357; 105]%N
                (lit "hello world") Toy.world
              = (Raise UnicodeEncodeError, advance Toy.world 32))
    by (vm_compute; reflexivity).
  split; [exact ToyFacts.library_ok|]. split; [exact A|].
  exact (@encrypt_file_failures Toy.library ToyFacts.library_ok
           [104; 55357; 105]%N (lit "hello world") Toy.world
           (advance Toy.world 32) UnicodeEncodeError A).
Defined.

(** ** The time stamp *)

Lemma N_of_byte_of_N_mod (n : N) : N_of_byte (byte_of_N n) = (n mod 256)%N.
Proof.
  assert (E : byte_of_N n = byte_of_N (n mod 256)).
  { unfold byte_of_N. rewrite N.Div0.mod_mod. reflexivity. }
  rewrite E. apply N_of_byte_of_N. apply N.mod_lt. discriminate.
Qed.

(** [int.from_bytes] undoes [int.to_bytes] on eight bytes. *)
Lemma from_bytes_to_bytes8 (z : Z) (ts : bytes) :
  Fernet.to_bytes8 z = Ok ts -> from_bytes ts = z.
Proof.
  unfold Fernet.to_bytes8.
  destruct ((0 <=? z)%Z && (z <? 2 ^ 64)%Z) eqn:E; [|intros H; discriminate H].
  apply andb_true_iff in E. destruct E as [E1 E2].
  apply Z.leb_le in E1. apply Z.ltb_lt in E2.
  intros H. apply Ok_inj in H. subst ts.
  unfold from_bytes. cbn [List.map fold_left].
  rewrite !N_of_byte_of_N_mod.
  rewrite !Z.shiftr_div_pow2 by lia.
  assert (P : forall x, (0 <= x)%Z ->
                        Z.of_N (Z.to_N x mod 256) = (x mod 256)%Z).
  { intros x Hx. rewrite N2Z.inj_mod, Z2N.id by exact Hx. reflexivity. }
  rewrite !P by (apply Z.div_pos; lia).
  change (8 * Z.of_nat 7)%Z with 56%Z. change (8 * Z.of_nat 6)%Z with 48%Z.
  change (8 * Z.of_nat 5)%Z with 40%Z. change (8 * Z.of_nat 4)%Z with 32%Z.
  change (8 * Z.of_nat 3)%Z with 24%Z. change (8 * Z.of_nat 2)%Z with 16%Z.
  change (8 * Z.of_nat 1)%Z with 8%Z. change (8 * Z.of_nat 0)%Z with 0%Z.
  change (2 ^ 56)%Z with 72057594037927936%Z.
  change (2 ^ 48)%Z with 281474976710656%Z.
  change (2 ^ 40)%Z with 1099511627776%Z.
  change (2 ^ 32)%Z with 4294967296%Z.
  change (2 ^ 24)%Z with 16777216%Z.
  change (2 ^ 16)%Z with 65536%Z.
  change (2 ^ 8)%Z with 256%Z.
  change (2 ^ 0)%Z with 1%Z.
  change (2 ^ 64)%Z with 18446744073709551616%Z in E2.
  Z.to_euclidean_division_equations. lia.
Qed.

(** X24: an envelope tells when it was made.  The [ciphertext_b64] field,
    decoded from base64 twice (the Fernet token is base64 already and
    [encrypt_file] encodes it once more), holds the time of the call in
    the clear, as the eight bytes after the first: no password is needed
    to read it. *)
Theorem envelope_reveals_time {L : Library} (HL : LibraryOk L)
        (password : pystr) (file_bytes key_material : bytes) (w : World) :
  Utf8.encode password = Ok key_material ->
  clock_ok w ->
  exists env w' data,
    encrypt_file password file_bytes w = (Ok env, w')
    /\ (em <- Json.loads env ;;
        c <- getitem em (str "ciphertext_b64") ;;
        b <- encode_utf8 c ;;
        token <- Base64.urlsafe_b64decode b ;;
        Base64.urlsafe_b64decode token)%result = Ok data
    /\ from_bytes (firstn 8 (skipn 1 data)) = clock w.
Proof.
  intros Hpw Hclock.
  destruct (derive_default_ok HL key_material (draw w 32)) as (k & Hk & Hlen).
  destruct (FernetFacts.to_bytes8_ok Hclock) as [ts Hts].
  pose proof (FernetFacts.to_bytes8_length _ Hts) as T8.
  eexists. eexists. eexists.
  split; [eapply encrypt_file_spec; eassumption|].
  split.
  - rewrite loads_envelope_bytes. cbn [rbind]. rewrite getitem_ciphertext.
    cbn [rbind encode_utf8]. rewrite utf8_encode_b64. cbn [rbind].
    rewrite Base64Facts.urlsafe_b64decode_encode. cbn [rbind].
    unfold fernet_token. apply Base64Facts.urlsafe_b64decode_encode.
  - unfold fernet_parts. rewrite <- app_comm_cons. cbn [skipn].
    rewrite <- !app_assoc.
    rewrite (@FernetFacts.firstn_exact _ ts) by (symmetry; exact T8).
    apply from_bytes_to_bytes8. exact Hts.
Qed.

Lemma envelope_reveals_time_witness :
  LibraryOk Toy.library
  /\ Utf8.encode (str "correct horse") = Ok (lit "correct horse")
  /\ clock_ok Toy.world
  /\ exists env w' data,
      encrypt_file (L := Toy.library) (str "correct horse") (lit "hello world")
        Toy.world = (Ok env, w')
      /\ (em <- Json.loads (L := Toy.library) env ;;
          c <- getitem em (str "ciphertext_b64") ;;
          b <- encode_utf8 c ;;
          token <- Base64.urlsafe_b64decode b ;;
          Base64.urlsafe_b64decode token)%result = Ok data
      /\ from_bytes (firstn 8 (skipn 1 data)) = clock Toy.world.
Proof.
  assert (A : Utf8.encode (str "correct horse") = Ok (lit "correct horse"))
    by (vm_compute; reflexivity).
  assert (B : clock_ok Toy.world) by (unfold clock_ok; cbn; lia).
  split; [exact ToyFacts.library_ok|]. split; [exact A|]. split; [exact B|].
  exact (@envelope_reveals_time Toy.library ToyFacts.library_ok
           (str "correct horse") (lit "hello world") (lit "correct horse")
           Toy.world A B).
Defined.

(** * A flipped bit in [ciphertext_b64] *)

(** ** The bytes around the flipped one *)

Lemma flip_bit_spot (l1 l2 : bytes) (x : byte) (j : N) :
  flip_bit (length l1) j (l1 ++ x :: l2)
  = l1 ++ byte_of_N (N.lxor (N_of_byte x) (2 ^ j)) :: l2.
Proof.
  induction l1 as [|a l1 IH]; [reflexivity|].
  cbn [length Datatypes.app flip_bit]. rewrite IH. reflexivity.
Qed.

Lemma envelope_text_split (s c : pystr) :
  envelope_text s c = envelope_head s ++ c ++ [Json.QUOTE; Json.ch "}"].
Proof.
  unfold envelope_text, envelope_head.
  cbn [str list_ascii_of_string List.map Datatypes.app].
  rewrite <- ?app_assoc. cbn [Datatypes.app].
  rewrite <- ?app_assoc. reflexivity.
Qed.

Lemma envelope_head_length (s : pystr) : length (envelope_head s) = 75 + length s.
Proof.
  unfold envelope_head.
  repeat first [ rewrite length_app | rewrite length_cons ].
  cbn [str list_ascii_of_string List.map length]. lia.
Qed.

Lemma envelope_head_plain_ascii (s : pystr) : all_plain s ->
  Forall (fun x => (x < 128)%N) (envelope_head s).
Proof.
  intros Hs. apply all_plain_ascii in Hs. unfold envelope_head.
  repeat first [ assumption
               | apply Forall_nil
               | apply Forall_cons; [reflexivity|]
               | apply Forall_app; split ].
Qed.

(** ** UTF-8 with one byte out of place *)

Lemma utf8_decode_ascii_app (surrogatepass : bool) (a rest : bytes) :
  Forall (fun c => (N_of_byte c < 128)%N) a ->
  Utf8.decode surrogatepass (a ++ rest)
  = match Utf8.decode surrogatepass rest with
    | Ok r => Ok (List.map N_of_byte a ++ r)
    | Raise e => Raise e
    end.
Proof.
  induction 1 as [|c a Hc _ IH].
  - cbn [Datatypes.app List.map]. destruct (Utf8.decode surrogatepass rest); reflexivity.
  - cbn [Datatypes.app Utf8.decode List.map].
    apply N.ltb_lt in Hc. rewrite Hc, IH.
    destruct (Utf8.decode surrogatepass rest); reflexivity.
Qed.

(** A byte from 128 on that is followed by an ASCII byte starts no
    character. *)
Lemma utf8_decode_stray (surrogatepass : bool) (b b1 : byte) (rest : bytes) :
  (128 <= N_of_byte b)%N -> (N_of_byte b1 < 128)%N ->
  Utf8.decode surrogatepass (b :: b1 :: rest) = Raise UnicodeDecodeError.
Proof.
  intros Hb H1. cbn [Utf8.decode].
  assert (C : Utf8.cont b1 = false).
  { unfold Utf8.cont. apply andb_false_iff. left. apply N.leb_gt. exact H1. }
  replace (N_of_byte b <? 128)%N with false by (symmetry; apply N.ltb_ge; exact Hb).
  destruct (N_of_byte b <? 194)%N; [reflexivity|].
  destruct (N_of_byte b <? 224)%N; [rewrite C; reflexivity|].
  destruct (N_of_byte b <? 240)%N.
  { destruct rest as [|b2 rest]; [reflexivity|]. rewrite C. reflexivity. }
  destruct (N_of_byte b <? 245)%N; [|reflexivity].
  destruct rest as [|b2 [|b3 rest]]; try reflexivity. rewrite C. reflexivity.
Qed.

(** ** The scanner on a string with one character out of place *)

Module JsonFlip.
Import Json.

Lemma scanstring_plain_char (c : N) (r : pystr) : plain c = true ->
  scanstring (c :: r) = push c (scanstring r).
Proof.
  intros Hc. cbn [scanstring].
  destruct (@JsonFacts.plain_inv c Hc) as (-> & -> & -> & _). reflexivity.
Qed.

Lemma scanstring_plain_app (c1 x : pystr) : all_plain c1 ->
  scanstring (c1 ++ x)
  = match scanstring x with
    | Ok (s, r) => Ok (c1 ++ s, r)
    | Raise e => Raise e
    end.
Proof.
  induction 1 as [|c c1 Hc _ IH].
  - cbn [Datatypes.app]. destruct (scanstring x) as [[s r]|e]; reflexivity.
  - rewrite <- app_comm_cons. rewrite (@scanstring_plain_char c _ Hc), IH.
    destruct (scanstring x) as [[s r]|e]; reflexivity.
Qed.

Lemma urlsafe_plain (c : N) : urlsafe_char c = true -> plain c = true.
Proof.
  unfold urlsafe_char, plain. intros H.
  rewrite !orb_true_iff, !andb_true_iff, !N.leb_le, !N.eqb_eq in H.
  rewrite !andb_true_iff, !negb_true_iff, !N.leb_le, !N.eqb_neq. lia.
Qed.

Lemma urlsafe_all_plain (s : pystr) :
  Forall (fun c => urlsafe_char c = true) s -> all_plain s.
Proof. apply Forall_impl. exact urlsafe_plain. Qed.

(** A character of base64 text is no white space, no comma, no brace, no
    backslash and not the letter of an escape. *)
Lemma urlsafe_not_delimiter (c : N) : urlsafe_char c = true ->
  is_ws c = false /\ is_char c "}" = false /\ is_char c "," = false
  /\ (c =? BACKSLASH)%N = false.
Proof.
  unfold urlsafe_char, is_ws, is_char, ch, BACKSLASH. intros H.
  rewrite !orb_true_iff, !andb_true_iff, !N.leb_le, !N.eqb_eq in H.
  change (N_of_ascii "}") with 125%N. change (N_of_ascii ",") with 44%N.
  rewrite !orb_false_iff, !N.eqb_neq. lia.
Qed.


(** A [\uXXXX] escape that no backslash follows. *)
Lemma scanstring_u (h1 h2 h3 h4 uni : N) (r2 : pystr) :
  decode_uXXXX h1 h2 h3 h4 = Some uni ->
  match r2 with
  | b :: _ => (b =? BACKSLASH)%N = false
  | [] => True
  end ->
  scanstring (BACKSLASH :: ch "u" :: h1 :: h2 :: h3 :: h4 :: r2)
  = push uni (scanstring r2).
Proof.
  intros D B. cbn [scanstring].
  change (BACKSLASH =? QUOTE)%N with false.
  change (BACKSLASH <? 32)%N with false.
  change (BACKSLASH =? BACKSLASH)%N with true.
  change (is_char (ch "u") "u") with true. cbv iota.
  rewrite D.
  destruct r2 as [|b [|u [|l1 [|l2 [|l3 [|l4 r3]]]]]]; try reflexivity.
  rewrite B, andb_false_r. reflexivity.
Qed.

(** The rest of a base64 text up to the closing quote does not start
    with a backslash. *)
Lemma no_backslash_next (r2 : pystr) :
  Forall (fun c => urlsafe_char c = true) r2 ->
  match r2 ++ [QUOTE; ch "}"] with
  | b :: _ => (b =? BACKSLASH)%N = false
  | [] => True
  end.
Proof.
  intros H. destruct r2 as [|b r2]; [reflexivity|].
  cbn [Datatypes.app]. apply Forall_cons_iff in H.
  apply (@urlsafe_not_delimiter b (proj1 H)).
Qed.

(** What the scanner makes of a string of base64 text whose first
    character was replaced by [y]: it fails, or reads a string up to the
    closing quote, or, when [y] is a quote, stops at once with the rest
    of the base64 text unread. *)
Lemma scanstring_flipped (y : N) (c2 : pystr) :
  Forall (fun c => urlsafe_char c = true) c2 ->
  scanstring (y :: c2 ++ [QUOTE; ch "}"]) = Raise JSONDecodeError
  \/ (exists v, scanstring (y :: c2 ++ [QUOTE; ch "}"]) = Ok (v, [ch "}"]))
  \/ (y = QUOTE
      /\ scanstring (y :: c2 ++ [QUOTE; ch "}"]) = Ok ([], c2 ++ [QUOTE; ch "}"])).
Proof.
  intros H.
  assert (T : forall r, Forall (fun c => urlsafe_char c = true) r ->
                        scanstring (r ++ [QUOTE; ch "}"]) = Ok (r, [ch "}"])).
  { intros r Hr. apply JsonFacts.scanstring_plain, urlsafe_all_plain, Hr. }
  destruct (N.eqb_spec y QUOTE) as [Eq|Nq].
  { right. right. split; [exact Eq|]. subst y. reflexivity. }
  apply N.eqb_neq in Nq.
  destruct (y <? 32)%N eqn:Ectl.
  { left. cbn [scanstring]. rewrite Nq, Ectl. reflexivity. }
  destruct (N.eqb_spec y BACKSLASH) as [Eb|Nb].
  2:{ right. left. exists (y :: c2). cbn [scanstring].
      apply N.eqb_neq in Nb. rewrite Nq, Ectl, Nb, (T c2 H). reflexivity. }
  subst y. clear Nq Ectl.
  destruct c2 as [|e r1].
  { left. reflexivity. }
  apply Forall_cons_iff in H. destruct H as [He Hr1].
  cbn [Datatypes.app].
  destruct (is_char e "u") eqn:Eu.
  - apply N.eqb_eq in Eu. subst e.
    destruct r1 as [|h1 [|h2 [|h3 [|h4 r2]]]].
    + left. reflexivity.
    + left. reflexivity.
    + left. cbn [Datatypes.app].
      destruct (decode_uXXXX h1 h2 QUOTE (ch "}")) as [uni|] eqn:D.
      * rewrite (@scanstring_u _ _ _ _ uni [] D I). reflexivity.
      * cbn [scanstring]. 
        change (BACKSLASH =? QUOTE)%N with false.
        change (BACKSLASH <? 32)%N with false.
        change (BACKSLASH =? BACKSLASH)%N with true.
        change (is_char (ch "u") "u") with true. cbv iota.
        rewrite D. reflexivity.
    + left. cbn [Datatypes.app].
      destruct (decode_uXXXX h1 h2 h3 QUOTE) as [uni|] eqn:D.
      * rewrite (@scanstring_u _ _ _ _ uni [ch "}"] D eq_refl). reflexivity.
      * cbn [scanstring]. 
        change (BACKSLASH =? QUOTE)%N with false.
        change (BACKSLASH <? 32)%N with false.
        change (BACKSLASH =? BACKSLASH)%N with true.
        change (is_char (ch "u") "u") with true. cbv iota.
        rewrite D. reflexivity.
    + cbn [Datatypes.app].
      assert (Hr2 : Forall (fun c => urlsafe_char c = true) r2).
      { repeat (apply Forall_cons_iff in Hr1; destruct Hr1 as [_ Hr1]). exact Hr1. }
      destruct (decode_uXXXX h1 h2 h3 h4) as [uni|] eqn:D.
      * right. left. exists (uni :: r2).
        rewrite (@scanstring_u _ _ _ _ uni _ D (@no_backslash_next r2 Hr2)).
        rewrite (T r2 Hr2). reflexivity.
      * left. cbn [scanstring]. 
        change (BACKSLASH =? QUOTE)%N with false.
        change (BACKSLASH <? 32)%N with false.
        change (BACKSLASH =? BACKSLASH)%N with true.
        change (is_char (ch "u") "u") with true. cbv iota.
        rewrite D. reflexivity.
  - cbn [scanstring].
    change (BACKSLASH =? QUOTE)%N with false.
    change (BACKSLASH <? 32)%N with false.
    change (BACKSLASH =? BACKSLASH)%N with true. cbv iota.
    rewrite Eu.
    destruct (simple_escape e) as [c'|].
    + right. left. exists (c' :: r1). rewrite (T r1 Hr1). reflexivity.
    + left. reflexivity.
Qed.


Lemma envelope_head_app (s v : pystr) :
  envelope_head s ++ v
  = ch "{" :: QUOTE :: str "salt" ++ QUOTE :: str ": "
    ++ QUOTE :: s ++ QUOTE :: str ", "
    ++ QUOTE :: str "length" ++ QUOTE :: str ": " ++ str "32" ++ str ", "
    ++ QUOTE :: str "n" ++ QUOTE :: str ": " ++ str "131072" ++ str ", "
    ++ QUOTE :: str "r" ++ QUOTE :: str ": " ++ str "8" ++ str ", "
    ++ QUOTE :: str "p" ++ QUOTE :: str ": " ++ str "1" ++ str ", "
    ++ QUOTE :: str "ciphertext_b64" ++ QUOTE :: str ": "
    ++ QUOTE :: v.
Proof.
  unfold envelope_head.
  cbn [str list_ascii_of_string List.map Datatypes.app].
  rewrite <- ?app_assoc. cbn [Datatypes.app].
  rewrite <- ?app_assoc. reflexivity.
Qed.

(** The last member, whose value is a string that starts at [v]. *)
Lemma member_str_open (fuel : nat) acc (k v : pystr) :
  all_plain k ->
  parse_members (S (S fuel)) acc (QUOTE :: k ++ QUOTE :: str ": " ++ QUOTE :: v)
  = (p <- scanstring v ;;
     let acc' := dict_set acc k (PyStr (fst p)) in
     match skip_ws (snd p) with
     | c2 :: r2 =>
         if is_char c2 "}" then Ok (PyDict acc', r2)
         else if is_char c2 "," then parse_members (S fuel) acc' (skip_ws r2)
         else Raise JSONDecodeError
     | [] => Raise JSONDecodeError
     end)%result.
Proof.
  intros Hk. cbn [parse_members]. rewrite N.eqb_refl.
  rewrite (@JsonFacts.scanstring_plain k _ Hk). cbn [rbind fst snd].
  change (skip_ws (str ": " ++ QUOTE :: v)) with (ch ":" :: 32%N :: QUOTE :: v).
  change (is_char (ch ":") ":") with true. cbn iota.
  change (skip_ws (32%N :: QUOTE :: v)) with (QUOTE :: v).
  cbn [scan_once]. rewrite N.eqb_refl.
  destruct (scanstring v) as [[t rest]|e]; reflexivity.
Qed.

(** The scanner on the head of an envelope followed by any text: the
    five first members are read, and the value of the last one is the
    string that starts at [v]. *)
Lemma scan_envelope_head (fuel : nat) (s v : pystr) :
  all_plain s ->
  scan_once (8 + fuel) (envelope_head s ++ v)
  = (p <- scanstring v ;;
     match skip_ws (snd p) with
     | c2 :: r2 =>
         if is_char c2 "}" then Ok (envelope s (fst p), r2)
         else if is_char c2 "," then
           match envelope s (fst p) with
           | PyDict acc' => parse_members (S fuel) acc' (skip_ws r2)
           | _ => Raise JSONDecodeError
           end
         else Raise JSONDecodeError
     | [] => Raise JSONDecodeError
     end)%result.
Proof.
  intros Hs. rewrite envelope_head_app.
  change (8 + fuel) with (S (S (S (S (S (S (S (S fuel)))))))).
  rewrite JsonFacts.scan_once_object.
  rewrite (@JsonFacts.member_str_comma _ _ (str "salt") s _
             JsonFacts.all_plain_str_salt Hs).
  rewrite (@JsonFacts.member_int_comma _ _ (str "length") (str "32") _ 32
             JsonFacts.all_plain_str_length
             (fun r => eq_refl) (JsonFacts.scan_once_32 _)).
  rewrite (@JsonFacts.member_int_comma _ _ (str "n") (str "131072") _ 131072
             JsonFacts.all_plain_str_n
             (fun r => eq_refl) (JsonFacts.scan_once_131072 _)).
  rewrite (@JsonFacts.member_int_comma _ _ (str "r") (str "8") _ 8
             JsonFacts.all_plain_str_r
             (fun r => eq_refl) (JsonFacts.scan_once_8 _)).
  rewrite (@JsonFacts.member_int_comma _ _ (str "p") (str "1") _ 1
             JsonFacts.all_plain_str_p
             (fun r => eq_refl) (JsonFacts.scan_once_1 _)).
  rewrite (@member_str_open _ _ (str "ciphertext_b64") v
             JsonFacts.all_plain_str_ciphertext).
  destruct (scanstring v) as [[t rest]|e]; reflexivity.
Qed.

Lemma envelope_head_long (s v : pystr) : 7 <= length (envelope_head s ++ v).
Proof. rewrite length_app, envelope_head_length. lia. Qed.

(** [JSONDecoder.decode] on the text of an envelope in which one
    character of [ciphertext_b64] was replaced by [y]: a
    [JSONDecodeError], or an envelope that differs in [ciphertext_b64]
    at most. *)
Lemma decode_flipped (s c1 c2 : pystr) (y : N) :
  all_plain s -> all_plain c1 ->
  Forall (fun c => urlsafe_char c = true) c2 ->
  decode (envelope_head s ++ c1 ++ y :: c2 ++ [QUOTE; ch "}"])
  = Raise JSONDecodeError
  \/ exists v,
      decode (envelope_head s ++ c1 ++ y :: c2 ++ [QUOTE; ch "}"])
      = Ok (envelope s v).
Proof.
  intros Hs H1 H2. unfold decode.
  assert (E : skip_ws (envelope_head s ++ c1 ++ y :: c2 ++ [QUOTE; ch "}"])
              = envelope_head s ++ c1 ++ y :: c2 ++ [QUOTE; ch "}"])
    by (rewrite envelope_head_app; reflexivity).
  rewrite E. cbv zeta.
  replace (S (length (envelope_head s ++ c1 ++ y :: c2 ++ [QUOTE; ch "}"])))
    with (8 + (length (envelope_head s ++ c1 ++ y :: c2 ++ [QUOTE; ch "}"]) - 7))
    by (pose proof (envelope_head_long s (c1 ++ y :: c2 ++ [QUOTE; ch "}"])); lia).
  rewrite (@scan_envelope_head _ s _ Hs).
  rewrite (@scanstring_plain_app c1 _ H1).
  destruct (@scanstring_flipped y c2 H2) as [R|[[v R]|[Ey R]]]; rewrite R.
  - left. reflexivity.
  - right. exists (c1 ++ v). reflexivity.
  - left. cbn [rbind fst snd].
    destruct c2 as [|e c2].
    + reflexivity.
    + apply Forall_cons_iff in H2. destruct H2 as [He _].
      destruct (@urlsafe_not_delimiter e He) as (W & B & C & _).
      cbn [Datatypes.app skip_ws]. rewrite W, B, C. reflexivity.
Qed.

End JsonFlip.

Lemma ascii_bytes (s : pystr) : Forall (fun c => (c < 128)%N) s ->
  Forall (fun c => (N_of_byte c < 128)%N) (List.map byte_of_N s).
Proof.
  intros A. apply Forall_map. eapply Forall_impl; [|exact A].
  intros x Hx. cbv beta in Hx. rewrite N_of_byte_of_N; lia.
Qed.

Lemma urlsafe_ascii (s : pystr) :
  Forall (fun c => urlsafe_char c = true) s -> Forall (fun c => (c < 128)%N) s.
Proof.
  intros H. apply all_plain_ascii, JsonFlip.urlsafe_all_plain, H.
Qed.

(** [json.loads] on the bytes of an envelope in which one byte of
    [ciphertext_b64] was replaced by [x]: the bytes are no UTF-8 any
    more, or the text is no JSON any more, or they are read as an
    envelope that differs in [ciphertext_b64] at most. *)
Lemma loads_flipped {L : Library} (s c1 c2 : pystr) (x : byte) :
  all_plain s -> all_plain c1 ->
  Forall (fun c => urlsafe_char c = true) c2 ->
  Json.loads (List.map byte_of_N (envelope_head s ++ c1)
              ++ x :: List.map byte_of_N (c2 ++ [Json.QUOTE; Json.ch "}"]))
  = Raise UnicodeDecodeError
  \/ Json.loads (List.map byte_of_N (envelope_head s ++ c1)
                 ++ x :: List.map byte_of_N (c2 ++ [Json.QUOTE; Json.ch "}"]))
     = Raise JSONDecodeError
  \/ exists v,
      Json.loads (List.map byte_of_N (envelope_head s ++ c1)
                  ++ x :: List.map byte_of_N (c2 ++ [Json.QUOTE; Json.ch "}"]))
      = Ok (envelope s v).
Proof.
  intros Hs H1 H2. unfold Json.loads.
  assert (E : Json.detect_encoding
                (List.map byte_of_N (envelope_head s ++ c1)
                 ++ x :: List.map byte_of_N (c2 ++ [Json.QUOTE; Json.ch "}"]))
              = utf_8) by reflexivity.
  rewrite E. clear E.
  assert (A : Forall (fun c => (c < 128)%N) (envelope_head s ++ c1)).
  { apply Forall_app. split; [apply envelope_head_plain_ascii, Hs|].
    apply all_plain_ascii, H1. }
  assert (B : Forall (fun c => (c < 128)%N) (c2 ++ [Json.QUOTE; Json.ch "}"])).
  { apply Forall_app. split; [apply urlsafe_ascii, H2|].
    repeat constructor. }
  rewrite (@utf8_decode_ascii_app true _ _ (ascii_bytes A)).
  destruct (N.ltb_spec (N_of_byte x) 128) as [Hx|Hx].
  - assert (D : Utf8.decode true
                  (x :: List.map byte_of_N (c2 ++ [Json.QUOTE; Json.ch "}"]))
                = Ok (N_of_byte x :: c2 ++ [Json.QUOTE; Json.ch "}"])).
    { rewrite utf8_decode_ascii.
      - cbn [List.map]. rewrite (map_N_of_byte_of_N B). reflexivity.
      - apply Forall_cons; [exact Hx | apply ascii_bytes, B]. }
    rewrite D, (map_N_of_byte_of_N A). cbn [rbind].
    rewrite <- app_assoc.
    destruct (@JsonFlip.decode_flipped s c1 c2 (N_of_byte x) Hs H1 H2) as [R|[v R]].
    + right. left. exact R.
    + right. right. exists v. exact R.
  - left.
    assert (D : Utf8.decode true
                  (x :: List.map byte_of_N (c2 ++ [Json.QUOTE; Json.ch "}"]))
                = Raise UnicodeDecodeError).
    { destruct (c2 ++ [Json.QUOTE; Json.ch "}"]) as [|e r] eqn:Ec.
      - destruct c2; discriminate Ec.
      - cbn [List.map]. apply utf8_decode_stray; [exact Hx|].
        apply Forall_cons_iff in B. destruct B as [He _].
        rewrite N_of_byte_of_N; lia. }
    rewrite D. reflexivity.
Qed.

(** ** [decrypt_file] on what [json.loads] made of the flipped bytes *)

Lemma decrypt_file_unread {L : Library} (password : pystr) (file_bytes : bytes)
      (e : exn) (w : World) :
  Json.loads file_bytes = Raise e ->
  decrypt_file password file_bytes w = (Raise e, w).
Proof.
  intros H. unfold decrypt_file. rewrite bind_lift, H. reflexivity.
Qed.

(** On bytes read as an envelope with the salt and the parameters of
    [encrypt_file], all that is left to fail is the text of
    [ciphertext_b64]. *)
Lemma decrypt_file_loaded {L : Library} (HL : LibraryOk L)
      (password text' : pystr) (key_material salt k file_bytes : bytes)
      (w : World) :
  Utf8.encode password = Ok key_material ->
  derive_scrypt key_material salt 131072 8 1 32 = Ok k ->
  Json.loads file_bytes = Ok (envelope (b64_str salt) text') ->
  decrypt_file password file_bytes w
  = ((b <- Utf8.encode text' ;;
      token' <- Base64.urlsafe_b64decode b ;;
      Fernet.decrypt (fernet_of k) token')%result,
     logged w (default_call key_material salt)).
Proof.
  intros Hpw Hk Hloads. pose proof (derive_default_length HL _ _ Hk) as Hlen.
  unfold decrypt_file.
  unfold bind at 1. unfold lift at 1. rewrite Hloads.
  unfold bind at 1. unfold lift at 1. rewrite getitem_salt.
  unfold bind at 1. unfold lift at 1. cbn [encode_utf8]. rewrite utf8_encode_b64.
  unfold bind at 1. unfold lift at 1.
  rewrite Base64Facts.urlsafe_b64decode_encode.
  unfold bind at 1. unfold lift at 1. rewrite getitem_length.
  unfold bind at 1. unfold lift at 1. rewrite getitem_n.
  unfold bind at 1. unfold lift at 1. rewrite getitem_r.
  unfold bind at 1. unfold lift at 1. rewrite getitem_p.
  unfold bind at 1. unfold lift at 1. rewrite Scrypt_init_default.
  unfold bind at 1. unfold lift at 1. rewrite Hpw.
  unfold bind at 1. rewrite Scrypt_derive_spec.
  cbn [_length _salt _n _r _p as_int rbind]. cbv zeta.
  fold (default_call key_material salt). rewrite Hk.
  unfold bind at 1. unfold lift at 1. rewrite getitem_ciphertext.
  unfold bind at 1. unfold lift at 1. cbn [encode_utf8].
  destruct (Utf8.encode text') as [b|e]; [|reflexivity].
  unfold bind at 1. unfold lift at 1. cbn [rbind].
  destruct (Base64.urlsafe_b64decode b) as [token'|e]; [|reflexivity].
  unfold bind at 1. unfold lift at 1.
  rewrite FernetFacts.init_encode, Hlen. cbn [Nat.eqb].
  reflexivity.
Qed.

(** The bytes of an envelope around one character of [ciphertext_b64]. *)
Lemma envelope_bytes_at (s c : pystr) (n : nat) :
  n < length c ->
  exists c1 c2,
    c = c1 ++ nth n c 0%N :: c2
    /\ length (List.map byte_of_N (envelope_head s ++ c1)) = length (envelope_head s) + n
    /\ List.map byte_of_N (envelope_text s c)
       = List.map byte_of_N (envelope_head s ++ c1)
         ++ byte_of_N (nth n c 0%N)
         :: List.map byte_of_N (c2 ++ [Json.QUOTE; Json.ch "}"]).
Proof.
  intros Hn. destruct (nth_split c 0%N Hn) as (c1 & c2 & Ec & Hl).
  exists c1, c2. split; [exact Ec|]. split.
  - rewrite length_map, length_app, Hl. reflexivity.
  - rewrite envelope_text_split. rewrite Ec at 1.
    rewrite <- app_assoc, !map_app. cbn [Datatypes.app List.map].
    rewrite <- app_assoc. reflexivity.
Qed.

(** C3: in an envelope made by [encrypt_file], the text of
    [ciphertext_b64] starts at byte 119 and is not empty.  When one bit of one of its bytes
    is flipped, [decrypt_file] raises [UnicodeDecodeError] if the bytes
    are no UTF-8 any more and [json.JSONDecodeError] if the text is no
    JSON any more; otherwise the bytes are read as the same envelope with
    another text [text'] in [ciphertext_b64], and [decrypt_file] raises
    [UnicodeEncodeError] if [text'] has no UTF-8 encoding,
    [binascii.Error] if it does not decode as base64, and otherwise does
    what [Fernet.decrypt] does with the decoded token under the same
    derived key: it raises [InvalidToken] when the tag of the token does
    not verify, it returns bytes only for a token whose tag verifies, and
    it returns the original plaintext when the text decodes to the
    original token. *)
Theorem C3_tampered_ciphertext {L : Library} (HL : LibraryOk L)
        (password : pystr) (file_bytes key_material : bytes) (w : World) :
  Utf8.encode password = Ok key_material ->
  clock_ok w ->
  exists env w1 salt_str ciphertext_str k token,
    encrypt_file password file_bytes w = (Ok env, w1)
    /\ Utf8.decode false env
       = Ok (envelope_head salt_str ++ ciphertext_str
             ++ [Json.QUOTE; Json.ch "}"])
    /\ length (envelope_head salt_str) = 119
    /\ 0 < length ciphertext_str
    /\ Json.loads env = Ok (envelope salt_str ciphertext_str)
    /\ derive_scrypt key_material (draw w 32) 131072 8 1 32 = Ok k
    /\ (b <- Utf8.encode ciphertext_str ;; Base64.urlsafe_b64decode b)%result
       = Ok token
    /\ Fernet.decrypt (fernet_of k) token = Ok file_bytes
    /\ forall (i : nat) (j : N) (w2 : World),
        119 <= i < 119 + length ciphertext_str ->
        let file_bytes' := flip_bit i j env in
        let r := fst (decrypt_file password file_bytes' w2) in
        (Json.loads file_bytes' = Raise UnicodeDecodeError
         /\ r = Raise UnicodeDecodeError)
        \/ (Json.loads file_bytes' = Raise JSONDecodeError
            /\ r = Raise JSONDecodeError)
        \/ exists text',
            Json.loads file_bytes' = Ok (envelope salt_str text')
            /\ ((Utf8.encode text' = Raise UnicodeEncodeError
                 /\ r = Raise UnicodeEncodeError)
                \/ (exists b,
                      Utf8.encode text' = Ok b
                      /\ Base64.urlsafe_b64decode b = Raise BinasciiError
                      /\ r = Raise BinasciiError)
                \/ (exists b token',
                      Utf8.encode text' = Ok b
                      /\ Base64.urlsafe_b64decode b = Ok token'
                      /\ r = Fernet.decrypt (fernet_of k) token'
                      /\ (~ tag_verifies (fernet_of k) token' ->
                          r = Raise InvalidToken)
                      /\ (forall m', r = Ok m' ->
                                     tag_verifies (fernet_of k) token')
                      /\ (token' = token -> r = Ok file_bytes))).
Proof.
  intros Hpw Hclock.
  destruct (derive_default_ok HL key_material (draw w 32)) as (k & Hk & Hlen).
  destruct (FernetFacts.to_bytes8_ok Hclock) as [ts Hts].
  set (token := fernet_token (fernet_of k) ts (draw (advance w 32) 16) file_bytes).
  assert (Hopen : Fernet.decrypt (fernet_of k) token = Ok file_bytes).
  { apply FernetFacts.decrypt_token.
    - exact HL.
    - exact Hlen.
    - eapply FernetFacts.to_bytes8_length; eassumption.
    - apply draw_length. }
  eexists. eexists. exists (b64_str (draw w 32)), (b64_str token), k, token.
  split; [eapply encrypt_file_spec; eassumption|].
  split.
  { rewrite <- envelope_text_split. apply utf8_decode_envelope_bytes. }
  split.
  { rewrite envelope_head_length, b64_str_length, draw_length. reflexivity. }
  split.
  { rewrite b64_str_length. unfold token, fernet_token.
    rewrite Base64Facts.urlsafe_b64encode_length, length_app, (hmac_length HL).
    assert (P : forall n, 0 < n -> 0 < 4 * ((n + 2) / 3)).
    { intros n Hn.
      assert (1 <= (n + 2) / 3) by (apply Nat.div_le_lower_bound; lia). lia. }
    apply P, P. lia. }
  split; [apply loads_envelope_bytes|].
  split; [exact Hk|].
  split; [apply decode_b64_str|].
  split; [exact Hopen|].
  intros i j w2 Hi. cbv zeta.
  assert (H119 : length (envelope_head (b64_str (draw w 32))) = 119)
    by (rewrite envelope_head_length, b64_str_length, draw_length; reflexivity).
  assert (Hn : i - 119 < length (b64_str token)) by lia.
  destruct (@envelope_bytes_at (b64_str (draw w 32)) (b64_str token) (i - 119) Hn)
    as (c1 & c2 & Ec & Hl & Eb).
  fold token.
  unfold envelope_bytes. rewrite Eb.
  replace i with (length (List.map byte_of_N
                            (envelope_head (b64_str (draw w 32)) ++ c1)))
    by (rewrite Hl, H119; lia).
  rewrite flip_bit_spot.
  assert (Hc : Forall (fun c => urlsafe_char c = true) (c1 ++ nth (i - 119) (b64_str token) 0%N :: c2))
    by (rewrite <- Ec; apply b64_str_urlsafe).
  apply Forall_app in Hc. destruct Hc as [Hc1 Hc2].
  apply Forall_cons_iff in Hc2. destruct Hc2 as [_ Hc2].
  match goal with
  | |- context [decrypt_file password ?fb w2] => set (fb' := fb)
  end.
  assert (T : Json.loads fb' = Raise UnicodeDecodeError
              \/ Json.loads fb' = Raise JSONDecodeError
              \/ exists text', Json.loads fb'
                               = Ok (envelope (b64_str (draw w 32)) text')).
  { exact (@loads_flipped L (b64_str (draw w 32)) c1 c2 _
             (b64_str_plain (draw w 32)) (JsonFlip.urlsafe_all_plain Hc1) Hc2). }
  clearbody fb'.
  destruct T as [R|[R|[text' R]]].
  - left. split; [exact R|].
    rewrite (@decrypt_file_unread L password fb' _ w2 R). reflexivity.
  - right. left. split; [exact R|].
    rewrite (@decrypt_file_unread L password fb' _ w2 R). reflexivity.
  - right. right. exists text'. split; [exact R|].
    rewrite (@decrypt_file_loaded L HL password text' key_material (draw w 32) k
               fb' w2 Hpw Hk R).
    cbn [fst].
    destruct (Utf8.encode text') as [b|e] eqn:Hb.
    2:{ left. pose proof (@utf8_encode_raise text' e Hb) as He. subst e.
        split; reflexivity. }
    right. cbn [rbind].
    destruct (Base64.urlsafe_b64decode b) as [token'|e] eqn:Ht.
    2:{ left. exists b. pose proof (@urlsafe_b64decode_raise b e Ht) as He.
        subst e. split; [reflexivity|]. split; [exact Ht | reflexivity]. }
    right. exists b, token'. cbn [rbind].
    split; [reflexivity|]. split; [exact Ht|]. split; [reflexivity|].
    split; [|split].
    + apply decrypt_unverified.
    + intros m'. apply decrypt_ok_verifies.
    + intros ->. exact Hopen.
Qed.

Lemma C3_tampered_ciphertext_witness :
  LibraryOk Toy.library
  /\ Utf8.encode (str "correct horse") = Ok (lit "correct horse")
  /\ clock_ok Toy.world
  /\ exists (env : bytes) (w1 : World) (salt_str ciphertext_str : pystr)
            (k token : bytes),
      encrypt_file (L := Toy.library) (str "correct horse") (lit "hello world")
        Toy.world = (Ok env, w1)
      /\ 119 <= 119 < 119 + length ciphertext_str
      /\ Fernet.decrypt (L := Toy.library) (fernet_of k) token
         = Ok (lit "hello world")
      /\ let file_bytes' := flip_bit 119 0 env in
         let r := fst (decrypt_file (L := Toy.library) (str "correct horse")
                         file_bytes' Toy.world) in
         (Json.loads (L := Toy.library) file_bytes' = Raise UnicodeDecodeError
          /\ r = Raise UnicodeDecodeError)
         \/ (Json.loads (L := Toy.library) file_bytes' = Raise JSONDecodeError
             /\ r = Raise JSONDecodeError)
         \/ exists text',
             Json.loads (L := Toy.library) file_bytes'
             = Ok (envelope salt_str text')
             /\ ((Utf8.encode text' = Raise UnicodeEncodeError
                  /\ r = Raise UnicodeEncodeError)
                 \/ (exists b,
                       Utf8.encode text' = Ok b
                       /\ Base64.urlsafe_b64decode b = Raise BinasciiError
                       /\ r = Raise BinasciiError)
                 \/ (exists b token',
                       Utf8.encode text' = Ok b
                       /\ Base64.urlsafe_b64decode b = Ok token'
                       /\ r = Fernet.decrypt (L := Toy.library) (fernet_of k) token'
                       /\ (~ tag_verifies (L := Toy.library) (fernet_of k) token' ->
                           r = Raise InvalidToken)
                       /\ (forall m', r = Ok m' ->
                             tag_verifies (L := Toy.library) (fernet_of k) token')
                       /\ (token' = token -> r = Ok (lit "hello world")))).
Proof.
  assert (A : Utf8.encode (str "correct horse") = Ok (lit "correct horse"))
    by (vm_compute; reflexivity).
  assert (B : clock_ok Toy.world) by (unfold clock_ok; cbn; lia).
  split; [exact ToyFacts.library_ok|]. split; [exact A|]. split; [exact B|].
  destruct (@C3_tampered_ciphertext Toy.library ToyFacts.library_ok
              (str "correct horse") (lit "hello world") (lit "correct horse")
              Toy.world A B)
    as (env & w1 & s & c & k & token & H1 & _ & _ & Hpos & _ & _ & _ & Hopen & Hall).
  exists env, w1, s, c, k, token.
  split; [exact H1|]. split; [lia|]. split; [exact Hopen|].
  apply (Hall 119 0%N Toy.world). lia.
Defined.

(** The flip that goes unnoticed: bit 1 of the last character of data in
    [ciphertext_b64] of [Example.file], which turns [Q] into [S]. *)
Lemma C3_counterexample :
  nth (length Example.file - 5) Example.file x00 = "Q"%byte
  /\ exists text',
      Json.loads (L := Toy.library)
        (flip_bit (length Example.file - 5) 1 Example.file)
      = Ok (with_field Example.message (str "ciphertext_b64") (PyStr text'))
      /\ text' <> Example.ciphertext_str
      /\ fst (decrypt_file (L := Toy.library) Example.password
                (flip_bit (length Example.file - 5) 1 Example.file) Toy.world)
         = Ok Example.plaintext.
Proof.
  split; [vm_compute; reflexivity|].
  eexists. split; [vm_compute; reflexivity|]. split.
  - intros E. apply pystr_eqb_eq in E. vm_compute in E. discriminate E.
  - vm_compute. reflexivity.
Qed.

(** All the flips of one bit in the 136 characters of [ciphertext_b64]
    of [Example.file]: 9 give the original plaintext back, none gives
    other bytes, and the others raise, each kind of error of the theorem
    but [UnicodeEncodeError] among them. *)
Lemma flip_census :
  length Example.file = 257
  /\ length flip_kinds = 1088
  /\ count_kind SamePlaintext = 9
  /\ count_kind OtherBytes = 0
  /\ count_kind NoUtf8 = 136
  /\ count_kind NoJson = 112
  /\ count_kind NoEncoding = 0
  /\ count_kind NoBase64 = 134
  /\ count_kind BadToken = 697
  /\ count_kind OtherError = 0.
Proof. vm_compute. repeat split; reflexivity. Qed.
